(** * Aiassistantbot: the webhook message-processing pipeline

    A shallow embedding of [models.py], [gemini_service.py],
    [telegram_bot.py] and the webhook route of [app.py], followed by the
    properties of the pipeline.

    Conventions of the embedding:
    - a Python [str] is the [string] of its UTF-8 bytes, so lengths and
      slices are Python's on ASCII text;
    - a Python [int] is a [Z];
    - an optional value ([None] or a value) is an [option];
    - the MongoDB collections, the temporary files, and the log of the
      calls made to the outside (Telegram, Gemini) form the [World];
    - what the outside answers (clock readings, store availability,
      Gemini replies, Telegram downloads and deliveries) is an [Env] of
      oracles indexed by the number of consultations made so far;
    - a Python function is a computation [M A]: it takes a world and gives
      a result or a raised exception, together with the world it leaves
      behind.  State changes made before an exception stay. *)

From Stdlib Require Import ZArith Lia Ascii.
From stdpp Require Import gmap strings list pretty sorting.

Open Scope string_scope.
Open Scope list_scope.
Open Scope stdpp_scope.

(** ** Python built-ins used by the sources *)

Module Py.

(** [s.startswith(p)] *)
Definition startswith (s p : string) : bool := String.prefix p s.

(** [sub in s] on strings *)
Fixpoint contains (sub s : string) : bool :=
  String.prefix sub s ||
  match s with
  | EmptyString => false
  | String _ s' => contains sub s'
  end.

Definition is_space (c : ascii) : bool :=
  let n := N_of_ascii c in
  ((9 <=? n) && (n <=? 13) || (28 <=? n) && (n <=? 32))%N.

Fixpoint lstrip (s : string) : string :=
  match s with
  | EmptyString => EmptyString
  | String c s' => if is_space c then lstrip s' else s
  end.

(** [s.strip()] *)
Definition strip (s : string) : string :=
  String.rev (lstrip (String.rev (lstrip s))).

(** truth value of a string: non-empty *)
Definition truthy (s : string) : bool :=
  match s with EmptyString => false | _ => true end.

(** truth value of an optional string: neither [None] nor empty *)
Definition truthy_opt (o : option string) : bool :=
  match o with Some s => truthy s | None => false end.

(** [a or b] where [b] is a string *)
Definition or_else (a : option string) (b : string) : string :=
  match a with
  | Some s => if truthy s then s else b
  | None => b
  end.

Definition upper (c : ascii) : ascii :=
  let n := N_of_ascii c in
  if ((97 <=? n) && (n <=? 122))%N then ascii_of_N (n - 32) else c.

Definition lower (c : ascii) : ascii :=
  let n := N_of_ascii c in
  if ((65 <=? n) && (n <=? 90))%N then ascii_of_N (n + 32) else c.

Fixpoint map_string (f : ascii -> ascii) (s : string) : string :=
  match s with
  | EmptyString => EmptyString
  | String c s' => String (f c) (map_string f s')
  end.

(** [s.capitalize()] *)
Definition capitalize (s : string) : string :=
  match s with
  | EmptyString => EmptyString
  | String c s' => String (upper c) (map_string lower s')
  end.

(** [sep.join(l)] *)
Definition join (sep : string) (l : list string) : string :=
  String.concat sep l.

(** [l[-n:]] for a positive literal [n] *)
Definition last_n {A} (n : nat) (l : list A) : list A :=
  drop (length l - n) l.

(** [s[:n]] *)
Definition str_take (n : nat) (s : string) : string :=
  String.substring 0 n s.

(** [str(x)] of an optional integer *)
Definition str_int (x : option Z) : string :=
  match x with
  | Some z => pretty z
  | None => "None"
  end.

(** [max(l, key=key)]: the first element whose key is maximal;
    [None] stands for the [ValueError] on an empty sequence. *)
Fixpoint max_by {A} (key : A -> Z) (l : list A) : option A :=
  match l with
  | [] => None
  | x :: l' =>
      match max_by key l' with
      | None => Some x
      | Some y => if (key x <? key y)%Z then Some y else Some x
      end
  end.

(** the double-quote character, as a string *)
Definition dq : string := String "034"%char EmptyString.

End Py.

(** ** models.py *)

Module User.
Record t := mk {
  telegram_id : option Z;
  username : option string;
  first_name : option string;
  last_name : option string;
  created_at : Z;
  updated_at : Z;
  is_active : bool
}.
End User.

Module Conversation.
Record t := mk {
  user : string;
  message_type : string;
  content : string;
  timestamp : Z;
  message_id : option Z
}.
End Conversation.

Module FileMessage.
Record t := mk {
  user : string;
  file_id : option string;
  file_type : string;
  file_name : option string;
  file_size : option Z;
  mime_type : option string;
  processed : bool;
  analysis_result : option string;
  timestamp : Z
}.
End FileMessage.

#[global] Instance User_eq_dec : EqDecision User.t.
Proof. solve_decision. Defined.
#[global] Instance Conversation_eq_dec : EqDecision Conversation.t.
Proof. solve_decision. Defined.
#[global] Instance FileMessage_eq_dec : EqDecision FileMessage.t.
Proof. solve_decision. Defined.

(** Field declarations of [models.py] as checked when a document is saved:
    [required=True] fields must not be [None], [max_length] bounds the
    length of a string field, [choices] restricts its value. *)
Module Validate.

Definition max_length (n : nat) (o : option string) : bool :=
  match o with
  | Some s => bool_decide (String.length s <= n)
  | None => true
  end.

Definition user (u : User.t) : bool :=
  bool_decide (is_Some (User.telegram_id u))
  && max_length 255 (User.username u)
  && max_length 255 (User.first_name u)
  && max_length 255 (User.last_name u).

Definition conversation (c : Conversation.t) : bool :=
  bool_decide (Conversation.message_type c ∈ ["user"; "assistant"]).

Definition file_message (f : FileMessage.t) : bool :=
  bool_decide (is_Some (FileMessage.file_id f))
  && max_length 255 (FileMessage.file_id f)
  && max_length 50 (Some (FileMessage.file_type f))
  && max_length 255 (FileMessage.file_name f)
  && max_length 100 (FileMessage.mime_type f).

End Validate.

(** ** Telegram payloads

    The update is decoded once into records; a key that the sources read
    with [.get] is an [option].  [chat] and the [file_id] of a photo size
    are read with plain indexing: Telegram always sends them. *)

Module TgUser.
Record t := mk {
  id : Z;
  username : option string;
  first_name : option string;
  last_name : option string
}.
End TgUser.

Module PhotoSize.
Record t := mk {
  file_id : string;
  file_size : option Z
}.
End PhotoSize.

Module Document.
Record t := mk {
  file_id : option string;
  file_name : option string;
  mime_type : option string;
  file_size : option Z
}.
End Document.

Module Message.
Record t := mk {
  message_id : option Z;
  from : option TgUser.t;
  chat_id : Z;
  text : option string;
  caption : option string;
  photo : option (list PhotoSize.t);
  document : option Document.t
}.
End Message.

(** The JSON body of a webhook call: [UpdEmpty] is a missing or empty body,
    [UpdOther] a non-empty object with neither key. *)
Inductive Update :=
| UpdMessage (m : Message.t)
| UpdEdited (m : Message.t)
| UpdOther
| UpdEmpty.

(** ** World, environment, computations *)

(** Calls made to the outside, oldest first. *)
Inductive Event :=
| EvGetFile (file_id : option string)
| EvGenerate (model : string) (prompt : string) (attachment : option string)
| EvTyping (chat_id : Z)
| EvSendMessage (chat_id : Z) (text : string) (parse_mode : option string).

Inductive Exn :=
| StoreUnavailable
| ValidationError
| NotUniqueError
| APIError
| FileNotFoundError
| UnicodeDecodeError
| ValueError
| OSError
| ConfigError.

Inductive GeminiReply :=
| GeminiFails
| GeminiText (text : option string).

Record Env := mkEnv {
  (** reading of [datetime.utcnow()] at a consultation *)
  utcnow : nat -> Z;
  (** the store operation issued at a consultation raises *)
  store_down : nat -> bool;
  (** [client.models.generate_content(model, contents)] *)
  gemini : nat -> string -> string -> option string -> GeminiReply;
  (** bytes served by Telegram for a file id; [None] when the metadata
      lookup or the download fails *)
  telegram_file : nat -> option string -> option string;
  (** [sendMessage] answered with status 200 *)
  telegram_send : nat -> bool;
  (** decoding of file bytes as UTF-8 text *)
  decode_utf8 : string -> option string;
  (** path chosen by [tempfile.NamedTemporaryFile(suffix=...)] *)
  mktemp : nat -> string -> string;
  (** [os.path.splitext(name)[1]] *)
  splitext_ext : string -> string;
  (** [Config.validate()] passes and the bot can be constructed *)
  bot_configured : bool
}.

Record World := mkWorld {
  (** the three collections, in insertion order *)
  users : list User.t;
  conversations : list Conversation.t;
  file_messages : list FileMessage.t;
  (** temporary files: path to bytes *)
  fs : gmap string string;
  (** number of consultations of the environment made so far *)
  clock : nat;
  trace : list Event
}.

Definition set_users (f : list User.t -> list User.t) (w : World) : World :=
  mkWorld (f (users w)) (conversations w) (file_messages w) (fs w) (clock w) (trace w).
Definition set_conversations (f : list Conversation.t -> list Conversation.t) (w : World) : World :=
  mkWorld (users w) (f (conversations w)) (file_messages w) (fs w) (clock w) (trace w).
Definition set_file_messages (f : list FileMessage.t -> list FileMessage.t) (w : World) : World :=
  mkWorld (users w) (conversations w) (f (file_messages w)) (fs w) (clock w) (trace w).
Definition set_fs (f : gmap string string -> gmap string string) (w : World) : World :=
  mkWorld (users w) (conversations w) (file_messages w) (f (fs w)) (clock w) (trace w).
Definition set_clock (f : nat -> nat) (w : World) : World :=
  mkWorld (users w) (conversations w) (file_messages w) (fs w) (f (clock w)) (trace w).
Definition set_trace (f : list Event -> list Event) (w : World) : World :=
  mkWorld (users w) (conversations w) (file_messages w) (fs w) (clock w) (f (trace w)).

Definition empty_world : World := mkWorld [] [] [] ∅ 0 [].

Inductive Result (A : Type) :=
| Ok (a : A)
| Raise (e : Exn).
Arguments Ok {A} a.
Arguments Raise {A} e.

Definition M (A : Type) : Type := World -> Result A * World.

Definition ret {A} (a : A) : M A := fun w => (Ok a, w).

Definition raise {A} (e : Exn) : M A := fun w => (Raise e, w).

Definition bind {A B} (m : M A) (k : A -> M B) : M B :=
  fun w =>
    match m w with
    | (Ok a, w') => k a w'
    | (Raise e, w') => (Raise e, w')
    end.

(** [try: body  except Exception: handler] *)
Definition try_except {A} (body : M A) (handler : Exn -> M A) : M A :=
  fun w =>
    match body w with
    | (Ok a, w') => (Ok a, w')
    | (Raise e, w') => handler e w'
    end.

(** [try: body  finally: cleanup] *)
Definition try_finally {A} (body : M A) (cleanup : M unit) : M A :=
  fun w =>
    match body w with
    | (r, w') =>
        match cleanup w' with
        | (Ok _, w'') => (r, w'')
        | (Raise e, w'') => (Raise e, w'')
        end
    end.

Definition get_world : M World := fun w => (Ok w, w).

Definition modify (f : World -> World) : M unit := fun w => (Ok tt, f w).

Declare Scope m_scope.
Delimit Scope m_scope with M.
Notation "x <- m ;; k" := (bind m (fun x => k))
  (at level 100, m at next level, right associativity) : m_scope.
Notation "m ;; k" := (bind m (fun _ => k))
  (at level 100, right associativity) : m_scope.
Open Scope m_scope.

(** value and final world of a computation *)
Definition value {A} (r : Result A * World) : Result A := fst r.
Definition world {A} (r : Result A * World) : World := snd r.

(** ** The document store (MongoDB through mongoengine)

    Every operation consults the environment once and raises
    [StoreUnavailable] when the store is down at that moment.  Saving
    validates the document first. *)

Section Store.
Variable env : Env.

Definition tick : M nat :=
  fun w => (Ok (clock w), set_clock S w).

(** [datetime.utcnow()] *)
Definition now : M Z :=
  k <- tick ;; ret (utcnow env k).

Definition store_op : M unit :=
  k <- tick ;;
  if store_down env k then raise StoreUnavailable else ret tt.

Definition emit (e : Event) : M unit :=
  modify (set_trace (fun t => t ++ [e])).

(** [User.objects(telegram_id=...).first()]: the first matching document
    with its position in the collection, which identifies it afterwards *)
Definition user_first (telegram_id : option Z) : M (option (nat * User.t)) :=
  store_op ;;
  w <- get_world ;;
  ret (list_find (fun u => User.telegram_id u = telegram_id) (users w)).

(** [user.save()] of a new document; [telegram_id] has a unique index *)
Definition user_insert (u : User.t) : M unit :=
  if Validate.user u then
    store_op ;;
    w <- get_world ;;
    match list_find (fun v => User.telegram_id v = User.telegram_id u) (users w) with
    | Some _ => raise NotUniqueError
    | None => modify (set_users (fun l => l ++ [u]))
    end
  else raise ValidationError.

(** [user.save()] of a document fetched before *)
Definition user_update (pk : nat) (u : User.t) : M unit :=
  if Validate.user u then
    store_op ;; modify (set_users <[pk := u]>)
  else raise ValidationError.

(** [Conversation.objects(user=key)] *)
Definition objects_user (key : string) (l : list Conversation.t) : list Conversation.t :=
  filter (fun c => Conversation.user c = key) l.

Fixpoint insert_desc (c : Conversation.t) (l : list Conversation.t) : list Conversation.t :=
  match l with
  | [] => [c]
  | d :: l' =>
      if (Conversation.timestamp d <=? Conversation.timestamp c)%Z
      then c :: d :: l'
      else d :: insert_desc c l'
  end.

(** [.order_by('-timestamp')]: newest first, entries with equal
    timestamps in insertion order *)
Definition order_by_timestamp_desc (l : list Conversation.t) : list Conversation.t :=
  foldr insert_desc [] l.

(** [.limit(n)] for a positive [n]; the sources pass 20, and the facts
    below are stated for positive bounds *)
Definition limit (n : Z) (l : list Conversation.t) : list Conversation.t :=
  take (Z.to_nat n) l.

(** [list(query)]: the query runs against the collection *)
Definition conversation_list (query : list Conversation.t -> list Conversation.t)
  : M (list Conversation.t) :=
  store_op ;;
  w <- get_world ;;
  ret (query (conversations w)).

(** [Conversation.objects(user=key).delete()]: returns the number of
    documents deleted *)
Definition conversation_delete (key : string) : M nat :=
  store_op ;;
  w <- get_world ;;
  modify (set_conversations (filter (fun c => Conversation.user c <> key))) ;;
  ret (length (objects_user key (conversations w))).

(** [message.save()] of a new conversation entry *)
Definition conversation_save (c : Conversation.t) : M unit :=
  if Validate.conversation c then
    store_op ;; modify (set_conversations (fun l => l ++ [c]))
  else raise ValidationError.

(** [file_msg.save()] of a new record; gives the position of the record in
    the collection, which identifies it afterwards *)
Definition file_message_insert (f : FileMessage.t) : M nat :=
  if Validate.file_message f then
    store_op ;;
    w <- get_world ;;
    modify (set_file_messages (fun l => l ++ [f])) ;;
    ret (length (file_messages w))
  else raise ValidationError.

(** [file_msg.save()] of a record saved before *)
Definition file_message_update (i : nat) (f : FileMessage.t) : M unit :=
  if Validate.file_message f then
    store_op ;; modify (set_file_messages <[i := f]>)
  else raise ValidationError.

(** ** Temporary files *)

(** the longest file name the file system takes, in bytes *)
Definition name_max : nat := 255.

(** the NUL character, as a string *)
Definition nul : string := String "000"%char EmptyString.

(** what creating a temporary file with this suffix raises, if anything.
    The name of the file is "tmp", eight random characters and the suffix:
    [os.open] raises [ValueError] for a name with an embedded NUL and
    [OSError] (file name too long) for one of more than [name_max] bytes. *)
Definition temporary_file_error (suffix : string) : option Exn :=
  if Py.contains nul suffix then Some ValueError
  else if (name_max <? 11 + String.length suffix)%nat then Some OSError
  else None.

(** [with tempfile.NamedTemporaryFile(suffix=..., delete=False)] *)
Definition named_temporary_file (suffix : string) : M string :=
  k <- tick ;;
  match temporary_file_error suffix with
  | Some e => raise e
  | None =>
      let path := mktemp env k suffix in
      modify (set_fs <[path := ""]>) ;;
      ret path
  end.

(** [open(path, "rb").read()] *)
Definition read_bytes (path : string) : M string :=
  w <- get_world ;;
  match fs w !! path with
  | Some bytes => ret bytes
  | None => raise FileNotFoundError
  end.

(** [open(path, "r", encoding="utf-8").read()] *)
Definition read_text (path : string) : M string :=
  bytes <- read_bytes path ;;
  match decode_utf8 env bytes with
  | Some s => ret s
  | None => raise UnicodeDecodeError
  end.

(** [try: os.unlink(path)  except: pass] *)
Definition unlink (path : string) : M unit :=
  modify (set_fs (delete path)).

(** ** The completion service *)

(** [client.models.generate_content(model=..., contents=...)];
    the value is [response.text] *)
Definition generate_content (model prompt : string) (attachment : option string)
  : M (option string) :=
  k <- tick ;;
  emit (EvGenerate model prompt attachment) ;;
  match gemini env k model prompt attachment with
  | GeminiFails => raise APIError
  | GeminiText t => ret t
  end.

End Store.

(** ** gemini_service.py *)

Module GeminiService.
Section GeminiService.
Variable env : Env.

Definition model_name : string := "gemini-2.5-flash".
Definition vision_model : string := "gemini-2.5-pro".
Definition max_context_messages : Z := 20.

Definition get_or_create_user (telegram_id : option Z)
    (username first_name last_name : option string) : M User.t :=
  found <- user_first env telegram_id ;;
  match found with
  | None =>
      created <- now env ;;
      updated <- now env ;;
      let user := User.mk telegram_id username first_name last_name
                          created updated true in
      user_insert env user ;;
      ret user
  | Some (pk, user) =>
      if negb (bool_decide (User.username user = username))
         || negb (bool_decide (User.first_name user = first_name))
      then
        ts <- now env ;;
        let user := User.mk (User.telegram_id user) username first_name last_name
                            (User.created_at user) ts (User.is_active user) in
        user_update env pk user ;;
        ret user
      else ret user
  end.

Definition save_message (user : User.t) (message_type content : string)
    (message_id : option Z) : M unit :=
  ts <- now env ;;
  conversation_save env
    (Conversation.mk (Py.str_int (User.telegram_id user)) message_type content
                     ts message_id).

(** the query built by [get_conversation_context]; [if limit:] skips the
    bound for [None] and for [0] *)
Definition context_query (key : string) (limit_ : option Z)
    (l : list Conversation.t) : list Conversation.t :=
  let query := order_by_timestamp_desc (objects_user key l) in
  match limit_ with
  | Some n => if bool_decide (n = 0%Z) then query else limit n query
  | None => query
  end.

Definition get_conversation_context (user : User.t) (limit_ : option Z)
  : M (list Conversation.t) :=
  l <- conversation_list env
         (context_query (Py.str_int (User.telegram_id user)) limit_) ;;
  ret (reverse l).

Definition system_prompt (username first_name : option string) : string :=
  "You are a helpful AI assistant integrated into a Telegram bot. "
  +:+ "Provide helpful, accurate, and concise responses. "
  +:+ "Be friendly and conversational. "
  +:+ "If asked about your capabilities, mention that you're powered by Google Gemini AI and can process text, images, and files. "
  +:+ "The user's name is "
  +:+ (if Py.truthy_opt first_name then Py.or_else first_name "there"
       else Py.or_else username "there")
  +:+ ". "
  +:+ "Keep responses relatively short for chat format unless detailed information is requested.".

Definition context_line (msg : Conversation.t) : string :=
  Py.capitalize (Conversation.message_type msg) +:+ ": " +:+ Conversation.content msg.

Definition full_prompt (username first_name : option string) (message : string)
    (recent_messages : list Conversation.t) : string :=
  let context_messages := context_line <$> Py.last_n 10 recent_messages in
  let context := Py.join "
" context_messages in
  if Py.truthy context then
    system_prompt username first_name +:+ "

Conversation history:
" +:+ context +:+ "

Please respond to the latest user message."
  else
    system_prompt username first_name +:+ "

User message: " +:+ message.

Definition response_fallback : string :=
  "I'm sorry, I couldn't generate a response right now.".

Definition technical_difficulties : string :=
  "I'm experiencing some technical difficulties right now. Please try again later.".

(** the body of the [try] of [generate_response] *)
Definition generate_response_body (telegram_id : option Z) (message : string)
    (username first_name last_name : option string) (message_id : option Z)
  : M string :=
  user <- get_or_create_user telegram_id username first_name last_name ;;
  save_message user "user" message message_id ;;
  recent_messages <- get_conversation_context user (Some max_context_messages) ;;
  text <- generate_content env model_name
            (full_prompt username first_name message recent_messages) None ;;
  let ai_response := Py.or_else text response_fallback in
  save_message user "assistant" ai_response None ;;
  ret ai_response.

Definition generate_response (telegram_id : option Z) (message : string)
    (username first_name last_name : option string) (message_id : option Z)
  : M string :=
  try_except
    (generate_response_body telegram_id message username first_name last_name
                            message_id)
    (fun _ => ret technical_difficulties).

(** the body of the [try] of [clear_context]: the count given by
    [delete()] is dropped *)
Definition clear_context_body (telegram_id : option Z) : M unit :=
  conversation_delete env (Py.str_int telegram_id) ;;
  ret tt.

Definition clear_context (telegram_id : option Z) : M unit :=
  try_except (clear_context_body telegram_id) (fun _ => ret tt).

Definition welcome_fallback (username : option string) : string :=
  "Welcome"
  +:+ (if Py.truthy_opt username then " " +:+ Py.or_else username "" else "")
  +:+ "! I'm an AI assistant powered by Google Gemini. I can help with text, images, and files. How can I help you today?".

Definition get_welcome_message (username : option string) : M string :=
  try_except
    (let prompt :=
       "Generate a friendly welcome message for a new user "
       +:+ (if Py.truthy_opt username then "named " +:+ Py.or_else username "" else "")
       +:+ " who just started using "
       +:+ "an AI assistant Telegram bot. Keep it concise and welcoming. "
       +:+ "Mention that you're powered by Google Gemini AI and can help with text, images, and files. Ask how you can help." in
     text <- generate_content env model_name prompt None ;;
     ret (Py.or_else text (welcome_fallback username)))
    (fun _ => ret (welcome_fallback username)).

Definition image_fallback : string :=
  "I'm sorry, I couldn't analyze this image. Please try again later.".

Definition document_fallback : string :=
  "I'm sorry, I couldn't analyze this document. Please try again later.".

(** [file_msg.analysis_result = ...; file_msg.processed = True] *)
Definition mark_processed (file_msg : FileMessage.t) (analysis_result : string)
  : FileMessage.t :=
  FileMessage.mk (FileMessage.user file_msg) (FileMessage.file_id file_msg)
    (FileMessage.file_type file_msg) (FileMessage.file_name file_msg)
    (FileMessage.file_size file_msg) (FileMessage.mime_type file_msg)
    true (Some analysis_result) (FileMessage.timestamp file_msg).

(** the body of the [try] of [analyze_image] *)
Definition analyze_image_body (telegram_id : option Z) (file_id : option string)
    (file_path : string) (caption : option string) : M string :=
  user <- get_or_create_user telegram_id None None None ;;
  ts <- now env ;;
  let file_msg :=
    FileMessage.mk (Py.str_int (User.telegram_id user)) file_id "photo"
                   None None None false None ts in
  doc_id <- file_message_insert env file_msg ;;
  image_bytes <- read_bytes file_path ;;
  let prompt :=
    "Analyze this image in detail and describe what you see. "
    +:+ "Include objects, people, setting, colors, mood, and any text if present. "
    +:+ "Be conversational and engaging in your description."
    +:+ (if Py.truthy_opt caption
         then " The user also sent this caption: '" +:+ Py.or_else caption "" +:+ "'"
         else "") in
  text <- generate_content env vision_model prompt (Some image_bytes) ;;
  let analysis_result := Py.or_else text "I could not analyze this image." in
  file_message_update env doc_id (mark_processed file_msg analysis_result) ;;
  save_message user "user"
    ("[Sent an image"
     +:+ (if Py.truthy_opt caption then ": " +:+ Py.or_else caption "" else "")
     +:+ "]") None ;;
  save_message user "assistant" analysis_result None ;;
  ret analysis_result.

Definition analyze_image (telegram_id : option Z) (file_id : option string)
    (file_path : string) (caption : option string) : M string :=
  try_except (analyze_image_body telegram_id file_id file_path caption)
             (fun _ => ret image_fallback).

(** the body of the [try] of [analyze_document] *)
Definition analyze_document_body (telegram_id : option Z) (file_id : option string)
    (file_path file_name : string) (mime_type : option string) : M string :=
  user <- get_or_create_user telegram_id None None None ;;
  ts <- now env ;;
  let file_msg :=
    FileMessage.mk (Py.str_int (User.telegram_id user)) file_id "document"
                   (Some file_name) None mime_type false None ts in
  doc_id <- file_message_insert env file_msg ;;
  let finish (analysis_result : string) : M string :=
    file_message_update env doc_id (mark_processed file_msg analysis_result) ;;
    save_message user "user" ("[Sent a file: " +:+ file_name +:+ "]") None ;;
    save_message user "assistant" analysis_result None ;;
    ret analysis_result in
  let mime := Py.or_else mime_type "" in
  if Py.truthy_opt mime_type && Py.contains "text" mime then
    analysis_result <-
      try_except
        (content <- read_text env file_path ;;
         let prompt :=
           "Analyze this " +:+ mime
           +:+ " document and provide a helpful summary or analysis. "
           +:+ "The filename is '" +:+ file_name +:+ "'. Here's the content:

" +:+ Py.str_take 4000 content in
         text <- generate_content env model_name prompt None ;;
         ret (Py.or_else text "I could not analyze this document."))
        (fun _ =>
           ret ("I received your document '" +:+ file_name
                +:+ "' but couldn't read its content. It might be in a format I can't process yet.")) ;;
    finish analysis_result
  else if Py.truthy_opt mime_type && Py.contains "image" mime then
    analyze_image telegram_id file_id file_path None
  else
    finish ("I received your file '" +:+ file_name +:+ "' ("
            +:+ Py.or_else mime_type "unknown type"
            +:+ "). I can currently analyze text files and images. For other file types, please let me know what you'd like to know about it!").

Definition analyze_document (telegram_id : option Z) (file_id : option string)
    (file_path file_name : string) (mime_type : option string) : M string :=
  try_except (analyze_document_body telegram_id file_id file_path file_name mime_type)
             (fun _ => ret document_fallback).

End GeminiService.
End GeminiService.

(** ** telegram_bot.py *)

Module TelegramBot.
Section TelegramBot.
Variable env : Env.

(** the value is whether Telegram answered with status 200 *)
Definition send_message (chat_id : Z) (text : string) (parse_mode : option string)
  : M bool :=
  k <- tick ;;
  emit (EvSendMessage chat_id text parse_mode) ;;
  ret (telegram_send env k).

Definition send_typing_action (chat_id : Z) : M unit :=
  emit (EvTyping chat_id).

(** metadata lookup, then download into [file_path]; every failure gives
    [False] *)
Definition download_file (file_id : option string) (file_path : string) : M bool :=
  k <- tick ;;
  emit (EvGetFile file_id) ;;
  match telegram_file env k file_id with
  | Some bytes => modify (set_fs <[file_path := bytes]>) ;; ret true
  | None => ret false
  end.

Definition telegram_id_of (message : Message.t) : option Z :=
  TgUser.id <$> Message.from message.

Definition no_photo : string :=
  "I didn't receive any photo. Please try sending it again.".

Definition handle_photo (message : Message.t) : M string :=
  try_except
    (let telegram_id := telegram_id_of message in
     let photos := default [] (Message.photo message) in
     let caption := Message.caption message in
     match photos with
     | [] => ret no_photo
     | _ =>
         match Py.max_by (fun p => default 0%Z (PhotoSize.file_size p)) photos with
         | None => raise ValueError
         | Some largest_photo =>
             let file_id := Some (PhotoSize.file_id largest_photo) in
             temp_path <- named_temporary_file env ".jpg" ;;
             try_finally
               (ok <- download_file file_id temp_path ;;
                if ok : bool then
                  GeminiService.analyze_image env telegram_id file_id temp_path caption
                else ret "Sorry, I couldn't download your image. Please try again.")
               (unlink temp_path)
         end
     end)
    (fun _ => ret "Sorry, I encountered an error processing your image. Please try again.").

Definition max_file_size : Z := 20 * 1024 * 1024.

Definition too_large : string :=
  "Sorry, the file is too large. Please send files smaller than 20MB.".

(** [document = message.get("document", {})] followed by the four
    [document.get(...)] *)
Definition document_fields (message : Message.t)
  : option string * string * option string * Z :=
  match Message.document message with
  | Some d =>
      (Document.file_id d, default "document" (Document.file_name d),
       Document.mime_type d, default 0%Z (Document.file_size d))
  | None => (None, "document", None, 0%Z)
  end.

Definition handle_document (message : Message.t) : M string :=
  try_except
    (let telegram_id := telegram_id_of message in
     let '(file_id, file_name, mime_type, file_size) := document_fields message in
     if bool_decide (file_size > max_file_size)%Z then ret too_large
     else
       let file_extension :=
         if Py.contains "." file_name then splitext_ext env file_name else "" in
       temp_path <- named_temporary_file env file_extension ;;
       try_finally
         (ok <- download_file file_id temp_path ;;
          if ok : bool then
            GeminiService.analyze_document env telegram_id file_id
              temp_path file_name mime_type
          else ret "Sorry, I couldn't download your file. Please try again.")
         (unlink temp_path))
    (fun _ => ret "Sorry, I encountered an error processing your document. Please try again.").

Definition help_text : string :=
  "🤖 *AI Assistant Bot Help*

"
  +:+ "*Available Commands:*
"
  +:+ "/start - Start a conversation with the bot
"
  +:+ "/help - Show this help message
"
  +:+ "/clear - Clear conversation history

"
  +:+ "*Features:*
"
  +:+ "• Ask me anything and I'll provide intelligent responses
"
  +:+ "• I remember our conversation context across sessions
"
  +:+ "• Send me images and I'll analyze them
"
  +:+ "• Send me text files and I'll read and analyze them
"
  +:+ "• Powered by Google Gemini AI

"
  +:+ "*Examples:*
"
  +:+ "• " +:+ Py.dq +:+ "What's the weather like?" +:+ Py.dq +:+ "
"
  +:+ "• " +:+ Py.dq +:+ "Explain quantum physics simply" +:+ Py.dq +:+ "
"
  +:+ "• Send a photo and ask " +:+ Py.dq +:+ "What do you see?" +:+ Py.dq +:+ "
"
  +:+ "• Upload a text document for analysis".

Definition cleared : string :=
  "✅ Conversation history cleared! We can start fresh.".

Definition unknown_command : string :=
  "❓ Unknown command. Use /help to see available commands or just send me a message to chat!".

Definition handle_command (message : Message.t) : M string :=
  let text := default "" (Message.text message) in
  let user := Message.from message in
  let username := default "there" (user ≫= TgUser.first_name) in
  let telegram_id := telegram_id_of message in
  if Py.startswith text "/start" then
    GeminiService.get_welcome_message env (Some username)
  else if Py.startswith text "/help" then
    ret help_text
  else if Py.startswith text "/clear" then
    GeminiService.clear_context env telegram_id ;;
    ret cleared
  else
    ret unknown_command.

Definition please_send : string :=
  "Please send me a message and I'll be happy to help! 😊".

Definition process_message (message : Message.t) : M string :=
  try_except
    (let user := Message.from message in
     let username := user ≫= TgUser.username in
     let first_name := default "User" (user ≫= TgUser.first_name) in
     let last_name := user ≫= TgUser.last_name in
     let telegram_id := telegram_id_of message in
     let message_id := Message.message_id message in
     if bool_decide (is_Some (Message.photo message)) then handle_photo message
     else if bool_decide (is_Some (Message.document message)) then handle_document message
     else
       let text := default "" (Message.text message) in
       if Py.startswith text "/" then handle_command message
       else if Py.truthy (Py.strip text) then
         GeminiService.generate_response env telegram_id text username
           (Some first_name) last_name message_id
       else ret please_send)
    (fun _ => ret "Sorry, I encountered an error processing your message. Please try again.").

Definition handle_webhook_update (update : Update) : M bool :=
  try_except
    (match update with
     | UpdMessage message =>
         let chat_id := Message.chat_id message in
         send_typing_action chat_id ;;
         response_text <- process_message message ;;
         send_message chat_id response_text (Some "Markdown")
     | UpdEdited message =>
         let chat_id := Message.chat_id message in
         send_typing_action chat_id ;;
         response_text <- process_message message ;;
         send_message chat_id ("📝 *Updated response:*

" +:+ response_text) (Some "Markdown")
     | _ => ret true
     end)
    (fun _ => ret false).

End TelegramBot.
End TelegramBot.

(** ** app.py: the webhook route *)

Module App.
Section App.
Variable env : Env.

(** [get_bot()]: gives the bot or re-raises the failure of its
    construction *)
Definition get_bot : M unit :=
  if bot_configured env then ret tt else raise ConfigError.

(** the value is the HTTP status of the response *)
Definition webhook (update : Update) : M Z :=
  try_except
    (get_bot ;;
     match update with
     | UpdEmpty => ret 400%Z
     | _ =>
         success <- TelegramBot.handle_webhook_update env update ;;
         if success : bool then ret 200%Z else ret 500%Z
     end)
    (fun _ => ret 500%Z).

End App.
End App.

(** ** Orders on entries, scenarios, concrete environments *)

Definition newer_first (a b : Conversation.t) : Prop :=
  (Conversation.timestamp b <= Conversation.timestamp a)%Z.

Definition older_first (a b : Conversation.t) : Prop :=
  (Conversation.timestamp a <= Conversation.timestamp b)%Z.

(** A run of text exchanges of one user, each of which completes without
    an exception: the messages with their Telegram message ids, handled
    by [generate_response] one after the other.  [None] when one of them
    raises inside the [try]. *)
Fixpoint exchanges (env : Env) (telegram_id : option Z)
    (username first_name last_name : option string)
    (msgs : list (string * option Z)) (w : World) : option World :=
  match msgs with
  | [] => Some w
  | (message, message_id) :: rest =>
      match GeminiService.generate_response_body env telegram_id message
              username first_name last_name message_id w with
      | (Ok _, w') => exchanges env telegram_id username first_name last_name rest w'
      | (Raise _, _) => None
      end
  end.

(** Everything works: the clock advances with each consultation, Gemini
    answers, Telegram serves files and delivers messages. *)
Definition healthy_env : Env :=
  mkEnv (fun k => Z.of_nat k) (fun _ => false)
        (fun _ _ _ _ => GeminiText (Some "Hi there!"))
        (fun _ _ => Some "bytes") (fun _ => true)
        (fun bytes => Some bytes) (fun _ suffix => "/tmp/tmp0" +:+ suffix)
        (fun _ => ".txt") true.

(** As [healthy_env], with every store operation raising. *)
Definition store_down_env : Env :=
  mkEnv (utcnow healthy_env) (fun _ => true) (gemini healthy_env)
        (telegram_file healthy_env) (telegram_send healthy_env)
        (decode_utf8 healthy_env) (mktemp healthy_env)
        (splitext_ext healthy_env) true.

(** As [healthy_env], with every completion call failing. *)
Definition gemini_down_env : Env :=
  mkEnv (utcnow healthy_env) (store_down healthy_env)
        (fun _ _ _ _ => GeminiFails)
        (telegram_file healthy_env) (telegram_send healthy_env)
        (decode_utf8 healthy_env) (mktemp healthy_env)
        (splitext_ext healthy_env) true.

Definition bob : TgUser.t := TgUser.mk 7 (Some "bob") (Some "Bob") None.

Definition text_message (text : string) : Message.t :=
  Message.mk (Some 1%Z) (Some bob) 99 (Some text) None None None.

Definition photo_message (photos : list PhotoSize.t) : Message.t :=
  Message.mk (Some 1%Z) (Some bob) 99 None None (Some photos) None.

Definition document_message (file_name mime_type : string) (file_size : Z) : Message.t :=
  Message.mk (Some 1%Z) (Some bob) 99 None None None
    (Some (Document.mk (Some "F1") (Some file_name) (Some mime_type) (Some file_size))).

(** the world after Bob's first text exchange *)
Definition after_hello : World :=
  world (GeminiService.generate_response healthy_env (Some 7%Z) "Hello"
           (Some "bob") (Some "Bob") None (Some 1%Z) empty_world).

(** a user record as stored after a first message *)
Definition stored_bob : User.t :=
  User.mk (Some 7%Z) (Some "bob") (Some "Bob") (Some "Builder") 1 2 true.

Definition world_with_bob : World :=
  mkWorld [stored_bob] [] [] ∅ 0 [].

(** the world after the temporary file was created and the download
    written into it *)
Definition downloaded (file_id : option string) (temp_path bytes : string) (w : World)
  : World :=
  set_fs <[temp_path := bytes]>
    (set_trace (fun t => t ++ [EvGetFile file_id])
       (set_clock S (set_fs <[temp_path := ""]> (set_clock S w)))).

(** an extension of 245 bytes: a dot and 244 letters *)
Definition long_extension : string :=
  "." +:+ String.concat "" (replicate 244 "x").

(** As [healthy_env], for file names that end with [long_extension]. *)
Definition long_extension_env : Env :=
  mkEnv (utcnow healthy_env) (store_down healthy_env) (gemini healthy_env)
        (telegram_file healthy_env) (telegram_send healthy_env)
        (decode_utf8 healthy_env) (mktemp healthy_env)
        (fun _ => long_extension) true.

(** a world in which a download sits in a temporary file *)
Definition world_with_download : World :=
  mkWorld [] [] [] {[ "/tmp/tmp0.png" := "bytes" ]} 0 [].

(** the records that were in the collection before are still there, as
    they were *)
Definition keeps_records (w w' : World) : Prop :=
  forall i, i < length (file_messages w) ->
            file_messages w' !! i = file_messages w !! i.

(** ** config.py *)

Module Config.

(** the class attributes read from the environment that [validate] and
    [get_mongodb_settings] use *)
Record t := mk {
  TELEGRAM_BOT_TOKEN : option string;
  GEMINI_API_KEY : option string;
  DATABASE_URL : string
}.

(** the attributes of [urlparse(url)] that are read; reading [port] raises
    [ValueError] for a port that is no number in range, here [inl] of its
    message *)
Record Parsed := mkParsed {
  hostname : option string;
  port : string + option Z;
  username : option string;
  password : option string;
  path : string
}.

(** the two shapes of the settings dictionary *)
Inductive Settings :=
| Individual (host : string) (port : Z) (username password : option string)
    (db : string)
| ConnectionString (host : string).

(** [s.lstrip('/')] *)
Fixpoint lstrip_slash (s : string) : string :=
  match s with
  | String "/" s' => lstrip_slash s'
  | _ => s
  end.

(** [get_mongodb_settings]; [urlparse] is the library function, [inl] the
    message of the exception it raises *)
Definition get_mongodb_settings (urlparse : string -> string + Parsed) (c : t)
  : string + Settings :=
  if Py.startswith (DATABASE_URL c) "mongodb://" then
    match urlparse (DATABASE_URL c) with
    | inl e => inl e
    | inr parsed =>
        let host := Py.or_else (hostname parsed) "localhost" in
        match port parsed with
        | inl e => inl e
        | inr p =>
            let port :=
              match p with
              | Some n => if (n =? 0)%Z then 27017%Z else n
              | None => 27017%Z
              end in
            let db := lstrip_slash (path parsed) in
            inr (Individual host port (username parsed) (password parsed)
                   (if Py.truthy db then db else "telegram_bot"))
        end
    end
  else inr (ConnectionString (DATABASE_URL c)).

Definition token_required : string :=
  "TELEGRAM_BOT_TOKEN environment variable is required".

Definition key_required : string :=
  "GEMINI_API_KEY environment variable is required".

(** the list [errors] that [validate] collects *)
Definition errors (urlparse : string -> string + Parsed) (c : t) : list string :=
  let errors := [] in
  let errors :=
    if Py.truthy_opt (TELEGRAM_BOT_TOKEN c) then errors
    else errors ++ [token_required] in
  let errors :=
    if Py.truthy_opt (GEMINI_API_KEY c) then errors
    else errors ++ [key_required] in
  match get_mongodb_settings urlparse c with
  | inr _ => errors
  | inl e => errors ++ ["Invalid DATABASE_URL: " +:+ e]
  end.

(** [validate]: [inl] is the message of the [ValueError] *)
Definition validate (urlparse : string -> string + Parsed) (c : t) : string + bool :=
  match errors urlparse c with
  | [] => inr true
  | errors => inl ("Configuration errors: " +:+ Py.join ", " errors)
  end.

End Config.

(** a parser that accepts every URL as one of host [db] and no port *)
Definition lenient_urlparse (url : string) : string + Config.Parsed :=
  inr (Config.mkParsed (Some "db") (inr None) None None "/bot").

(** a parser that refuses the port of every URL *)
Definition strict_urlparse (url : string) : string + Config.Parsed :=
  inr (Config.mkParsed (Some "db") (inl "Port out of range 0-65535") None None "").

(** ** Relations between the world before and after a computation *)

(** every run of [m], whatever its outcome, takes a world to one related
    to it by [R] *)
Definition evolves {A} (R : World -> World -> Prop) (m : M A) : Prop :=
  forall w r w', m w = (r, w') -> R w w'.

Definition same_users (w w' : World) : Prop := users w' = users w.
Definition same_conversations (w w' : World) : Prop :=
  conversations w' = conversations w.
Definition same_file_messages (w w' : World) : Prop :=
  file_messages w' = file_messages w.
Definition same_fs (w w' : World) : Prop := fs w' = fs w.
Definition same_trace (w w' : World) : Prop := trace w' = trace w.

(** the three collections are as they were *)
Definition same_collections (w w' : World) : Prop :=
  same_users w w' /\ same_conversations w w' /\ same_file_messages w w'.


(** every user document is still there, with its identity, creation date
    and active flag *)
Definition keeps_users (w w' : World) : Prop :=
  forall pk u,
    users w !! pk = Some u ->
    exists u',
      users w' !! pk = Some u' /\
      User.telegram_id u' = User.telegram_id u /\
      User.created_at u' = User.created_at u /\
      User.is_active u' = User.is_active u.

(** a media record is processed exactly when it carries an analysis *)
Definition record_consistent (f : FileMessage.t) : Prop :=
  FileMessage.processed f = true <-> is_Some (FileMessage.analysis_result f).

Definition media_consistent (w : World) : Prop :=
  Forall record_consistent (file_messages w).

(** every media record is still there, and a processed one is still
    processed *)
Definition keeps_media (w w' : World) : Prop :=
  forall i f,
    file_messages w !! i = Some f ->
    exists f',
      file_messages w' !! i = Some f' /\
      (FileMessage.processed f = true -> FileMessage.processed f' = true).

(** the roles of the entries are the declared ones *)
Definition valid_entries (w : World) : Prop :=
  Forall (fun c => Conversation.message_type c ∈ ["user"; "assistant"])
         (conversations w).

(** the log is the old one with entries added at its end *)
Definition appends_entries (w w' : World) : Prop :=
  conversations w `prefix_of` conversations w'.

(** the files other than [path] are as they were *)
Definition files_outside (path : string) (w w' : World) : Prop :=
  forall q, q <> path -> fs w' !! q = fs w !! q.

(** a state property kept by a step *)
Definition keeps (P : World -> Prop) (w w' : World) : Prop := P w -> P w'.

(** ** Texts of the media analyses *)

(** the prompt of [analyze_image] *)
Definition image_prompt (caption : option string) : string :=
  "Analyze this image in detail and describe what you see. "
  +:+ "Include objects, people, setting, colors, mood, and any text if present. "
  +:+ "Be conversational and engaging in your description."
  +:+ (if Py.truthy_opt caption
       then " The user also sent this caption: '" +:+ Py.or_else caption "" +:+ "'"
       else "").

(** the entry that stands for the image in the log *)
Definition image_note (caption : option string) : string :=
  "[Sent an image"
  +:+ (if Py.truthy_opt caption then ": " +:+ Py.or_else caption "" else "")
  +:+ "]".




(** every character of the text is whitespace *)
Fixpoint all_space (s : string) : bool :=
  match s with
  | EmptyString => true
  | String c s' => Py.is_space c && all_space s'
  end.

(** worlds and messages used to run the model *)

Definition alice_message (text : string) : Message.t :=
  Message.mk (Some 2%Z) (Some (TgUser.mk 8 (Some "alice") (Some "Alice") None)) 100
             (Some text) None None None.

(** the world after Bob's and then Alice's first text exchange *)
Definition after_two_users : World :=
  world (TelegramBot.process_message healthy_env (alice_message "Hi") after_hello).

(** the world after Bob sent an image as a document *)
Definition after_image_document : World :=
  world (TelegramBot.handle_document healthy_env
           (document_message "scan.png" "image/png" 1024) empty_world).

Definition three_sizes : list PhotoSize.t :=
  [PhotoSize.mk "small" (Some 100%Z); PhotoSize.mk "large" (Some 900%Z);
   PhotoSize.mk "copy" (Some 900%Z)].

Definition captioned_photo : Message.t :=
  Message.mk (Some 3%Z) (Some bob) 99 None (Some "nice view") (Some three_sizes) None.

(** the analyses run on [world_with_download] *)
Definition image_run : Result string * World :=
  GeminiService.analyze_image_body healthy_env (Some 7%Z) (Some "F1") "/tmp/tmp0.png"
    (Some "nice view") world_with_download.

Definition failed_image_run : Result string * World :=
  GeminiService.analyze_image_body gemini_down_env (Some 7%Z) (Some "F1")
    "/tmp/tmp0.png" None world_with_download.


(** ** Calls to the outside and dates *)

(** a call to Telegram's file service or to the completion service *)
Definition service_event (e : Event) : bool :=
  match e with
  | EvGetFile _ | EvGenerate _ _ _ => true
  | _ => false
  end.

(** the trace is the old one with service calls added at its end *)
Definition adds_service_events (w w' : World) : Prop :=
  exists calls,
    trace w' = trace w ++ calls /\ Forall (fun e => service_event e = true) calls.

(** the clock never goes backwards *)
Definition monotone_clock (env : Env) : Prop :=
  forall j k, j <= k -> (utcnow env j <= utcnow env k)%Z.

(** the log is in chronological order and no entry is stamped later than
    the clock reads now *)
Definition chronological (env : Env) (w : World) : Prop :=
  StronglySorted older_first (conversations w) /\
  Forall (fun c => (Conversation.timestamp c <= utcnow env (clock w))%Z)
         (conversations w).

(** no user was updated before it was created, or later than the clock
    reads now *)
Definition dated_users (env : Env) (w : World) : Prop :=
  Forall (fun u => (User.created_at u <= User.updated_at u)%Z /\
                   (User.updated_at u <= utcnow env (clock w))%Z)
         (users w).

(** time may have passed, the log is as it was *)
Definition log_untouched (w w' : World) : Prop :=
  conversations w' = conversations w /\ clock w <= clock w'.

(** time may have passed, the users are as they were *)
Definition users_untouched (w w' : World) : Prop :=
  users w' = users w /\ clock w <= clock w'.

(** * Reasoning about computations *)

Lemma bind_inv {A B} (m : M A) (k : A -> M B) w r w' :
  bind m k w = (r, w') ->
  (exists a w1, m w = (Ok a, w1) /\ k a w1 = (r, w')) \/
  (exists e, m w = (Raise e, w') /\ r = Raise e).
Proof.
  unfold bind. destruct (m w) as [[a|e] w1]; intros H.
  - left. eauto.
  - right. inversion H; subst. eauto.
Qed.

Lemma bind_ok {A B} (m : M A) (k : A -> M B) w a w1 :
  m w = (Ok a, w1) -> bind m k w = k a w1.
Proof. unfold bind. intros ->. reflexivity. Qed.

Lemma bind_raise {A B} (m : M A) (k : A -> M B) w e w1 :
  m w = (Raise e, w1) -> bind m k w = (Raise e, w1).
Proof. unfold bind. intros ->. reflexivity. Qed.

Lemma try_except_ok {A} (body : M A) handler w a w1 :
  body w = (Ok a, w1) -> try_except body handler w = (Ok a, w1).
Proof. unfold try_except. intros ->. reflexivity. Qed.

Lemma try_except_raise {A} (body : M A) handler w e w1 :
  body w = (Raise e, w1) -> try_except body handler w = handler e w1.
Proof. unfold try_except. intros ->. reflexivity. Qed.

(** A [try] whose handler returns a value never raises. *)
Lemma try_except_total {A} (body : M A) (f : Exn -> A) w :
  exists a w', try_except body (fun e => ret (f e)) w = (Ok a, w').
Proof.
  unfold try_except, ret. destruct (body w) as [[a|e] w1]; eauto.
Qed.

Ltac munfold :=
  unfold user_first, user_insert, user_update, conversation_list,
    conversation_delete, conversation_save, file_message_insert,
    file_message_update, named_temporary_file, read_bytes, read_text, unlink,
    generate_content, now, store_op, emit, tick, bind, ret, raise, modify,
    get_world in *.

Ltac msolve :=
  intros; munfold; simpl in *;
  repeat (case_match; simplify_eq/=); simplify_eq/=;
  repeat split; eauto; try congruence.

(** * The store primitives *)

Section StoreFacts.
Variable env : Env.

Lemma now_inv w r w' :
  now env w = (r, w') ->
  r = Ok (utcnow env (clock w)) /\ w' = set_clock S w.
Proof. msolve. Qed.

Lemma conversation_save_inv c w r w' :
  conversation_save env c w = (r, w') ->
  users w' = users w /\ file_messages w' = file_messages w /\
  trace w' = trace w /\
  match r with
  | Ok _ => conversations w' = conversations w ++ [c]
  | Raise e => conversations w' = conversations w /\ e <> APIError
  end.
Proof. msolve. Qed.

Lemma conversation_list_inv q w r w' :
  conversation_list env q w = (r, w') ->
  w' = set_clock S w /\
  match r with
  | Ok l => l = q (conversations w)
  | Raise e => e <> APIError
  end.
Proof. msolve. Qed.

Lemma generate_content_inv model prompt att w r w' :
  generate_content env model prompt att w = (r, w') ->
  users w' = users w /\ conversations w' = conversations w /\
  file_messages w' = file_messages w /\
  trace w' = trace w ++ [EvGenerate model prompt att] /\
  match r with
  | Ok t => gemini env (clock w) model prompt att = GeminiText t
  | Raise e => e = APIError /\ gemini env (clock w) model prompt att = GeminiFails
  end.
Proof. msolve. Qed.

Lemma conversation_delete_inv key w r w' :
  conversation_delete env key w = (r, w') ->
  users w' = users w /\ file_messages w' = file_messages w /\
  trace w' = trace w /\
  match r with
  | Ok n =>
      n = length (objects_user key (conversations w)) /\
      conversations w' = filter (fun c => Conversation.user c <> key) (conversations w)
  | Raise _ => conversations w' = conversations w
  end.
Proof. msolve. Qed.

Lemma store_op_up w :
  store_down env (clock w) = false ->
  store_op env w = (Ok tt, set_clock S w).
Proof. intros H. unfold store_op, tick, bind, ret. simpl. by rewrite H. Qed.

Lemma user_first_up tid w :
  store_down env (clock w) = false ->
  user_first env tid w
  = (Ok (list_find (fun v => User.telegram_id v = tid) (users w)), set_clock S w).
Proof.
  intros H. unfold user_first.
  rewrite (bind_ok _ _ _ _ _ (store_op_up w H)). reflexivity.
Qed.

Lemma user_update_up pk u w :
  Validate.user u = true ->
  store_down env (clock w) = false ->
  user_update env pk u w = (Ok tt, set_users <[pk := u]> (set_clock S w)).
Proof.
  intros Hv H. unfold user_update. rewrite Hv.
  rewrite (bind_ok _ _ _ _ _ (store_op_up w H)). reflexivity.
Qed.

Lemma user_insert_up u w :
  Validate.user u = true ->
  store_down env (clock w) = false ->
  list_find (fun v => User.telegram_id v = User.telegram_id u) (users w) = None ->
  user_insert env u w = (Ok tt, set_users (fun l => l ++ [u]) (set_clock S w)).
Proof.
  intros Hv H Hfind. unfold user_insert. rewrite Hv.
  rewrite (bind_ok _ _ _ _ _ (store_op_up w H)).
  unfold get_world. unfold bind. simpl. rewrite Hfind. reflexivity.
Qed.

Lemma conversation_save_up c w :
  Validate.conversation c = true ->
  store_down env (clock w) = false ->
  conversation_save env c w
  = (Ok tt, set_conversations (fun l => l ++ [c]) (set_clock S w)).
Proof.
  intros Hv H. unfold conversation_save. rewrite Hv.
  rewrite (bind_ok _ _ _ _ _ (store_op_up w H)). reflexivity.
Qed.

End StoreFacts.

(** * gemini_service.py: effects of the helpers *)

Section GeminiFacts.
Variable env : Env.

Lemma get_or_create_user_inv tid un fn ln w r w' :
  GeminiService.get_or_create_user env tid un fn ln w = (r, w') ->
  conversations w' = conversations w /\
  file_messages w' = file_messages w /\
  trace w' = trace w /\
  match r with
  | Ok u => User.telegram_id u = tid
  | Raise e => e <> APIError
  end.
Proof.
  unfold GeminiService.get_or_create_user. intros H.
  apply bind_inv in H as [(found & w1 & Hf & H) | (e & Hf & ->)].
  - assert (Hw1 : w1 = set_clock S w /\
                  found = list_find (fun u => User.telegram_id u = tid) (users w))
      by (revert Hf; msolve).
    destruct Hw1 as [-> ->].
    destruct (list_find _ (users w)) as [[pk u]|] eqn:Hfind.
    + apply list_find_Some in Hfind as (_ & Hu & _).
      revert H. msolve.
    + revert H. msolve.
  - revert Hf. msolve.
Qed.

Lemma save_message_inv user mt content mid w r w' :
  GeminiService.save_message env user mt content mid w = (r, w') ->
  users w' = users w /\ file_messages w' = file_messages w /\
  trace w' = trace w /\
  match r with
  | Ok _ =>
      conversations w' =
        conversations w ++
          [Conversation.mk (Py.str_int (User.telegram_id user)) mt content
                           (utcnow env (clock w)) mid]
  | Raise e => conversations w' = conversations w /\ e <> APIError
  end.
Proof.
  unfold GeminiService.save_message. intros H.
  apply bind_inv in H as [(ts & w1 & Hn & H) | (e & Hn & ->)].
  - apply now_inv in Hn as [[= <-] ->].
    apply conversation_save_inv in H. simpl in H. exact H.
  - apply now_inv in Hn as [[=] _].
Qed.

Lemma get_conversation_context_inv user lim w r w' :
  GeminiService.get_conversation_context env user lim w = (r, w') ->
  w' = set_clock S w /\
  match r with
  | Ok l =>
      l = reverse (GeminiService.context_query
                     (Py.str_int (User.telegram_id user)) lim (conversations w))
  | Raise e => e <> APIError
  end.
Proof.
  unfold GeminiService.get_conversation_context. intros H.
  apply bind_inv in H as [(l & w1 & Hl & H) | (e & Hl & ->)];
    apply conversation_list_inv in Hl as [-> Hl].
  - inversion H; subst. auto.
  - auto.
Qed.

(** Everything [generate_response_body] can do to the conversation log
    and the trace. *)
Lemma generate_response_body_inv tid message un fn ln mid w r w' :
  GeminiService.generate_response_body env tid message un fn ln mid w = (r, w') ->
  let key := Py.str_int tid in
  match r with
  | Ok reply =>
      exists ts1 ts2 text,
        let entry := Conversation.mk key "user" message ts1 mid in
        conversations w' =
          conversations w ++ [entry; Conversation.mk key "assistant" reply ts2 None] /\
        trace w' =
          trace w ++
            [EvGenerate GeminiService.model_name
               (GeminiService.full_prompt un fn message
                  (reverse (GeminiService.context_query key
                              (Some GeminiService.max_context_messages)
                              (conversations w ++ [entry]))))
               None] /\
        reply = Py.or_else text GeminiService.response_fallback /\
        exists k prompt,
          gemini env k GeminiService.model_name prompt None = GeminiText text
  | Raise e =>
      (conversations w' = conversations w /\ e <> APIError) \/
      exists ts1, conversations w' =
                    conversations w ++ [Conversation.mk key "user" message ts1 mid]
  end.
Proof.
  intros H key. unfold GeminiService.generate_response_body in H.
  apply bind_inv in H as [(user & w1 & Hu & H) | (e & Hu & ->)];
    apply get_or_create_user_inv in Hu as (Hc1 & _ & Ht1 & Hu); [|left; split; auto].
  apply bind_inv in H as [([] & w2 & Hs & H) | (e & Hs & ->)];
    apply save_message_inv in Hs as (_ & _ & Ht2 & Hs);
    [|left; destruct Hs; split; congruence].
  rewrite Hu, Hc1 in Hs. fold key in Hs.
  apply bind_inv in H as [(recent & w3 & Hg & H) | (e & Hg & ->)];
    apply get_conversation_context_inv in Hg as [-> Hg];
    [|right; eexists; exact Hs].
  rewrite Hu, Hs in Hg. fold key in Hg.
  apply bind_inv in H as [(text & w4 & Hgen & H) | (e & Hgen & ->)];
    apply generate_content_inv in Hgen as (_ & Hc4 & _ & Ht4 & Hgen);
    simpl in Hc4, Ht4;
    [|right; eexists; rewrite Hc4; exact Hs].
  apply bind_inv in H as [([] & w5 & Hs5 & H) | (e & Hs5 & ->)];
    apply save_message_inv in Hs5 as (_ & _ & Ht5 & Hs5);
    [|right; eexists; destruct Hs5 as [-> _]; rewrite Hc4; exact Hs].
  unfold ret in H. injection H as <- <-. subst recent.
  eexists _, _, text. split_and!.
  - rewrite Hs5, Hc4, Hs, Hu. fold key. rewrite <- app_assoc. reflexivity.
  - rewrite Ht5, Ht4, Ht2, Ht1. reflexivity.
  - reflexivity.
  - eauto.
Qed.

End GeminiFacts.

(** * The conversation store: queries *)

Lemma insert_desc_perm c l : insert_desc c l ≡ₚ c :: l.
Proof.
  induction l as [|d l IH]; simpl; [done|].
  case_match; [done|]. rewrite IH. apply Permutation_swap.
Qed.

Lemma order_by_timestamp_desc_perm l : order_by_timestamp_desc l ≡ₚ l.
Proof.
  induction l as [|c l IH]; simpl; [done|].
  rewrite insert_desc_perm. by rewrite IH.
Qed.

Lemma insert_desc_sorted c l :
  Sorted newer_first l -> Sorted newer_first (insert_desc c l).
Proof.
  induction 1 as [|d l Hl IH Hd]; simpl.
  - repeat constructor.
  - destruct (Z.leb_spec (Conversation.timestamp d) (Conversation.timestamp c)).
    + repeat constructor; assumption.
    + constructor; [assumption|].
      destruct l as [|d' l]; simpl in *.
      * constructor. unfold newer_first. lia.
      * inversion Hd; subst. case_match; constructor; unfold newer_first in *; lia.
  Qed.

Lemma order_by_timestamp_desc_sorted l :
  Sorted newer_first (order_by_timestamp_desc l).
Proof.
  induction l; simpl; [constructor | by apply insert_desc_sorted].
Qed.

Lemma Sorted_take {A} (R : relation A) n l : Sorted R l -> Sorted R (take n l).
Proof.
  intros H. revert n. induction H as [|x l Hl IH Hx]; intros [|n]; simpl;
    try constructor; auto.
  destruct Hx; destruct n; simpl; constructor; assumption.
Qed.

Lemma objects_user_app key l1 l2 :
  objects_user key (l1 ++ l2) = objects_user key l1 ++ objects_user key l2.
Proof. apply filter_app. Qed.

Lemma objects_user_elem key c l :
  c ∈ objects_user key l <-> Conversation.user c = key /\ c ∈ l.
Proof. unfold objects_user. by rewrite list_elem_of_filter. Qed.

Lemma objects_user_after_delete key l :
  objects_user key (filter (fun c => Conversation.user c <> key) l) = [].
Proof.
  induction l as [|c l IH]; [done|].
  rewrite filter_cons. case_decide; [|done].
  unfold objects_user in *. rewrite filter_cons. case_decide; [done|]. exact IH.
Qed.

Lemma delete_without_entries key l :
  objects_user key l = [] ->
  filter (fun c => Conversation.user c <> key) l = l.
Proof.
  unfold objects_user. induction l as [|c l IH]; [done|].
  rewrite !filter_cons. repeat case_decide; try done.
  intros Hl. f_equal. auto.
Qed.

Section ContextFacts.
Variable env : Env.

(** C7, as the code has it. [get_conversation_context] gives entries of
    the user in non-decreasing timestamp order: the newest-first fetch
    (the entries of the user sorted by decreasing timestamp), reversed.
    A positive [limit] bounds the fetch, so the length is at most
    [limit]; for [limit = 0], as for no limit at all, the guard
    [if limit:] skips the bound and every entry of the user is returned,
    so the result is empty only when the user has no entries. *)
Theorem get_conversation_context_chronological user lim w l w' :
  GeminiService.get_conversation_context env user lim w = (Ok l, w') ->
  let key := Py.str_int (User.telegram_id user) in
  let fetched := order_by_timestamp_desc (objects_user key (conversations w)) in
  Sorted newer_first fetched /\
  fetched ≡ₚ objects_user key (conversations w) /\
  Sorted older_first l /\
  (forall c, c ∈ l -> Conversation.user c = key /\ c ∈ conversations w) /\
  (forall n, lim = Some n -> (0 < n)%Z ->
     l = reverse (take (Z.to_nat n) fetched) /\ (Z.of_nat (length l) <= n)%Z) /\
  (lim = Some 0%Z \/ lim = None ->
     l = reverse fetched /\
     length l = length (objects_user key (conversations w))).
Proof.
  intros H key fetched.
  apply get_conversation_context_inv in H as [_ ->]. fold key.
  assert (Hq : exists n, GeminiService.context_query key lim (conversations w)
                         = take n fetched).
  { unfold GeminiService.context_query. fold fetched.
    destruct lim as [n|]; [case_bool_decide|].
    - exists (length fetched). by rewrite firstn_all.
    - by exists (Z.to_nat n).
    - exists (length fetched). by rewrite firstn_all. }
  destruct Hq as [k Hk]. split_and!.
  - apply order_by_timestamp_desc_sorted.
  - apply order_by_timestamp_desc_perm.
  - rewrite Hk. apply (Sorted_reverse newer_first).
    apply Sorted_take, order_by_timestamp_desc_sorted.
  - intros c Hc. rewrite Hk, elem_of_reverse in Hc.
    apply (subseteq_take k fetched) in Hc.
    apply objects_user_elem. unfold fetched in Hc.
    by rewrite order_by_timestamp_desc_perm in Hc.
  - intros n -> Hn. unfold GeminiService.context_query. fold fetched.
    rewrite bool_decide_eq_false_2 by lia. unfold limit. split; [done|].
    rewrite length_reverse, length_take. lia.
  - intros [-> | ->]; unfold GeminiService.context_query; fold fetched; simpl;
      (split; [done|]); rewrite length_reverse; unfold fetched;
      by rewrite order_by_timestamp_desc_perm.
Qed.

End ContextFacts.

Lemma get_conversation_context_chronological_witness :
  let l := [Conversation.mk "7" "assistant" "Hi there!" 8 None] in
  GeminiService.get_conversation_context healthy_env stored_bob (Some 1%Z) after_hello
  = (Ok l, set_clock S after_hello) /\
  Sorted older_first l /\
  (Z.of_nat (length l) <= 1)%Z.
Proof.
  intros l.
  assert (H : GeminiService.get_conversation_context healthy_env stored_bob
                (Some 1%Z) after_hello = (Ok l, set_clock S after_hello))
    by (vm_compute; reflexivity).
  destruct (get_conversation_context_chronological healthy_env stored_bob
              (Some 1%Z) after_hello l (set_clock S after_hello) H)
    as (_ & _ & Hsorted & _ & Hlimit & _).
  destruct (Hlimit 1%Z eq_refl) as [_ Hlen]; [lia|].
  split_and!; [exact H | exact Hsorted | exact Hlen].
Defined.

(** C7 as stated fails at [limit = 0]: the bound is skipped and both
    entries of the user are returned. *)
Lemma limit_zero_returns_every_entry :
  value (GeminiService.get_conversation_context healthy_env stored_bob
           (Some 0%Z) after_hello)
  = Ok (conversations after_hello) /\
  length (conversations after_hello) = 2.
Proof. split; vm_compute; reflexivity. Qed.

(** * Text chat *)

Section TextChat.
Variable env : Env.

Lemma context_of_first_message key message ts mid l :
  objects_user key l = [] ->
  GeminiService.context_query key (Some GeminiService.max_context_messages)
    (l ++ [Conversation.mk key "user" message ts mid])
  = [Conversation.mk key "user" message ts mid].
Proof.
  intros Hl. unfold GeminiService.context_query.
  rewrite objects_user_app, Hl. unfold objects_user.
  rewrite filter_cons, decide_True by done. reflexivity.
Qed.

Lemma or_else_nonempty text fallback :
  fallback <> "" -> Py.or_else text fallback <> "".
Proof.
  intros Hf. destruct text as [[|c s]|]; simpl; auto; discriminate.
Qed.

(** C1, as the code has it. The inbound text is appended before the
    context is fetched, so for a user without history the prompt sent to
    the completion client has a "Conversation history" section whose only
    line is the message just received; one [user] entry and one
    [assistant] entry are appended, and the reply is not empty. *)
Theorem first_message_prompt_and_entries tid message un fn ln mid w reply w' :
  objects_user (Py.str_int tid) (conversations w) = [] ->
  GeminiService.generate_response_body env tid message un fn ln mid w
    = (Ok reply, w') ->
  GeminiService.generate_response env tid message un fn ln mid w = (Ok reply, w') /\
  trace w' =
    trace w ++
      [EvGenerate GeminiService.model_name
         (GeminiService.system_prompt un fn +:+ "

Conversation history:
User: " +:+ message +:+ "

Please respond to the latest user message.") None] /\
  (exists ts1 ts2,
      conversations w' =
        conversations w ++
          [Conversation.mk (Py.str_int tid) "user" message ts1 mid;
           Conversation.mk (Py.str_int tid) "assistant" reply ts2 None]) /\
  reply <> "".
Proof.
  intros Hnone Hbody. split.
  { unfold GeminiService.generate_response. by apply try_except_ok. }
  apply generate_response_body_inv in Hbody as (ts1 & ts2 & text & Hc & Ht & Hr & _).
  cbv zeta in Hc, Ht. split_and!.
  - rewrite Ht. rewrite context_of_first_message by assumption.
    reflexivity.
  - eauto.
  - rewrite Hr. by apply or_else_nonempty.
Qed.

Lemma generate_response_on_raise tid message un fn ln mid w e w' :
  GeminiService.generate_response_body env tid message un fn ln mid w
    = (Raise e, w') ->
  GeminiService.generate_response env tid message un fn ln mid w
    = (Ok GeminiService.technical_difficulties, w').
Proof.
  intros Hbody. unfold GeminiService.generate_response.
  by rewrite (try_except_raise _ _ _ _ _ Hbody).
Qed.

(** [generate_response] always gives a reply, and never an empty one. *)
Lemma generate_response_total tid message un fn ln mid w :
  exists reply w',
    GeminiService.generate_response env tid message un fn ln mid w = (Ok reply, w') /\
    reply <> "".
Proof.
  destruct (GeminiService.generate_response_body env tid message un fn ln mid w)
    as [[reply|e] w'] eqn:Hbody.
  - exists reply, w'. split.
    + unfold GeminiService.generate_response. by apply try_except_ok.
    + apply generate_response_body_inv in Hbody as (_ & _ & text & _ & _ & -> & _).
      by apply or_else_nonempty.
  - exists GeminiService.technical_difficulties, w'. split; [|done].
    by apply (generate_response_on_raise _ _ _ _ _ _ _ e).
Qed.


End TextChat.

Lemma first_message_prompt_and_entries_witness :
  let w' := after_hello in
  trace w' =
    [EvGenerate GeminiService.model_name
       (GeminiService.system_prompt (Some "bob") (Some "Bob") +:+ "

Conversation history:
User: Hello

Please respond to the latest user message.") None] /\
  (exists ts1 ts2,
      conversations w' =
        [Conversation.mk "7" "user" "Hello" ts1 (Some 1%Z);
         Conversation.mk "7" "assistant" "Hi there!" ts2 None]) /\
  "Hi there!" <> "".
Proof.
  apply (first_message_prompt_and_entries healthy_env (Some 7%Z) "Hello"
           (Some "bob") (Some "Bob") None (Some 1%Z) empty_world
           "Hi there!" after_hello);
    [reflexivity | vm_compute; reflexivity].
Defined.

(** C1 as stated fails: for a user without history the prompt sent to the
    completion client has a "Conversation history" section. *)
Lemma first_message_prompt_has_history :
  objects_user "7" (conversations empty_world) = [] /\
  exists prompt,
    trace (world (GeminiService.generate_response healthy_env (Some 7%Z) "Hello"
                    (Some "bob") (Some "Bob") None (Some 1%Z) empty_world))
      = [EvGenerate GeminiService.model_name prompt None] /\
    Py.contains "Conversation history" prompt = true.
Proof.
  split; [reflexivity|]. eexists. split; vm_compute; reflexivity.
Qed.


(** * Text chat: the exchange completes when the outside cooperates *)

Section Completes.
Variable env : Env.
Hypothesis store_up : forall k, store_down env k = false.
Hypothesis gemini_up :
  forall k model prompt attachment,
    gemini env k model prompt attachment <> GeminiFails.

Lemma store_op_succeeds w : store_op env w = (Ok tt, set_clock S w).
Proof. apply store_op_up, store_up. Qed.

Lemma get_or_create_user_succeeds id un fn ln w :
  Validate.max_length 255 un = true ->
  Validate.max_length 255 fn = true ->
  Validate.max_length 255 ln = true ->
  exists user w',
    GeminiService.get_or_create_user env (Some id) un fn ln w = (Ok user, w').
Proof.
  intros Hun Hfn Hln. unfold GeminiService.get_or_create_user.
  rewrite (bind_ok _ _ _ _ _ (user_first_up env (Some id) w (store_up _))).
  assert (Hvalid : forall created updated active,
             Validate.user (User.mk (Some id) un fn ln created updated active) = true).
  { intros. unfold Validate.user. simpl. by rewrite Hun, Hfn, Hln. }
  destruct (list_find _ (users w)) as [[pk user]|] eqn:Hfind.
  - apply list_find_Some in Hfind as (_ & Hid & _).
    destruct (negb _ || negb _); [|eauto].
    unfold now, tick, ret. unfold bind at 1 2. rewrite Hid.
    rewrite (bind_ok _ _ _ _ _ (user_update_up env _ _ _ (Hvalid _ _ _) (store_up _))).
    eauto.
  - unfold now, tick, ret. unfold bind at 1 2 3 4.
    rewrite (bind_ok _ _ _ _ _
               (user_insert_up env _ (set_clock S (set_clock S (set_clock S w)))
                  (Hvalid _ _ _) (store_up _) Hfind)).
    eauto.
Qed.

Lemma save_message_succeeds user mt content mid w :
  mt ∈ ["user"; "assistant"] ->
  exists w', GeminiService.save_message env user mt content mid w = (Ok tt, w').
Proof.
  intros Hmt. unfold GeminiService.save_message, now, tick, ret.
  unfold bind at 1 2. eexists. apply conversation_save_up; [|apply store_up].
  unfold Validate.conversation. simpl. by rewrite bool_decide_eq_true_2.
Qed.

Lemma get_conversation_context_succeeds user lim w :
  exists l w', GeminiService.get_conversation_context env user lim w = (Ok l, w').
Proof.
  unfold GeminiService.get_conversation_context, conversation_list.
  rewrite (bind_ok _ _ _ _ _ (bind_ok _ _ _ _ _ (store_op_succeeds w))).
  eauto.
Qed.

Lemma generate_content_succeeds model prompt attachment w :
  exists text w', generate_content env model prompt attachment w = (Ok text, w').
Proof.
  unfold generate_content, tick, emit, modify, ret, raise. unfold bind. simpl.
  pose proof (gemini_up (clock w) model prompt attachment) as Hg.
  destruct (gemini env (clock w) model prompt attachment); [done | eauto].
Qed.

(** With the store available, a completion service that answers, and a
    profile within the field lengths of [User], the body of
    [generate_response] ends without an exception. *)
Lemma generate_response_body_completes id message un fn ln mid w :
  Validate.max_length 255 un = true ->
  Validate.max_length 255 fn = true ->
  Validate.max_length 255 ln = true ->
  exists reply w',
    GeminiService.generate_response_body env (Some id) message un fn ln mid w
    = (Ok reply, w').
Proof.
  intros Hun Hfn Hln. unfold GeminiService.generate_response_body.
  destruct (get_or_create_user_succeeds id un fn ln w Hun Hfn Hln)
    as (user & w1 & H1).
  rewrite (bind_ok _ _ _ _ _ H1).
  destruct (save_message_succeeds user "user" message mid w1) as (w2 & H2);
    [set_solver|].
  rewrite (bind_ok _ _ _ _ _ H2).
  destruct (get_conversation_context_succeeds user
              (Some GeminiService.max_context_messages) w2) as (l & w3 & H3).
  rewrite (bind_ok _ _ _ _ _ H3).
  destruct (generate_content_succeeds GeminiService.model_name
              (GeminiService.full_prompt un fn message l) None w3)
    as (text & w4 & H4).
  rewrite (bind_ok _ _ _ _ _ H4).
  destruct (save_message_succeeds user "assistant"
              (Py.or_else text GeminiService.response_fallback) None w4)
    as (w5 & H5); [set_solver|].
  rewrite (bind_ok _ _ _ _ _ H5). eauto.
Qed.

(** and so does any run of exchanges *)
Lemma exchanges_complete id un fn ln msgs w :
  Validate.max_length 255 un = true ->
  Validate.max_length 255 fn = true ->
  Validate.max_length 255 ln = true ->
  exists w', exchanges env (Some id) un fn ln msgs w = Some w'.
Proof.
  intros Hun Hfn Hln. revert w.
  induction msgs as [|[message mid] msgs IH]; intros w; simpl; [eauto|].
  destruct (generate_response_body_completes id message un fn ln mid w Hun Hfn Hln)
    as (reply & w1 & ->).
  apply IH.
Qed.

End Completes.

(** * Clearing the history *)

Section Clear.
Variable env : Env.

Lemma exchanges_entries tid un fn ln msgs w w' :
  exchanges env tid un fn ln msgs w = Some w' ->
  length (objects_user (Py.str_int tid) (conversations w'))
  = length (objects_user (Py.str_int tid) (conversations w)) + 2 * length msgs.
Proof.
  revert w. induction msgs as [|[message mid] msgs IH]; intros w; simpl.
  - intros [= ->]. lia.
  - destruct (GeminiService.generate_response_body env tid message un fn ln mid w)
      as [[reply|e] w1] eqn:Hbody; [|done].
    intros Hrest. apply IH in Hrest. rewrite Hrest.
    apply generate_response_body_inv in Hbody as (ts1 & ts2 & text & Hc & _).
    cbv zeta in Hc. rewrite Hc, objects_user_app, length_app.
    unfold objects_user at 2. rewrite !filter_cons, !decide_True by done.
    simpl. lia.
Qed.

Lemma clear_context_total tid w :
  exists w', GeminiService.clear_context env tid w = (Ok tt, w').
Proof.
  unfold GeminiService.clear_context, try_except, ret.
  destruct (GeminiService.clear_context_body env tid w) as [[[]|e] w1]; eauto.
Qed.

Lemma clear_context_deletes tid w n w' :
  conversation_delete env (Py.str_int tid) w = (Ok n, w') ->
  GeminiService.clear_context env tid w = (Ok tt, w').
Proof.
  intros H. unfold GeminiService.clear_context, GeminiService.clear_context_body.
  apply try_except_ok. by rewrite (bind_ok _ _ _ _ _ H).
Qed.

(** C2, as the code has it. [clear_context] deletes every conversation
    entry of the user and gives no value: the count that the store's
    delete reports is dropped.  After N text exchanges of a user without
    earlier entries that count is 2N, one [user] and one [assistant]
    entry per exchange; a second clear deletes nothing and leaves the log
    as it is. *)
Theorem clear_after_exchanges tid un fn ln msgs w w1 n w2 :
  objects_user (Py.str_int tid) (conversations w) = [] ->
  exchanges env tid un fn ln msgs w = Some w1 ->
  conversation_delete env (Py.str_int tid) w1 = (Ok n, w2) ->
  n = 2 * length msgs /\
  GeminiService.clear_context env tid w1 = (Ok tt, w2) /\
  objects_user (Py.str_int tid) (conversations w2) = [] /\
  (forall n' w3,
      conversation_delete env (Py.str_int tid) w2 = (Ok n', w3) ->
      n' = 0 /\ conversations w3 = conversations w2 /\
      GeminiService.clear_context env tid w2 = (Ok tt, w3)).
Proof.
  intros Hnone Hex Hdel.
  pose proof (clear_context_deletes _ _ _ _ Hdel) as Hclear.
  apply conversation_delete_inv in Hdel as (_ & _ & _ & -> & Hc2).
  assert (Hempty : objects_user (Py.str_int tid) (conversations w2) = []).
  { rewrite Hc2. apply objects_user_after_delete. }
  split_and!; try done.
  - rewrite (exchanges_entries _ _ _ _ _ _ _ Hex), Hnone. simpl. lia.
  - intros n' w3 Hdel'.
    pose proof (clear_context_deletes _ _ _ _ Hdel') as Hclear'.
    apply conversation_delete_inv in Hdel' as (_ & _ & _ & -> & Hc3).
    rewrite Hempty, Hc3. split_and!; try done.
    by apply delete_without_entries.
Qed.

End Clear.

Lemma clear_after_exchanges_witness :
  exists w2,
    GeminiService.clear_context healthy_env (Some 7%Z) after_hello = (Ok tt, w2) /\
    conversation_delete healthy_env "7" after_hello = (Ok 2, w2) /\
    objects_user "7" (conversations w2) = [].
Proof.
  eexists.
  destruct (clear_after_exchanges healthy_env (Some 7%Z) (Some "bob") (Some "Bob") None
              [("Hello", Some 1%Z)] empty_world after_hello 2
              (world (conversation_delete healthy_env "7" after_hello)))
    as (_ & Hclear & Hempty & _);
    [reflexivity | vm_compute; reflexivity | vm_compute; reflexivity |].
  split_and!; [exact Hclear | vm_compute; reflexivity | exact Hempty].
Defined.

(** C2 as stated fails: after one text exchange the clear removes two
    entries, and [clear_context] hands no count to its caller. *)
Lemma clear_count_after_one_exchange :
  exchanges healthy_env (Some 7%Z) (Some "bob") (Some "Bob") None
    [("Hello", Some 1%Z)] empty_world = Some after_hello /\
  value (conversation_delete healthy_env "7" after_hello) = Ok 2 /\
  2 <> 1 /\
  value (GeminiService.clear_context healthy_env (Some 7%Z) after_hello) = Ok tt.
Proof.
  split_and!; [vm_compute; reflexivity | vm_compute; reflexivity | lia
              | vm_compute; reflexivity].
Qed.

(** * User upsert *)

Section Upsert.
Variable env : Env.

(** C3 fails on the code. The guard of the update compares [username]
    and [first_name] only: for a stored user whose [last_name] alone
    differs from the inbound profile, [get_or_create_user] returns the
    stored record and writes nothing, so neither [last_name] nor
    [updated_at] changes. *)
Theorem last_name_change_alone_is_ignored tid pk user new_last_name w :
  list_find (fun v => User.telegram_id v = tid) (users w) = Some (pk, user) ->
  store_down env (clock w) = false ->
  GeminiService.get_or_create_user env tid (User.username user)
    (User.first_name user) new_last_name w
  = (Ok user, set_clock S w).
Proof.
  intros Hfind Hup. unfold GeminiService.get_or_create_user.
  rewrite (bind_ok _ _ _ _ _ (user_first_up env tid w Hup)), Hfind.
  rewrite !bool_decide_eq_true_2 by done. reflexivity.
Qed.

(** When [username] or [first_name] differs, the three display fields are
    overwritten and [updated_at] is set. *)
Lemma display_fields_overwritten tid pk user un fn ln w :
  list_find (fun v => User.telegram_id v = tid) (users w) = Some (pk, user) ->
  User.username user <> un \/ User.first_name user <> fn ->
  store_down env (clock w) = false ->
  store_down env (S (S (clock w))) = false ->
  let user' := User.mk (User.telegram_id user) un fn ln (User.created_at user)
                       (utcnow env (S (clock w))) (User.is_active user) in
  Validate.user user' = true ->
  exists w',
    GeminiService.get_or_create_user env tid un fn ln w = (Ok user', w') /\
    users w' = <[pk := user']> (users w).
Proof.
  intros Hfind Hdiff Hup1 Hup2 user' Hvalid.
  unfold GeminiService.get_or_create_user.
  rewrite (bind_ok _ _ _ _ _ (user_first_up env tid w Hup1)), Hfind.
  assert (Hguard : negb (bool_decide (User.username user = un))
                   || negb (bool_decide (User.first_name user = fn)) = true).
  { destruct Hdiff; [rewrite (bool_decide_eq_false_2 _ H)
                    | rewrite (bool_decide_eq_false_2 (User.first_name user = fn) H)];
      simpl; auto using orb_true_r. }
  rewrite Hguard. unfold now, tick, bind, ret. simpl. fold user'.
  unfold user_update. rewrite Hvalid.
  unfold bind. rewrite store_op_up by exact Hup2.
  eexists. split; reflexivity.
Qed.

End Upsert.

Lemma last_name_change_alone_is_ignored_witness :
  User.last_name stored_bob <> Some "Baker" /\
  GeminiService.get_or_create_user healthy_env (Some 7%Z) (Some "bob") (Some "Bob")
    (Some "Baker") world_with_bob
  = (Ok stored_bob, set_clock S world_with_bob).
Proof.
  split; [discriminate|].
  apply (last_name_change_alone_is_ignored healthy_env (Some 7%Z) 0 stored_bob
           (Some "Baker") world_with_bob); reflexivity.
Defined.

(** * Commands and photos *)

(** two command names that differ in the character after the slash
    exclude each other as prefixes *)
Lemma prefixes_differ (a b : ascii) (p q s : string) :
  a <> b ->
  String.prefix (String "/" (String a p)) s = true ->
  String.prefix (String "/" (String b q)) s = false.
Proof.
  intros Hab. destruct s as [|c0 s]; [done|]. cbn [String.prefix].
  destruct (Ascii.ascii_dec "/" c0); [|done].
  destruct s as [|c1 s]; [done|]. cbn [String.prefix].
  destruct (Ascii.ascii_dec a c1) as [<-|]; [|done]. intros _.
  destruct (Ascii.ascii_dec b a) as [->|]; [done | reflexivity].
Qed.

Section Handlers.
Variable env : Env.

(** C9, as the code has it. Commands are recognised by prefix: a text
    that starts with none of "/start", "/help", "/clear" gets the fixed
    "unknown command" reply and the world is left as it was.  A text that
    extends a command name is handled as that command, whatever follows
    the name: the welcome for "/start", the help text without any effect
    for "/help", and for "/clear" the deletion of the user's history
    followed by the confirmation. *)
Theorem unrecognised_prefix_is_unknown_command message w :
  let text := default "" (Message.text message) in
  let username := default "there" (Message.from message ≫= TgUser.first_name) in
  (Py.startswith text "/start" = false ->
   Py.startswith text "/help" = false ->
   Py.startswith text "/clear" = false ->
   TelegramBot.handle_command env message w = (Ok TelegramBot.unknown_command, w)) /\
  (Py.startswith text "/start" = true ->
   TelegramBot.handle_command env message w
   = GeminiService.get_welcome_message env (Some username) w) /\
  (Py.startswith text "/help" = true ->
   TelegramBot.handle_command env message w = (Ok TelegramBot.help_text, w)) /\
  (Py.startswith text "/clear" = true ->
   TelegramBot.handle_command env message w
   = (Ok TelegramBot.cleared,
      world (GeminiService.clear_context env (TelegramBot.telegram_id_of message) w))).
Proof.
  intros text username. unfold TelegramBot.handle_command. fold text username.
  unfold Py.startswith. split_and!.
  - intros H1 H2 H3. rewrite H1, H2, H3. reflexivity.
  - intros H1. rewrite H1. reflexivity.
  - intros H2.
    rewrite (prefixes_differ "h" "s" "elp" "tart" text) by (discriminate || exact H2).
    rewrite H2. reflexivity.
  - intros H3.
    rewrite (prefixes_differ "c" "s" "lear" "tart" text) by (discriminate || exact H3).
    rewrite (prefixes_differ "c" "h" "lear" "elp" text) by (discriminate || exact H3).
    rewrite H3.
    destruct (clear_context_total env (TelegramBot.telegram_id_of message) w)
      as (w1 & Hclear).
    rewrite (bind_ok _ _ _ _ _ Hclear), Hclear. reflexivity.
Qed.

(** C10. A message whose [photo] list is empty gets the fixed reply; no
    download is attempted and the world is left as it was: no media
    record, no conversation entry. *)
Theorem empty_photo_list_is_rejected message w :
  Message.photo message = Some [] ->
  TelegramBot.handle_photo env message w = (Ok TelegramBot.no_photo, w) /\
  TelegramBot.process_message env message w = (Ok TelegramBot.no_photo, w).
Proof.
  intros Hphoto.
  assert (H : TelegramBot.handle_photo env message w = (Ok TelegramBot.no_photo, w)).
  { unfold TelegramBot.handle_photo. rewrite Hphoto. reflexivity. }
  split; [exact H|].
  unfold TelegramBot.process_message. apply try_except_ok.
  rewrite Hphoto. exact H.
Qed.

End Handlers.

Lemma unrecognised_prefix_is_unknown_command_witness :
  TelegramBot.handle_command healthy_env (text_message "/settings") after_hello
  = (Ok TelegramBot.unknown_command, after_hello) /\
  TelegramBot.handle_command healthy_env (text_message "/helpful") after_hello
  = (Ok TelegramBot.help_text, after_hello) /\
  TelegramBot.handle_command healthy_env (text_message "/clearly") after_hello
  = (Ok TelegramBot.cleared,
     world (GeminiService.clear_context healthy_env (Some 7%Z) after_hello)).
Proof.
  split_and!.
  - destruct (unrecognised_prefix_is_unknown_command healthy_env
                (text_message "/settings") after_hello) as (H & _).
    apply H; reflexivity.
  - destruct (unrecognised_prefix_is_unknown_command healthy_env
                (text_message "/helpful") after_hello) as (_ & _ & H & _).
    apply H; reflexivity.
  - destruct (unrecognised_prefix_is_unknown_command healthy_env
                (text_message "/clearly") after_hello) as (_ & _ & _ & H).
    apply H; reflexivity.
Defined.

(** C9 as stated fails: "/clearly" is not one of the three commands, yet it
    is handled as "/clear" and the history is deleted. *)
Lemma clearly_clears_the_history :
  conversations after_hello <> [] /\
  let r := TelegramBot.handle_command healthy_env (text_message "/clearly") after_hello in
  value r = Ok TelegramBot.cleared /\
  TelegramBot.cleared <> TelegramBot.unknown_command /\
  conversations (world r) = [].
Proof.
  split; [vm_compute; discriminate|].
  split_and!; [vm_compute; reflexivity | vm_compute; discriminate
              | vm_compute; reflexivity].
Qed.

Lemma empty_photo_list_is_rejected_witness :
  TelegramBot.handle_photo healthy_env (photo_message []) after_hello
  = (Ok TelegramBot.no_photo, after_hello) /\
  TelegramBot.process_message healthy_env (photo_message []) after_hello
  = (Ok TelegramBot.no_photo, after_hello).
Proof.
  apply (empty_photo_list_is_rejected healthy_env (photo_message []) after_hello).
  reflexivity.
Defined.

(** * Documents *)

Section Documents.
Variable env : Env.

Lemma named_temporary_file_inv suffix w :
  temporary_file_error suffix = None ->
  named_temporary_file env suffix w
  = (Ok (mktemp env (clock w) suffix),
     set_fs <[mktemp env (clock w) suffix := ""]> (set_clock S w)).
Proof.
  intros H. unfold named_temporary_file, bind, tick. simpl. rewrite H. reflexivity.
Qed.

Lemma named_temporary_file_fails suffix e w :
  temporary_file_error suffix = Some e ->
  named_temporary_file env suffix w = (Raise e, set_clock S w).
Proof.
  intros H. unfold named_temporary_file, bind, tick. simpl. rewrite H. reflexivity.
Qed.

Lemma download_file_inv file_id path w :
  TelegramBot.download_file env file_id path w
  = match telegram_file env (clock w) file_id with
    | Some bytes =>
        (Ok true, set_fs <[path := bytes]>
                    (set_trace (fun t => t ++ [EvGetFile file_id]) (set_clock S w)))
    | None => (Ok false, set_trace (fun t => t ++ [EvGetFile file_id]) (set_clock S w))
    end.
Proof.
  unfold TelegramBot.download_file, tick, emit, modify, bind, ret. simpl.
  destruct (telegram_file env (clock w) file_id); reflexivity.
Qed.

Lemma analyze_document_total tid file_id path name mime w :
  exists reply w',
    GeminiService.analyze_document env tid file_id path name mime w = (Ok reply, w').
Proof.
  unfold GeminiService.analyze_document.
  apply (try_except_total _ (fun _ => GeminiService.document_fallback)).
Qed.

(** C8, as the code has it. A document whose reported size exceeds 20 MiB
    gets the fixed "too large" reply and the world is left as it was: no
    download call, no media record.  Any other size, 20 MiB included,
    passes the check.  Then, when the temporary file can be created, the
    download is requested, and when Telegram serves the file the reply is
    the one [analyze_document] gives on the downloaded file; when the
    extension of the file name makes the creation of the temporary file
    fail, the handler answers with its error text and nothing is
    downloaded or recorded. *)
Theorem document_size_ceiling message d w :
  Message.document message = Some d ->
  let size := default 0%Z (Document.file_size d) in
  let file_id := Document.file_id d in
  let file_name := default "document" (Document.file_name d) in
  let suffix :=
    if Py.contains "." file_name then splitext_ext env file_name else "" in
  ((size > 20 * 1024 * 1024)%Z ->
   TelegramBot.handle_document env message w = (Ok TelegramBot.too_large, w)) /\
  ((size <= 20 * 1024 * 1024)%Z ->
   match temporary_file_error suffix with
   | None =>
       exists temp_path w1,
         trace w1 = trace w ++ [EvGetFile file_id] /\
         file_messages w1 = file_messages w /\
         match telegram_file env (S (clock w)) file_id with
         | Some bytes =>
             fs w1 !! temp_path = Some bytes /\
             exists reply w2,
               GeminiService.analyze_document env (TelegramBot.telegram_id_of message)
                 file_id temp_path file_name (Document.mime_type d) w1
               = (Ok reply, w2) /\
               TelegramBot.handle_document env message w
               = (Ok reply, set_fs (delete temp_path) w2)
         | None =>
             TelegramBot.handle_document env message w
             = (Ok "Sorry, I couldn't download your file. Please try again.",
                set_fs (delete temp_path) w1)
         end
   | Some _ =>
       TelegramBot.handle_document env message w
       = (Ok "Sorry, I encountered an error processing your document. Please try again.",
          set_clock S w)
   end).
Proof.
  intros Hd size file_id file_name suffix.
  unfold TelegramBot.handle_document, TelegramBot.document_fields.
  rewrite Hd. fold size file_id file_name. unfold TelegramBot.max_file_size.
  split; intros Hsize.
  - rewrite bool_decide_eq_true_2 by exact Hsize. reflexivity.
  - rewrite bool_decide_eq_false_2 by lia. fold suffix.
    destruct (temporary_file_error suffix) as [e|] eqn:Hcreate.
    { unfold try_except.
      rewrite (bind_raise _ _ _ _ _ (named_temporary_file_fails suffix e w Hcreate)).
      reflexivity. }
    set (temp_path := mktemp env (clock w) suffix).
    pose proof (download_file_inv file_id temp_path
                  (set_fs <[temp_path := ""]> (set_clock S w))) as Hdl.
    simpl clock in Hdl.
    destruct (telegram_file env (S (clock w)) file_id) as [bytes|].
    + destruct (analyze_document_total (TelegramBot.telegram_id_of message)
                  file_id temp_path file_name (Document.mime_type d)
                  (downloaded file_id temp_path bytes w)) as (reply & w2 & Han).
      exists temp_path, (downloaded file_id temp_path bytes w).
      split_and!; try reflexivity.
      * apply lookup_insert_eq.
      * exists reply, w2. split; [exact Han|].
        apply try_except_ok.
        rewrite (bind_ok _ _ _ _ _ (named_temporary_file_inv suffix w Hcreate)).
        fold temp_path. unfold try_finally.
        rewrite (bind_ok _ _ _ _ _ Hdl).
        unfold downloaded in Han. rewrite Han. reflexivity.
    + exists temp_path,
        (set_trace (fun t => t ++ [EvGetFile file_id])
           (set_clock S (set_fs <[temp_path := ""]> (set_clock S w)))).
      split_and!; try reflexivity.
      apply try_except_ok.
      rewrite (bind_ok _ _ _ _ _ (named_temporary_file_inv suffix w Hcreate)).
      fold temp_path. unfold try_finally.
      rewrite (bind_ok _ _ _ _ _ Hdl). reflexivity.
Qed.

End Documents.

Lemma document_size_ceiling_witness :
  TelegramBot.handle_document healthy_env
    (document_message "notes.txt" "text/plain" (20 * 1024 * 1024 + 1)) empty_world
  = (Ok TelegramBot.too_large, empty_world) /\
  exists temp_path w1 reply w2,
    trace w1 = [EvGetFile (Some "F1")] /\
    GeminiService.analyze_document healthy_env (Some 7%Z) (Some "F1") temp_path
      "notes.txt" (Some "text/plain") w1 = (Ok reply, w2) /\
    TelegramBot.handle_document healthy_env
      (document_message "notes.txt" "text/plain" (20 * 1024 * 1024)) empty_world
    = (Ok reply, set_fs (delete temp_path) w2) /\
    TelegramBot.handle_document long_extension_env
      (document_message ("report" +:+ long_extension) "text/plain" 1024) empty_world
    = (Ok "Sorry, I encountered an error processing your document. Please try again.",
       set_clock S empty_world).
Proof.
  split.
  - apply (document_size_ceiling healthy_env
             (document_message "notes.txt" "text/plain" (20 * 1024 * 1024 + 1))
             (Document.mk (Some "F1") (Some "notes.txt") (Some "text/plain")
                          (Some (20 * 1024 * 1024 + 1)%Z))
             empty_world eq_refl).
    simpl. lia.
  - destruct (document_size_ceiling healthy_env
                (document_message "notes.txt" "text/plain" (20 * 1024 * 1024))
                (Document.mk (Some "F1") (Some "notes.txt") (Some "text/plain")
                             (Some (20 * 1024 * 1024)%Z))
                empty_world eq_refl) as [_ H].
    specialize (H ltac:(simpl; lia)).
    change (temporary_file_error _) with (@None Exn) in H.
    destruct H as (temp_path & w1 & Ht & _ & H).
    simpl in H. destruct H as (_ & reply & w2 & Han & Hh).
    exists temp_path, w1, reply, w2. split_and!; [exact Ht | exact Han | exact Hh |].
    destruct (document_size_ceiling long_extension_env
                (document_message ("report" +:+ long_extension) "text/plain" 1024)
                (Document.mk (Some "F1") (Some ("report" +:+ long_extension))
                             (Some "text/plain") (Some 1024%Z))
                empty_world eq_refl) as [_ Hfail].
    specialize (Hfail ltac:(simpl; lia)).
    change (temporary_file_error _) with (Some OSError) in Hfail.
    exact Hfail.
Defined.

(** C8 as stated fails: a document of exactly 20 MiB whose name has an
    extension of 245 bytes is not downloaded, because the temporary file
    cannot be created; the handler answers with its error text. *)
Lemma long_extension_is_not_downloaded :
  let message :=
    document_message ("report" +:+ long_extension) "text/plain" (20 * 1024 * 1024) in
  String.length long_extension = 245 /\
  let r := TelegramBot.handle_document long_extension_env message empty_world in
  value r = Ok "Sorry, I encountered an error processing your document. Please try again." /\
  trace (world r) = [] /\
  file_messages (world r) = [].
Proof. vm_compute. split_and!; reflexivity. Qed.

(** * Media records *)

Section MediaRecords.
Variable env : Env.

Lemma file_message_insert_inv f w r w' :
  file_message_insert env f w = (r, w') ->
  match r with
  | Ok i => i = length (file_messages w) /\ file_messages w' = file_messages w ++ [f]
  | Raise _ => file_messages w' = file_messages w
  end.
Proof. msolve. Qed.

Lemma file_message_update_inv i f w r w' :
  file_message_update env i f w = (r, w') ->
  match r with
  | Ok _ => file_messages w' = <[i := f]> (file_messages w)
  | Raise _ => file_messages w' = file_messages w
  end.
Proof. msolve. Qed.

Lemma read_bytes_inv path w r w' :
  read_bytes path w = (r, w') -> w' = w.
Proof. msolve. Qed.

Lemma keeps_records_refl w w' :
  file_messages w' = file_messages w -> keeps_records w w'.
Proof. intros H i _. by rewrite H. Qed.

Lemma keeps_records_app w w' l :
  file_messages w' = file_messages w ++ l -> keeps_records w w'.
Proof. intros H i Hi. rewrite H. by apply lookup_app_l. Qed.

Lemma keeps_records_update w w' f l :
  file_messages w' = <[length (file_messages w) := f]> (file_messages w ++ l) ->
  keeps_records w w'.
Proof.
  intros H i Hi. rewrite H, list_lookup_insert_ne by lia. by apply lookup_app_l.
Qed.

Lemma analyze_image_total tid file_id path caption w :
  exists reply w',
    GeminiService.analyze_image env tid file_id path caption w = (Ok reply, w').
Proof.
  unfold GeminiService.analyze_image.
  apply (try_except_total _ (fun _ => GeminiService.image_fallback)).
Qed.

(** [analyze_image] creates a record of its own and updates that one only. *)
Lemma analyze_image_keeps_records tid file_id path caption w r w' :
  GeminiService.analyze_image env tid file_id path caption w = (r, w') ->
  keeps_records w w'.
Proof.
  unfold GeminiService.analyze_image, try_except. intros H.
  assert (Hbody : forall rb wb,
             GeminiService.analyze_image_body env tid file_id path caption w = (rb, wb) ->
             keeps_records w wb).
  { clear H. intros rb wb H. unfold GeminiService.analyze_image_body in H.
    apply bind_inv in H as [(user & w1 & Hu & H) | (e & Hu & _)];
      apply get_or_create_user_inv in Hu as (_ & Hf1 & _);
      [|by apply keeps_records_refl].
    apply bind_inv in H as [(ts & w2 & Hn & H) | (e & Hn & _)];
      apply now_inv in Hn as [Hts ->]; [|done].
    apply bind_inv in H as [(doc_id & w3 & Hi & H) | (e & Hi & _)];
      apply file_message_insert_inv in Hi; simpl in Hi;
      [destruct Hi as [-> Hf3] | apply keeps_records_refl; congruence].
    rewrite Hf1 in Hf3.
    apply bind_inv in H as [(bytes & w4 & Hb & H) | (e & Hb & _)];
      apply read_bytes_inv in Hb as ->;
      [|by eapply keeps_records_app].
    apply bind_inv in H as [(text & w5 & Hg & H) | (e & Hg & _)];
      apply generate_content_inv in Hg as (_ & _ & Hf5 & _);
      [|eapply keeps_records_app; by rewrite Hf5].
    apply bind_inv in H as [([] & w6 & Hup & H) | (e & Hup & _)];
      apply file_message_update_inv in Hup;
      [|eapply keeps_records_app; by rewrite Hup, Hf5].
    rewrite Hf5, Hf3, Hf1 in Hup.
    apply bind_inv in H as [([] & w7 & Hs7 & H) | (e & Hs7 & _)];
      apply save_message_inv in Hs7 as (_ & Hf7 & _);
      [|eapply keeps_records_update; by rewrite Hf7].
    apply bind_inv in H as [([] & w8 & Hs8 & H) | (e & Hs8 & _)];
      apply save_message_inv in Hs8 as (_ & Hf8 & _);
      [|eapply keeps_records_update; by rewrite Hf8, Hf7].
    unfold ret in H. injection H as _ <-.
    eapply keeps_records_update. by rewrite Hf8, Hf7. }
  destruct (GeminiService.analyze_image_body env tid file_id path caption w)
    as [[a|e] wb] eqn:Hb.
  - injection H as _ <-. eauto.
  - unfold ret in H. injection H as _ <-. eauto.
Qed.

(** C4 fails on the code. For a document whose declared MIME type is an
    image type, [analyze_document] saves its record with
    [processed = false] and then returns what [analyze_image] gives, which
    works on a second record of kind [photo]: whatever the outcome, a
    successful analysis included, the record of the document path is still
    in the collection as it was created, unprocessed and without analysis
    text. *)
Theorem image_document_record_stays_unprocessed
    tid file_id path name mime w user w0 doc_id w1 reply w' :
  Py.truthy mime = true ->
  Py.contains "text" mime = false ->
  Py.contains "image" mime = true ->
  let file_msg :=
    FileMessage.mk (Py.str_int (User.telegram_id user)) file_id "document"
                   (Some name) None (Some mime) false None
                   (utcnow env (clock w0)) in
  GeminiService.get_or_create_user env tid None None None w = (Ok user, w0) ->
  file_message_insert env file_msg (set_clock S w0) = (Ok doc_id, w1) ->
  GeminiService.analyze_document env tid file_id path name (Some mime) w
    = (Ok reply, w') ->
  GeminiService.analyze_image env tid file_id path None w1 = (Ok reply, w') /\
  file_messages w' !! doc_id = Some file_msg /\
  FileMessage.processed file_msg = false /\
  FileMessage.analysis_result file_msg = None.
Proof.
  intros Htruthy Htext Himage file_msg Huser Hinsert Hdoc.
  assert (Himg : GeminiService.analyze_image env tid file_id path None w1
                 = (Ok reply, w')).
  { unfold GeminiService.analyze_document in Hdoc.
    assert (Hbody : GeminiService.analyze_document_body env tid file_id path name
                      (Some mime) w
                    = GeminiService.analyze_image env tid file_id path None w1).
    { unfold GeminiService.analyze_document_body.
      rewrite (bind_ok _ _ _ _ _ Huser).
      unfold now, tick. unfold bind at 1 2, ret at 1.
      fold file_msg. rewrite (bind_ok _ _ _ _ _ Hinsert).
      unfold Py.truthy_opt, Py.or_else.
      rewrite Htruthy, Htext, Himage. reflexivity. }
    destruct (analyze_image_total tid file_id path None w1) as (r & wi & Hi).
    rewrite Hi in Hbody.
    rewrite (try_except_ok _ _ _ _ _ Hbody) in Hdoc. congruence. }
  split_and!; try done.
  apply file_message_insert_inv in Hinsert as [-> Hf1]. simpl in Hf1.
  rewrite (analyze_image_keeps_records _ _ _ _ _ _ _ Himg).
  - rewrite Hf1. apply list_lookup_middle. done.
  - rewrite Hf1, length_app. simpl. lia.
Qed.

End MediaRecords.

Lemma image_document_record_stays_unprocessed_witness :
  let file_msg := FileMessage.mk "7" (Some "F1") "document" (Some "scan.png") None
                    (Some "image/png") false None 4 in
  exists w',
    GeminiService.analyze_document healthy_env (Some 7%Z) (Some "F1")
      "/tmp/tmp0.png" "scan.png" (Some "image/png") world_with_download
    = (Ok "Hi there!", w') /\
    file_messages w' !! 0 = Some file_msg /\
    FileMessage.processed file_msg = false /\
    FileMessage.analysis_result file_msg = None.
Proof.
  intros file_msg.
  set (r := GeminiService.analyze_document healthy_env (Some 7%Z) (Some "F1")
              "/tmp/tmp0.png" "scan.png" (Some "image/png") world_with_download).
  set (u := GeminiService.get_or_create_user healthy_env (Some 7%Z) None None None
              world_with_download).
  destruct (image_document_record_stays_unprocessed healthy_env (Some 7%Z)
              (Some "F1") "/tmp/tmp0.png" "scan.png" "image/png"
              world_with_download
              (User.mk (Some 7%Z) None None None 1 2 true) (world u) 0
              (world (file_message_insert healthy_env file_msg
                        (set_clock S (world u))))
              "Hi there!" (world r)
              eq_refl eq_refl eq_refl) as (_ & Hrec & Hp & Ha);
    [vm_compute; reflexivity ..|].
  exists (world r). split_and!; [vm_compute; reflexivity | exact Hrec | exact Hp | exact Ha].
Defined.

(** A text document, through the same function, has its one record
    marked. *)
Example text_document_record_is_marked :
  exists ts,
    file_messages
      (world (GeminiService.analyze_document healthy_env (Some 7%Z) (Some "F1")
                "/tmp/tmp0.png" "notes.txt" (Some "text/plain") world_with_download))
    = [FileMessage.mk "7" (Some "F1") "document" (Some "notes.txt") None
         (Some "text/plain") true (Some "Hi there!") ts].
Proof. eexists. vm_compute. reflexivity. Qed.

(** * The webhook boundary *)

Section Webhook.
Variable env : Env.

Lemma process_message_total message w :
  exists reply w', TelegramBot.process_message env message w = (Ok reply, w').
Proof.
  unfold TelegramBot.process_message.
  apply (try_except_total _
           (fun _ => "Sorry, I encountered an error processing your message. Please try again.")).
Qed.

(** A text that is neither a command nor blank goes to
    [generate_response]. *)
Lemma process_message_text message text w :
  Message.photo message = None ->
  Message.document message = None ->
  Message.text message = Some text ->
  Py.startswith text "/" = false ->
  Py.truthy (Py.strip text) = true ->
  TelegramBot.process_message env message w
  = GeminiService.generate_response env (TelegramBot.telegram_id_of message) text
      (Message.from message ≫= TgUser.username)
      (Some (default "User" (Message.from message ≫= TgUser.first_name)))
      (Message.from message ≫= TgUser.last_name)
      (Message.message_id message) w.
Proof.
  intros Hphoto Hdoc Htext Hcmd Hstrip.
  unfold TelegramBot.process_message.
  rewrite Hphoto, Hdoc, Htext. simpl. rewrite Hcmd, Hstrip.
  destruct (generate_response_total env (TelegramBot.telegram_id_of message) text
              (Message.from message ≫= TgUser.username)
              (Some (default "User" (Message.from message ≫= TgUser.first_name)))
              (Message.from message ≫= TgUser.last_name)
              (Message.message_id message) w) as (reply & w' & Hr & _).
  rewrite Hr. by apply try_except_ok.
Qed.

Lemma send_message_inv chat text mode w :
  TelegramBot.send_message env chat text mode w
  = (Ok (telegram_send env (clock w)),
     set_trace (fun t => t ++ [EvSendMessage chat text mode]) (set_clock S w)).
Proof. reflexivity. Qed.

(** C5, as the code has it. Nothing raised while a message is handled
    reaches the webhook: [process_message] always gives a reply, and the
    status of the webhook is 200 when Telegram accepts the reply and 500
    when it does not, whatever the store did.  For a chat text whose
    handling raised, a failing store operation included, that reply is
    the fixed apology of [generate_response]. *)
Theorem webhook_status_follows_delivery message w :
  bot_configured env = true ->
  let chat := Message.chat_id message in
  let w0 := set_trace (fun t => t ++ [EvTyping chat]) w in
  exists reply w1,
    TelegramBot.process_message env message w0 = (Ok reply, w1) /\
    App.webhook env (UpdMessage message) w
    = (Ok (if telegram_send env (clock w1) then 200 else 500)%Z,
       set_trace (fun t => t ++ [EvSendMessage chat reply (Some "Markdown")])
         (set_clock S w1)) /\
    (forall text e w',
        Message.photo message = None ->
        Message.document message = None ->
        Message.text message = Some text ->
        Py.startswith text "/" = false ->
        Py.truthy (Py.strip text) = true ->
        GeminiService.generate_response_body env
          (TelegramBot.telegram_id_of message) text
          (Message.from message ≫= TgUser.username)
          (Some (default "User" (Message.from message ≫= TgUser.first_name)))
          (Message.from message ≫= TgUser.last_name)
          (Message.message_id message) w0 = (Raise e, w') ->
        reply = GeminiService.technical_difficulties /\ w1 = w').
Proof.
  intros Hbot chat w0.
  destruct (process_message_total message w0) as (reply & w1 & Hp).
  exists reply, w1. split_and!; [exact Hp | |].
  - unfold App.webhook, App.get_bot. rewrite Hbot.
    apply try_except_ok. unfold bind at 1. unfold ret at 1.
    assert (Hh : TelegramBot.handle_webhook_update env (UpdMessage message) w
                 = (Ok (telegram_send env (clock w1)),
                    set_trace (fun t => t ++ [EvSendMessage chat reply (Some "Markdown")])
                      (set_clock S w1))).
    { unfold TelegramBot.handle_webhook_update. apply try_except_ok.
      unfold TelegramBot.send_typing_action, emit, modify.
      unfold bind at 1. fold chat. fold w0.
      rewrite (bind_ok _ _ _ _ _ Hp). apply send_message_inv. }
    rewrite (bind_ok _ _ _ _ _ Hh).
    destruct (telegram_send env (clock w1)); reflexivity.
  - intros text e w' Hphoto Hdoc Htext Hcmd Hstrip Hbody.
    rewrite (process_message_text _ _ _ Hphoto Hdoc Htext Hcmd Hstrip) in Hp.
    rewrite (generate_response_on_raise env _ _ _ _ _ _ _ _ _ Hbody) in Hp.
    by injection Hp as <- <-.
Qed.

End Webhook.

Lemma webhook_status_follows_delivery_witness :
  exists w1,
    TelegramBot.process_message store_down_env (text_message "Hello")
      (set_trace (fun t => t ++ [EvTyping 99]) empty_world)
    = (Ok GeminiService.technical_difficulties, w1) /\
    App.webhook store_down_env (UpdMessage (text_message "Hello")) empty_world
    = (Ok 200%Z,
       set_trace
         (fun t => t ++ [EvSendMessage 99 GeminiService.technical_difficulties
                           (Some "Markdown")])
         (set_clock S w1)).
Proof.
  destruct (webhook_status_follows_delivery store_down_env (text_message "Hello")
              empty_world eq_refl) as (reply & w1 & Hp & Hw & Hreply).
  destruct (Hreply "Hello" StoreUnavailable
              (mkWorld [] [] [] ∅ 1 [EvTyping 99])) as [-> ->];
    try reflexivity.
  eexists. split; [exact Hp | exact Hw].
Defined.

(** C5 as stated fails: with the store down, a chat text and a "/clear"
    are both acknowledged with status 200 and answered; the history that
    "/clear" reports as cleared is still there. *)
Lemma store_down_is_acknowledged :
  (let r := App.webhook store_down_env (UpdMessage (text_message "Hello")) empty_world in
   value r = Ok 200%Z /\
   trace (world r) =
     [EvTyping 99;
      EvSendMessage 99 GeminiService.technical_difficulties (Some "Markdown")]) /\
  (let r := App.webhook store_down_env (UpdMessage (text_message "/clear")) after_hello in
   value r = Ok 200%Z /\
   trace (world r) =
     trace after_hello ++
       [EvTyping 99; EvSendMessage 99 TelegramBot.cleared (Some "Markdown")] /\
   conversations (world r) = conversations after_hello /\
   conversations after_hello <> []).
Proof.
  split; split_and!; try (vm_compute; reflexivity).
  vm_compute. discriminate.
Qed.
(** * Invariants of the pipeline *)

Section Evolves.
Context (R : World -> World -> Prop) `{!PreOrder R}.

Lemma evolves_ret {A} (a : A) : evolves R (ret a).
Proof. intros w r w' [= _ <-]. reflexivity. Qed.

Lemma evolves_raise {A} e : evolves R (raise (A := A) e).
Proof. intros w r w' [= _ <-]. reflexivity. Qed.

Lemma evolves_get_world : evolves R get_world.
Proof. intros w r w' [= _ <-]. reflexivity. Qed.

Lemma evolves_modify f : (forall w, R w (f w)) -> evolves R (modify f).
Proof. intros H w r w' [= _ <-]. apply H. Qed.

Lemma evolves_tick : (forall w, R w (set_clock S w)) -> evolves R tick.
Proof. intros H w r w' [= _ <-]. apply H. Qed.

Lemma evolves_bind {A B} (m : M A) (k : A -> M B) :
  evolves R m -> (forall a, evolves R (k a)) -> evolves R (bind m k).
Proof.
  intros Hm Hk w r w' H.
  apply bind_inv in H as [(a & w1 & H1 & H2) | (e & H1 & _)].
  - transitivity w1; [eapply Hm | eapply Hk]; eassumption.
  - eapply Hm; eassumption.
Qed.

Lemma evolves_try_except {A} (body : M A) handler :
  evolves R body -> (forall e, evolves R (handler e)) ->
  evolves R (try_except body handler).
Proof.
  intros Hb Hh w r w' H. unfold try_except in H.
  destruct (body w) as [[a|e] w1] eqn:Hbody.
  - injection H as _ <-. eapply Hb; eassumption.
  - transitivity w1; [eapply Hb | eapply Hh]; eassumption.
Qed.

Lemma evolves_try_finally {A} (body : M A) cleanup :
  evolves R body -> evolves R cleanup -> evolves R (try_finally body cleanup).
Proof.
  intros Hb Hc w r w' H. unfold try_finally in H.
  destruct (body w) as [rb w1] eqn:Hbody.
  destruct (cleanup w1) as [[[]|e] w2] eqn:Hclean;
    injection H as _ <-; (transitivity w1; [eapply Hb | eapply Hc]; eassumption).
Qed.

End Evolves.

Lemma evolves_weaken {A} (R R' : World -> World -> Prop) (m : M A) :
  (forall w w', R w w' -> R' w w') -> evolves R m -> evolves R' m.
Proof. intros Hsub Hm w r w' H. eapply Hsub, Hm, H. Qed.

#[local] Instance same_users_preorder : PreOrder same_users.
Proof. split; [by intros w | intros a b c H1 H2; unfold same_users in *; congruence]. Qed.
#[local] Instance same_conversations_preorder : PreOrder same_conversations.
Proof.
  split; [by intros w | intros a b c H1 H2; unfold same_conversations in *; congruence].
Qed.
#[local] Instance same_file_messages_preorder : PreOrder same_file_messages.
Proof.
  split; [by intros w | intros a b c H1 H2; unfold same_file_messages in *; congruence].
Qed.
#[local] Instance same_fs_preorder : PreOrder same_fs.
Proof. split; [by intros w | intros a b c H1 H2; unfold same_fs in *; congruence]. Qed.
#[local] Instance same_trace_preorder : PreOrder same_trace.
Proof. split; [by intros w | intros a b c H1 H2; unfold same_trace in *; congruence]. Qed.
#[local] Instance same_collections_preorder : PreOrder same_collections.
Proof.
  split.
  - intros w. by repeat split.
  - intros a b c (?&?&?) (?&?&?). repeat split; etransitivity; eassumption.
Qed.
#[local] Instance keeps_preorder P : PreOrder (keeps P).
Proof. split; [intros w H; exact H | intros a b c H1 H2 H; auto]. Qed.
#[local] Instance keeps_users_preorder : PreOrder keeps_users.
Proof.
  split.
  - intros w pk u H. eauto.
  - intros a b c H1 H2 pk u H.
    destruct (H1 pk u H) as (u1 & Hu1 & ? & ? & ?).
    destruct (H2 pk u1 Hu1) as (u2 & Hu2 & ? & ? & ?).
    exists u2. split_and!; [done | congruence ..].
Qed.
#[local] Instance keeps_media_preorder : PreOrder keeps_media.
Proof.
  split.
  - intros w i f H. eauto.
  - intros a b c H1 H2 i f H.
    destruct (H1 i f H) as (f1 & Hf1 & ?).
    destruct (H2 i f1 Hf1) as (f2 & Hf2 & ?).
    exists f2. split; auto.
Qed.
#[local] Instance appends_entries_preorder : PreOrder appends_entries.
Proof.
  split; [intros w; unfold appends_entries; reflexivity |].
  intros a b c H1 H2. unfold appends_entries in *. by etransitivity.
Qed.
#[local] Instance files_outside_preorder path : PreOrder (files_outside path).
Proof.
  split; [by intros w q |].
  intros a b c H1 H2 q Hq. rewrite H2, H1; auto.
Qed.

(** one step through the structure of a computation *)
Ltac evo_struct :=
  lazymatch goal with
  | |- evolves _ (bind _ _) => apply evolves_bind; [tc_solve | | intros ?]
  | |- evolves _ (ret _) => apply evolves_ret; tc_solve
  | |- evolves _ (raise _) => apply evolves_raise; tc_solve
  | |- evolves _ get_world => apply evolves_get_world; tc_solve
  | |- evolves _ (try_except _ _) =>
      apply evolves_try_except; [tc_solve | | intros ?]
  | |- evolves _ (try_finally _ _) => apply evolves_try_finally; [tc_solve | |]
  | |- evolves _ (if ?b then _ else _) => destruct b eqn:?
  | |- evolves _ (match ?x with _ => _ end) => destruct x
  | |- evolves _ (let _ := _ in _) => cbv zeta
  end.

Ltac unfold_store :=
  unfold user_first, user_insert, user_update, conversation_list,
    conversation_delete, conversation_save, file_message_insert,
    file_message_update, named_temporary_file, read_bytes, read_text, unlink,
    generate_content, now, store_op, emit.

(** a computation made of store primitives that leave the component of
    a [same_...] relation alone *)
Ltac evo_frame :=
  repeat first [ progress unfold GeminiService.get_or_create_user
               | progress unfold_store
               | evo_struct
               | apply evolves_modify; intros ?
               | apply evolves_tick; intros ? ];
  try (unfold same_collections, same_users, same_conversations,
         same_file_messages, same_fs, same_trace; by repeat split).

Ltac unfold_pipeline :=
  unfold App.webhook, App.get_bot, TelegramBot.handle_webhook_update,
    TelegramBot.process_message, TelegramBot.handle_command,
    TelegramBot.handle_document, TelegramBot.handle_photo,
    TelegramBot.download_file, TelegramBot.send_message,
    TelegramBot.send_typing_action, GeminiService.analyze_document,
    GeminiService.analyze_document_body, GeminiService.analyze_image,
    GeminiService.analyze_image_body, GeminiService.get_welcome_message,
    GeminiService.clear_context, GeminiService.clear_context_body,
    GeminiService.generate_response, GeminiService.generate_response_body,
    GeminiService.get_conversation_context, GeminiService.save_message.

(** a computation of the pipeline: [special] settles the steps that touch
    the component, the others are framed through [frame_sub] *)
Ltac evo_pipeline frame_sub special :=
  unfold_pipeline;
  repeat first
    [ evo_struct
    | special
    | solve [ eapply evolves_weaken; [apply frame_sub | evo_frame] ] ].

(** * Users *)

Section Users.
Variable env : Env.

Lemma user_first_inv tid w r w' :
  user_first env tid w = (r, w') ->
  w' = set_clock S w /\
  forall found, r = Ok found ->
    found = list_find (fun u => User.telegram_id u = tid) (users w).
Proof. msolve. Qed.

Lemma user_insert_inv u w r w' :
  user_insert env u w = (r, w') ->
  match r with
  | Ok _ =>
      users w' = users w ++ [u] /\ Validate.user u = true /\
      list_find (fun v => User.telegram_id v = User.telegram_id u) (users w) = None
  | Raise _ => users w' = users w
  end.
Proof. msolve. Qed.

Lemma user_update_inv pk u w r w' :
  user_update env pk u w = (r, w') ->
  match r with
  | Ok _ => users w' = <[pk := u]> (users w) /\ Validate.user u = true
  | Raise _ => users w' = users w
  end.
Proof. msolve. Qed.

(** What [get_or_create_user] does to the collection of users: nothing
    when it raises or when it finds a document whose [username] and
    [first_name] are the inbound ones; one document added for an id that
    had none; or the document found rewritten in place with the inbound
    display fields. *)
Lemma get_or_create_user_users tid un fn ln w r w' :
  GeminiService.get_or_create_user env tid un fn ln w = (r, w') ->
  (exists e, r = Raise e /\ users w' = users w) \/
  (exists pk user,
      list_find (fun v => User.telegram_id v = tid) (users w) = Some (pk, user) /\
      users w' = users w /\ r = Ok user /\
      User.username user = un /\ User.first_name user = fn) \/
  (exists u,
      list_find (fun v => User.telegram_id v = tid) (users w) = None /\
      users w' = users w ++ [u] /\ r = Ok u /\
      User.telegram_id u = tid /\ User.username u = un /\
      User.first_name u = fn /\ User.last_name u = ln /\
      User.is_active u = true /\ Validate.user u = true) \/
  (exists pk user u,
      list_find (fun v => User.telegram_id v = tid) (users w) = Some (pk, user) /\
      users w' = <[pk := u]> (users w) /\ r = Ok u /\
      User.telegram_id u = User.telegram_id user /\
      User.created_at u = User.created_at user /\
      User.is_active u = User.is_active user /\
      User.username u = un /\ User.first_name u = fn /\ User.last_name u = ln /\
      Validate.user u = true).
Proof.
  unfold GeminiService.get_or_create_user. intros H.
  apply bind_inv in H as [(found & w1 & Hf & H) | (e & Hf & ->)];
    apply user_first_inv in Hf as [-> Hf]; [|left; eauto].
  specialize (Hf found eq_refl). subst found.
  destruct (list_find _ (users w)) as [[pk user]|] eqn:Hfind.
  - destruct (negb _ || negb _) eqn:Hguard.
    + apply bind_inv in H as [(ts & w2 & Hn & H) | (e & Hn & ->)];
        apply now_inv in Hn as [Hts ->]; [|left; eauto].
      apply bind_inv in H as [([] & w3 & Hu & H) | (e & Hu & ->)];
        apply user_update_inv in Hu; [|left; eauto].
      destruct Hu as [Hu Hvalid]. unfold ret in H. injection H as <- <-.
      do 3 right. eexists pk, user, _. split_and!; try done.
    + unfold ret in H. injection H as <- <-.
      apply orb_false_elim in Hguard as [Hun Hfn].
      apply negb_false_iff, bool_decide_eq_true_1 in Hun, Hfn.
      right. left. exists pk, user. split_and!; done.
  - apply bind_inv in H as [(created & w2 & Hn & H) | (e & Hn & ->)];
      apply now_inv in Hn as [_ ->]; [|left; eauto].
    apply bind_inv in H as [(updated & w3 & Hn & H) | (e & Hn & ->)];
      apply now_inv in Hn as [_ ->]; [|left; eauto].
    apply bind_inv in H as [([] & w4 & Hi & H) | (e & Hi & ->)];
      apply user_insert_inv in Hi; [|left; eauto].
    destruct Hi as (Hi & Hvalid & _). unfold ret in H. injection H as <- <-.
    right. right. left. eexists. split_and!; try done.
Qed.




Lemma get_or_create_user_keeps tid un fn ln :
  evolves keeps_users (GeminiService.get_or_create_user env tid un fn ln).
Proof.
  intros w r w' H i v Hv.
  apply get_or_create_user_users in H
    as [(e & _ & ->) | [(pk & user & _ & -> & _)
       | [(u & _ & -> & _) | (pk & user & u & Hfind & -> & _ & Hid & Hc & Ha & _)]]].
  - eauto.
  - eauto.
  - exists v. split_and!; try done. by apply lookup_app_l_Some.
  - apply list_find_Some in Hfind as (Hpk & _).
    destruct (decide (i = pk)) as [->|Hne].
    + exists u. rewrite list_lookup_insert_eq by (by eapply lookup_lt_Some).
      assert (v = user) as -> by congruence. done.
    + exists v. by rewrite list_lookup_insert_ne.
Qed.


Lemma same_users_keeps_users w w' : same_users w w' -> keeps_users w w'.
Proof. unfold same_users, keeps_users. intros ->. eauto. Qed.



(** X2. The webhook never deletes a user document and never changes its
    [telegram_id], [created_at] or [is_active]. *)
Theorem webhook_keeps_users update w r w' pk u :
  App.webhook env update w = (r, w') ->
  users w !! pk = Some u ->
  exists u',
    users w' !! pk = Some u' /\
    User.telegram_id u' = User.telegram_id u /\
    User.created_at u' = User.created_at u /\
    User.is_active u' = User.is_active u.
Proof.
  intros H.
  assert (Hev : evolves keeps_users (App.webhook env update)).
  { evo_pipeline same_users_keeps_users
      ltac:(apply get_or_create_user_keeps). }
  exact (Hev w r w' H pk u).
Qed.

Lemma get_or_create_user_found tid pk user un fn ln w :
  list_find (fun v => User.telegram_id v = tid) (users w) = Some (pk, user) ->
  store_down env (clock w) = false ->
  User.username user = un ->
  User.first_name user = fn ->
  GeminiService.get_or_create_user env tid un fn ln w = (Ok user, set_clock S w).
Proof.
  intros Hfind Hup Hun Hfn. unfold GeminiService.get_or_create_user.
  rewrite (bind_ok _ _ _ _ _ (user_first_up env tid w Hup)), Hfind.
  rewrite !bool_decide_eq_true_2 by done. reflexivity.
Qed.

Lemma find_appended tid (l : list User.t) u :
  list_find (fun v => User.telegram_id v = tid) l = None ->
  User.telegram_id u = tid ->
  list_find (fun v => User.telegram_id v = tid) (l ++ [u]) = Some (length l, u).
Proof.
  intros Hnone Hid. rewrite list_find_app_r by done. simpl.
  rewrite decide_True by done. reflexivity.
Qed.

Lemma find_updated tid pk (user u : User.t) (l : list User.t) :
  list_find (fun v => User.telegram_id v = tid) l = Some (pk, user) ->
  User.telegram_id u = User.telegram_id user ->
  list_find (fun v => User.telegram_id v = tid) (<[pk := u]> l) = Some (pk, u).
Proof.
  intros (Hpk & Hid & Hbefore)%list_find_Some Hu. apply list_find_Some.
  split_and!.
  - apply list_lookup_insert_eq. by eapply lookup_lt_Some.
  - congruence.
  - intros j y Hj Hlt. rewrite list_lookup_insert_ne in Hj by lia. eauto.
Qed.

(** X3. Upsert is idempotent: right after a successful [get_or_create_user],
    the same call returns the same document and writes nothing. *)
Theorem get_or_create_user_idempotent tid un fn ln w user w1 :
  GeminiService.get_or_create_user env tid un fn ln w = (Ok user, w1) ->
  store_down env (clock w1) = false ->
  GeminiService.get_or_create_user env tid un fn ln w1 = (Ok user, set_clock S w1).
Proof.
  intros H Hup.
  apply get_or_create_user_users in H
    as [(e & [=] & _) | [(pk & u0 & Hfind & Hw & [= <-] & Hun & Hfn)
       | [(u & Hnone & Hw & [= <-] & Hid & Hun & Hfn & _)
         | (pk & u0 & u & Hfind & Hw & [= <-] & Hid & _ & _ & Hun & Hfn & _)]]].
  - apply (get_or_create_user_found tid pk); try done. by rewrite Hw.
  - apply (get_or_create_user_found tid (length (users w))); try done.
    rewrite Hw. by apply find_appended.
  - apply (get_or_create_user_found tid pk); try done.
    rewrite Hw. by eapply find_updated.
Qed.

End Users.

(** * Media records and conversation entries *)

Section Collections.
Variable env : Env.

Lemma file_message_insert_consistent f :
  record_consistent f ->
  evolves (keeps media_consistent) (file_message_insert env f).
Proof.
  intros Hf w r w' H Hw. unfold media_consistent in *.
  apply file_message_insert_inv in H. destruct r as [i|e].
  - destruct H as [_ ->]. apply Forall_app. split; [done | by constructor].
  - by rewrite H.
Qed.

Lemma file_message_update_consistent i f :
  record_consistent f ->
  evolves (keeps media_consistent) (file_message_update env i f).
Proof.
  intros Hf w r w' H Hw. unfold media_consistent in *.
  apply file_message_update_inv in H. destruct r as [[]|e]; rewrite H; [|done].
  by apply Forall_insert.
Qed.

Lemma file_message_insert_keeps f :
  evolves keeps_media (file_message_insert env f).
Proof.
  intros w r w' H i f0 Hf0.
  apply file_message_insert_inv in H. destruct r as [j|e].
  - destruct H as [_ ->]. exists f0. split; [by apply lookup_app_l_Some | done].
  - rewrite H. eauto.
Qed.

Lemma file_message_update_keeps i f :
  FileMessage.processed f = true ->
  evolves keeps_media (file_message_update env i f).
Proof.
  intros Hf w r w' H j f0 Hf0.
  apply file_message_update_inv in H. destruct r as [[]|e]; rewrite H; [|eauto].
  destruct (decide (j = i)) as [->|Hne].
  - exists f. rewrite list_lookup_insert_eq by (by eapply lookup_lt_Some). done.
  - exists f0. by rewrite list_lookup_insert_ne.
Qed.

Lemma same_file_messages_keeps_consistent w w' :
  same_file_messages w w' -> keeps media_consistent w w'.
Proof. unfold same_file_messages, keeps, media_consistent. by intros ->. Qed.

Lemma same_file_messages_keeps_media w w' :
  same_file_messages w w' -> keeps_media w w'.
Proof. unfold same_file_messages, keeps_media. intros ->. eauto. Qed.

Lemma new_record_consistent user file_id kind name size mime ts :
  record_consistent (FileMessage.mk user file_id kind name size mime false None ts).
Proof. split; [discriminate | by intros [? ?]]. Qed.

Lemma marked_record_consistent f analysis :
  record_consistent (GeminiService.mark_processed f analysis).
Proof. split; simpl; eauto. Qed.

(** X5. In every world the webhook leaves, a media record is processed
    exactly when it carries an analysis text, provided that was so
    before: the flag and the text are written by one update. *)
Theorem webhook_media_consistent update w r w' :
  media_consistent w ->
  App.webhook env update w = (r, w') ->
  media_consistent w'.
Proof.
  intros Hw H. revert Hw.
  assert (Hev : evolves (keeps media_consistent) (App.webhook env update)).
  { evo_pipeline same_file_messages_keeps_consistent
      ltac:(first [ apply file_message_insert_consistent, new_record_consistent
                  | apply file_message_update_consistent, marked_record_consistent ]). }
  exact (Hev w r w' H).
Qed.

(** X6. The webhook never deletes a media record, and a processed record
    never goes back to unprocessed. *)
Theorem webhook_keeps_media update w r w' i f :
  App.webhook env update w = (r, w') ->
  file_messages w !! i = Some f ->
  exists f',
    file_messages w' !! i = Some f' /\
    (FileMessage.processed f = true -> FileMessage.processed f' = true).
Proof.
  intros H.
  assert (Hev : evolves keeps_media (App.webhook env update)).
  { evo_pipeline same_file_messages_keeps_media
      ltac:(first [ apply file_message_insert_keeps
                  | apply file_message_update_keeps; reflexivity ]). }
  exact (Hev w r w' H i f).
Qed.

Lemma conversation_save_valid c :
  evolves (keeps valid_entries) (conversation_save env c).
Proof.
  intros w r w' H Hw. unfold valid_entries in *.
  unfold conversation_save in H.
  destruct (Validate.conversation c) eqn:Hc.
  - apply bind_inv in H as [([] & w1 & H1 & H) | (e & H1 & _)].
    + assert (w1 = set_clock S w) as -> by (revert H1; msolve).
      unfold modify in H. injection H as _ <-. simpl.
      apply Forall_app. split; [done|]. constructor; [|done].
      unfold Validate.conversation in Hc. by apply bool_decide_eq_true_1 in Hc.
    + assert (w' = set_clock S w) as -> by (revert H1; msolve). done.
  - unfold raise in H. by injection H as _ <-.
Qed.

Lemma conversation_delete_valid key :
  evolves (keeps valid_entries) (conversation_delete env key).
Proof.
  intros w r w' H Hw. unfold valid_entries in *.
  apply conversation_delete_inv in H as (_ & _ & _ & H). destruct r as [n|e].
  - destruct H as [_ ->]. rewrite Forall_forall in *.
    intros c [_ Hc]%list_elem_of_filter. by apply Hw.
  - by rewrite H.
Qed.

Lemma conversation_save_appends c :
  evolves appends_entries (conversation_save env c).
Proof.
  intros w r w' H. unfold appends_entries.
  apply conversation_save_inv in H as (_ & _ & _ & H). destruct r as [[]|e].
  - rewrite H. by apply prefix_app_r.
  - destruct H as [-> _]. done.
Qed.

Lemma same_conversations_keeps_valid w w' :
  same_conversations w w' -> keeps valid_entries w w'.
Proof. unfold same_conversations, keeps, valid_entries. by intros ->. Qed.

Lemma same_conversations_appends w w' :
  same_conversations w w' -> appends_entries w w'.
Proof. unfold same_conversations, appends_entries. by intros ->. Qed.

(** X7. Every entry the webhook leaves in the log has role [user] or
    [assistant], provided the entries before had. *)
Theorem webhook_valid_entries update w r w' :
  valid_entries w ->
  App.webhook env update w = (r, w') ->
  valid_entries w'.
Proof.
  intros Hw H. revert Hw.
  assert (Hev : evolves (keeps valid_entries) (App.webhook env update)).
  { evo_pipeline same_conversations_keeps_valid
      ltac:(first [ apply conversation_save_valid
                  | apply conversation_delete_valid ]). }
  exact (Hev w r w' H).
Qed.

(** X8. Only "/clear" removes entries: for a message whose text does not
    start with "/clear", the log after [process_message] is the log before
    with entries added at its end, so the entries already there are
    neither changed nor reordered. *)
Theorem process_message_appends message w r w' :
  Py.startswith (default "" (Message.text message)) "/clear" = false ->
  TelegramBot.process_message env message w = (r, w') ->
  conversations w `prefix_of` conversations w'.
Proof.
  intros Htext H.
  assert (Hev : evolves appends_entries (TelegramBot.process_message env message)).
  { evo_pipeline same_conversations_appends
      ltac:(first [ apply conversation_save_appends | congruence ]). }
  exact (Hev w r w' H).
Qed.

End Collections.

(** * The context window *)

Lemma Sorted_newer_first_strong l :
  Sorted newer_first l -> StronglySorted newer_first l.
Proof.
  apply Sorted_StronglySorted. intros a b c. unfold newer_first. lia.
Qed.

Section ContextWindow.
Variable env : Env.

(** X9. With a positive limit the context holds the most recent entries: an
    entry of the user that is left out is not newer than any entry
    returned. *)
Theorem get_conversation_context_most_recent user n w l w' c d :
  GeminiService.get_conversation_context env user (Some n) w = (Ok l, w') ->
  (0 < n)%Z ->
  c ∈ l ->
  d ∈ objects_user (Py.str_int (User.telegram_id user)) (conversations w) ->
  d ∉ l ->
  (Conversation.timestamp d <= Conversation.timestamp c)%Z.
Proof.
  intros H Hn Hc Hd Hnd.
  apply get_conversation_context_inv in H as [_ ->].
  unfold GeminiService.context_query in *.
  rewrite bool_decide_eq_false_2 in * by lia. unfold limit in *.
  set (fetched := order_by_timestamp_desc _) in *.
  rewrite elem_of_reverse in Hc. rewrite elem_of_reverse in Hnd.
  assert (Hsorted : StronglySorted newer_first
                      (take (Z.to_nat n) fetched ++ drop (Z.to_nat n) fetched)).
  { rewrite take_drop. apply Sorted_newer_first_strong.
    apply order_by_timestamp_desc_sorted. }
  assert (Hdrop : d ∈ drop (Z.to_nat n) fetched).
  { assert (Hin : d ∈ take (Z.to_nat n) fetched ++ drop (Z.to_nat n) fetched).
    { rewrite take_drop. unfold fetched.
      by rewrite order_by_timestamp_desc_perm. }
    apply elem_of_app in Hin as [|]; done. }
  exact (StronglySorted_app_1_elem_of _ _ _ _ _ Hsorted Hc Hdrop).
Qed.

Lemma order_by_newest_last l e :
  Forall (fun c => (Conversation.timestamp c < Conversation.timestamp e)%Z) l ->
  order_by_timestamp_desc (l ++ [e]) = e :: order_by_timestamp_desc l.
Proof.
  unfold order_by_timestamp_desc. rewrite foldr_app. simpl.
  induction 1 as [|x l Hx Hl IH]; simpl; [done|].
  rewrite IH. simpl.
  destruct (Z.leb_spec (Conversation.timestamp e) (Conversation.timestamp x)); [lia|done].
Qed.

Lemma last_n_snoc {A} n (l : list A) x :
  Py.last_n (S n) (l ++ [x]) = Py.last_n n l ++ [x].
Proof.
  unfold Py.last_n. rewrite length_app. simpl.
  replace (length l + 1 - S n) with (length l - n) by lia.
  rewrite drop_app_le by lia. reflexivity.
Qed.

Lemma truthy_app_r a b : Py.truthy b = true -> Py.truthy (a +:+ b) = true.
Proof. by destruct a. Qed.

Lemma join_snoc_truthy sep l x :
  Py.truthy x = true -> Py.truthy (Py.join sep (l ++ [x])) = true.
Proof.
  intros Hx. unfold Py.join. induction l as [|y l IH]; simpl; [done|].
  destruct (l ++ [x]) eqn:Hl; [by destruct l|].
  by apply truthy_app_r, truthy_app_r.
Qed.

(** When the clock reading of the inbound entry is later than the
    timestamps of the user's stored entries, the history of the prompt
    ends with the inbound text, after at most nine earlier lines. *)
Lemma prompt_history_ends_with_message key un fn message ts mid old :
  Forall (fun c => (Conversation.timestamp c < ts)%Z) (objects_user key old) ->
  let entry := Conversation.mk key "user" message ts mid in
  let recent :=
    reverse (GeminiService.context_query key
               (Some GeminiService.max_context_messages) (old ++ [entry])) in
  exists earlier,
    Py.last_n 10 recent = earlier ++ [entry] /\
    length earlier <= 9 /\
    (forall c, c ∈ earlier -> c ∈ objects_user key old) /\
    GeminiService.full_prompt un fn message recent =
      GeminiService.system_prompt un fn +:+ "

Conversation history:
" +:+ Py.join "
" ((GeminiService.context_line <$> earlier) ++ ["User: " +:+ message]) +:+ "

Please respond to the latest user message.".
Proof.
  intros Hnewer entry recent.
  assert (Hrecent : recent =
            reverse (take 19 (order_by_timestamp_desc (objects_user key old)))
            ++ [entry]).
  { unfold recent, GeminiService.context_query.
    assert (objects_user key [entry] = [entry]) as Hentry.
    { unfold objects_user. rewrite filter_cons, decide_True by done.
      by rewrite filter_nil. }
    rewrite objects_user_app, Hentry.
    rewrite order_by_newest_last by exact Hnewer.
    rewrite bool_decide_eq_false_2 by done. unfold limit.
    change (Z.to_nat GeminiService.max_context_messages) with 20.
    rewrite firstn_cons, reverse_cons. reflexivity. }
  exists (Py.last_n 9 (reverse (take 19 (order_by_timestamp_desc (objects_user key old))))).
  assert (Hlast : Py.last_n 10 recent =
                  Py.last_n 9 (reverse (take 19 (order_by_timestamp_desc
                                                   (objects_user key old))))
                  ++ [entry]).
  { rewrite Hrecent. apply last_n_snoc. }
  split_and!.
  - exact Hlast.
  - unfold Py.last_n. rewrite length_drop. lia.
  - intros c Hc. unfold Py.last_n in Hc.
    apply (subseteq_drop _ _) in Hc. rewrite elem_of_reverse in Hc.
    apply (subseteq_take _ _) in Hc.
    by rewrite order_by_timestamp_desc_perm in Hc.
  - unfold GeminiService.full_prompt. rewrite Hlast, fmap_app.
    change (GeminiService.context_line <$> [entry]) with ["User: " +:+ message].
    set (lines := GeminiService.context_line <$> _).
    assert (Htruthy : Py.truthy (Py.join "
" (lines ++ ["User: " +:+ message])) = true).
    { by apply join_snoc_truthy. }
    rewrite Htruthy. reflexivity.
Qed.

(** X10. When the inbound entry is stamped later than the user's stored
    entries, the prompt sent to the completion client ends its history
    with the inbound text, after at most nine earlier entries of the
    user. *)
Theorem generate_response_prompt_ends_with_message
    tid message un fn ln mid w reply w' entry answer :
  GeminiService.generate_response_body env tid message un fn ln mid w
    = (Ok reply, w') ->
  conversations w' = conversations w ++ [entry; answer] ->
  Forall (fun c => (Conversation.timestamp c < Conversation.timestamp entry)%Z)
         (objects_user (Py.str_int tid) (conversations w)) ->
  exists earlier,
    length earlier <= 9 /\
    (forall c, c ∈ earlier -> c ∈ objects_user (Py.str_int tid) (conversations w)) /\
    trace w' =
      trace w ++
        [EvGenerate GeminiService.model_name
           (GeminiService.system_prompt un fn +:+ "

Conversation history:
" +:+ Py.join "
" ((GeminiService.context_line <$> earlier) ++ ["User: " +:+ message]) +:+ "

Please respond to the latest user message.") None].
Proof.
  intros Hbody Hlog Hnewer.
  apply generate_response_body_inv in Hbody
    as (ts1 & ts2 & text & Hc & Ht & _).
  cbv zeta in Hc, Ht. rewrite Hc in Hlog.
  apply app_inv_head in Hlog. injection Hlog as <- _.
  destruct (prompt_history_ends_with_message (Py.str_int tid) un fn message
              ts1 mid (conversations w) Hnewer)
    as (earlier & _ & Hlen & Hin & Hprompt).
  exists earlier. split_and!; [done | done |].
  rewrite Ht, Hprompt. reflexivity.
Qed.

End ContextWindow.

(** * Clearing and commands *)


Section Commands.
Variable env : Env.


Lemma same_users_refl_sub w w' : same_users w w' -> same_users w w'.
Proof. done. Qed.
Lemma same_file_messages_refl_sub w w' :
  same_file_messages w w' -> same_file_messages w w'.
Proof. done. Qed.
Lemma same_conversations_refl_sub w w' :
  same_conversations w w' -> same_conversations w w'.
Proof. done. Qed.

Lemma get_welcome_message_total username w :
  exists reply w',
    GeminiService.get_welcome_message env username w = (Ok reply, w').
Proof.
  unfold GeminiService.get_welcome_message.
  apply (try_except_total _ (fun _ => GeminiService.welcome_fallback username)).
Qed.

(** X12. A command never raises and never touches the users or the media
    records; unless its text starts with "/clear" it leaves the
    conversation log alone too. *)
Theorem handle_command_persistence message w r w' :
  TelegramBot.handle_command env message w = (r, w') ->
  (exists reply, r = Ok reply) /\
  users w' = users w /\
  file_messages w' = file_messages w /\
  (Py.startswith (default "" (Message.text message)) "/clear" = false ->
   conversations w' = conversations w).
Proof.
  intros H. split_and!.
  - unfold TelegramBot.handle_command in H. cbv zeta in H.
    repeat case_match; simplify_eq.
    + destruct (get_welcome_message_total
                  (Some (default "there" (Message.from message ≫= TgUser.first_name))) w)
        as (a & wa & Ha).
      rewrite Ha in H. injection H as <- _. eauto.
    + unfold ret in H. injection H as <- _. eauto.
    + destruct (clear_context_total env (TelegramBot.telegram_id_of message) w)
        as (wc & Hc).
      rewrite (bind_ok _ _ _ _ _ Hc) in H. unfold ret in H. injection H as <- _. eauto.
    + unfold ret in H. injection H as <- _. eauto.
  - assert (Hev : evolves same_users (TelegramBot.handle_command env message)).
    { evo_pipeline same_users_refl_sub ltac:(fail). }
    exact (Hev w r w' H).
  - assert (Hev : evolves same_file_messages (TelegramBot.handle_command env message)).
    { evo_pipeline same_file_messages_refl_sub ltac:(fail). }
    exact (Hev w r w' H).
  - intros Htext.
    assert (Hev : evolves same_conversations (TelegramBot.handle_command env message)).
    { evo_pipeline same_conversations_refl_sub ltac:(congruence). }
    exact (Hev w r w' H).
Qed.

End Commands.

(** * Media analysis *)

Ltac get_frame R H :=
  lazymatch type of H with
  | ?m ?w = (?r, ?w') =>
      let Hf := fresh "Hfr" in
      assert (Hf : R w w') by (refine ((_ : evolves R m) w r w' H); evo_frame)
  end.

Lemma insert_last {A} (l : list A) x y : <[length l := y]> (l ++ [x]) = l ++ [y].
Proof. induction l; simpl; [done | by f_equal]. Qed.

Section Analysis.
Variable env : Env.

Lemma file_message_insert_inv2 f w r w' :
  file_message_insert env f w = (r, w') ->
  users w' = users w /\ conversations w' = conversations w /\
  fs w' = fs w /\ trace w' = trace w /\
  match r with
  | Ok i => i = length (file_messages w) /\ file_messages w' = file_messages w ++ [f]
  | Raise e => file_messages w' = file_messages w /\ e <> APIError
  end.
Proof. msolve. Qed.

Lemma file_message_update_inv2 i f w r w' :
  file_message_update env i f w = (r, w') ->
  users w' = users w /\ conversations w' = conversations w /\
  fs w' = fs w /\ trace w' = trace w /\
  match r with
  | Ok _ => file_messages w' = <[i := f]> (file_messages w)
  | Raise e => file_messages w' = file_messages w /\ e <> APIError
  end.
Proof. msolve. Qed.

Lemma read_bytes_inv2 path w r w' :
  read_bytes path w = (r, w') ->
  w' = w /\
  match r with
  | Ok bytes => fs w !! path = Some bytes
  | Raise e => e <> APIError
  end.
Proof. msolve. Qed.

(** Everything the body of [analyze_image] can do. *)
Lemma analyze_image_body_inv tid file_id path caption w r w' :
  GeminiService.analyze_image_body env tid file_id path caption w = (r, w') ->
  let key := Py.str_int tid in
  let record processed analysis ts :=
    FileMessage.mk key file_id "photo" None None None processed analysis ts in
  match r with
  | Ok reply =>
      exists ts tsu tsa bytes text,
        fs w !! path = Some bytes /\
        file_messages w' = file_messages w ++ [record true (Some reply) ts] /\
        conversations w' =
          conversations w ++
            [Conversation.mk key "user" (image_note caption) tsu None;
             Conversation.mk key "assistant" reply tsa None] /\
        trace w' =
          trace w ++
            [EvGenerate GeminiService.vision_model (image_prompt caption) (Some bytes)] /\
        (exists k,
            gemini env k GeminiService.vision_model (image_prompt caption) (Some bytes)
            = GeminiText text) /\
        reply = Py.or_else text "I could not analyze this image."
  | Raise e =>
      (e = APIError ->
       exists ts,
         file_messages w' = file_messages w ++ [record false None ts] /\
         conversations w' = conversations w) /\
      (file_messages w' = file_messages w \/
       exists ts processed analysis,
         file_messages w' = file_messages w ++ [record processed analysis ts] /\
         (processed = true <-> is_Some analysis))
  end.
Proof.
  intros H key record. unfold GeminiService.analyze_image_body in H.
  apply bind_inv in H as [(user & w1 & Hu & H) | (e & Hu & ->)].
  2: { apply get_or_create_user_inv in Hu as (_ & Hf & _ & He).
       split; [done | by left]. }
  get_frame same_fs Hu.
  apply get_or_create_user_inv in Hu as (Hc1 & Hf1 & Ht1 & Hid).
  apply bind_inv in H as [(ts & w2 & Hn & H) | (e & Hn & _)];
    apply now_inv in Hn as [Hts ->]; [|done].
  rewrite Hid in H. fold key in H.
  apply bind_inv in H as [(doc_id & w3 & Hi & H) | (e & Hi & ->)];
    apply file_message_insert_inv2 in Hi as (_ & Hc3 & Hfs3 & Ht3 & Hi);
    simpl in Hc3, Hfs3, Ht3, Hi.
  2: { destruct Hi as [Hi He]. split; [done | left; congruence]. }
  destruct Hi as [-> Hf3]. rewrite Hf1 in Hf3.
  apply bind_inv in H as [(bytes & w4 & Hb & H) | (e & Hb & ->)];
    apply read_bytes_inv2 in Hb as [-> Hb].
  2: { split; [done|]. right. eexists _, false, None. split; [exact Hf3|].
       split; [done | by intros [? ?]]. }
  apply bind_inv in H as [(text & w5 & Hg & H) | (e & Hg & ->)];
    apply generate_content_inv in Hg as (_ & Hc5 & Hf5 & Ht5 & Hg).
  2: { split.
       - intros _. eexists. split; [by rewrite Hf5, Hf3 | congruence].
       - right. eexists _, false, None. rewrite Hf5. split; [exact Hf3|].
         split; [done | by intros [? ?]]. }
  apply bind_inv in H as [([] & w6 & Hup & H) | (e & Hup & ->)];
    apply file_message_update_inv2 in Hup as (_ & Hc6 & _ & Ht6 & Hup).
  2: { destruct Hup as [Hup He]. split; [done|].
       right. eexists _, false, None. rewrite Hup, Hf5. split; [exact Hf3|].
       split; [done | by intros [? ?]]. }
  rewrite Hf5, Hf3, Hf1, insert_last in Hup. simpl in Hup.
  apply bind_inv in H as [([] & w7 & Hs7 & H) | (e & Hs7 & ->)];
    apply save_message_inv in Hs7 as (_ & Hf7 & Ht7 & Hs7).
  2: { destruct Hs7 as [_ He]. split; [done|].
       right. eexists _, true, (Some _). rewrite Hf7. split; [exact Hup|].
       split; eauto. }
  apply bind_inv in H as [([] & w8 & Hs8 & H) | (e & Hs8 & ->)];
    apply save_message_inv in Hs8 as (_ & Hf8 & Ht8 & Hs8).
  2: { destruct Hs8 as [_ He]. split; [done|].
       right. eexists _, true, (Some _). rewrite Hf8, Hf7. split; [exact Hup|].
       split; eauto. }
  unfold ret in H. injection H as <- <-.
  eexists _, _, _, bytes, text. split_and!.
  - rewrite <- Hb. unfold same_fs in Hfr. simpl in Hfs3. congruence.
  - rewrite Hf8, Hf7. exact Hup.
  - rewrite Hs8, Hs7, Hc6, Hc5, Hc3, Hc1, Hid. fold key.
    rewrite <- app_assoc. reflexivity.
  - rewrite Ht8, Ht7, Ht6, Ht5, Ht3, Ht1. reflexivity.
  - eexists. exact Hg.
  - reflexivity.
Qed.

(** X14. A completed image analysis reads the downloaded bytes, sends them
    with the prompt (caption included) to the vision model, and leaves
    one [photo] record marked processed with the reply as its analysis,
    and two entries: the note of the image with its caption, and the
    reply.  The reply is the text the vision model gave for these bytes
    and this prompt, or the fixed text when it gave none. *)
Theorem analyze_image_completed tid file_id path caption w reply w' :
  GeminiService.analyze_image_body env tid file_id path caption w = (Ok reply, w') ->
  exists ts tsu tsa bytes text,
    fs w !! path = Some bytes /\
    file_messages w' =
      file_messages w ++
        [FileMessage.mk (Py.str_int tid) file_id "photo" None None None
           true (Some reply) ts] /\
    conversations w' =
      conversations w ++
        [Conversation.mk (Py.str_int tid) "user" (image_note caption) tsu None;
         Conversation.mk (Py.str_int tid) "assistant" reply tsa None] /\
    trace w' =
      trace w ++
        [EvGenerate GeminiService.vision_model (image_prompt caption) (Some bytes)] /\
    (exists k,
        gemini env k GeminiService.vision_model (image_prompt caption) (Some bytes)
        = GeminiText text) /\
    reply = Py.or_else text "I could not analyze this image.".
Proof.
  intros H. pose proof (analyze_image_body_inv _ _ _ _ _ _ _ H) as Hinv.
  simpl in Hinv. exact Hinv.
Qed.

(** X15. When the completion call of an image analysis fails, the reply is the
    fixed apology, the record created before the call stays in the
    collection unprocessed and without analysis, and no entry is added to
    the log. *)
Theorem analyze_image_completion_failure tid file_id path caption w w' :
  GeminiService.analyze_image_body env tid file_id path caption w
    = (Raise APIError, w') ->
  GeminiService.analyze_image env tid file_id path caption w
    = (Ok GeminiService.image_fallback, w') /\
  conversations w' = conversations w /\
  exists ts,
    file_messages w' =
      file_messages w ++
        [FileMessage.mk (Py.str_int tid) file_id "photo" None None None
           false None ts].
Proof.
  intros H. split.
  { unfold GeminiService.analyze_image.
    by rewrite (try_except_raise _ _ _ _ _ H). }
  apply analyze_image_body_inv in H as [H _].
  destruct (H eq_refl) as (ts & Hf & Hc). eauto.
Qed.




End Analysis.

(** * Photos, temporary files, routing *)

(** [max(l, key=...)] gives an element of the list with the largest
    key, and the first of those. *)
Lemma max_by_spec {A} (key : A -> Z) (l : list A) x :
  Py.max_by key l = Some x ->
  exists i,
    l !! i = Some x /\
    (forall y, y ∈ l -> (key y <= key x)%Z) /\
    (forall j y, l !! j = Some y -> j < i -> (key y < key x)%Z).
Proof.
  revert x. induction l as [|a l IH]; intros x; simpl; [done|].
  destruct (Py.max_by key l) as [y|] eqn:Hmax.
  - destruct (IH y eq_refl) as (i & Hi & Hmaxi & Hfirst).
    destruct (Z.ltb_spec (key a) (key y)); intros [= <-].
    + exists (S i). split_and!; [done | |].
      * intros z [->|Hz]%elem_of_cons; [lia | auto].
      * intros [|j] z Hj Hlt; simpl in Hj;
          [injection Hj as <-; lia | apply (Hfirst j); [done|lia]].
    + exists 0. split_and!; [done | | intros; lia].
      intros z [->|Hz]%elem_of_cons; [lia|]. specialize (Hmaxi z Hz). lia.
  - intros [= <-]. destruct l as [|b l].
    2: { simpl in Hmax. destruct (Py.max_by key l); [destruct (_ <? _)%Z|]; done. }
    exists 0. split_and!; [done | | intros; lia].
    intros z ->%list_elem_of_singleton. lia.
Qed.

Lemma max_by_nonempty {A} (key : A -> Z) (a : A) (l : list A) :
  exists x, Py.max_by key (a :: l) = Some x.
Proof. simpl. destruct (Py.max_by key l); [destruct (_ <? _)%Z|]; eauto. Qed.

Section Photos.
Variable env : Env.

(** X17. For a message with photos, [handle_photo] requests the download of
    the largest size offered, the first one when several are largest.
    When Telegram does not serve the file the reply is the fixed text and
    no record or entry is written; when it does, the reply is the one
    [analyze_image] gives on the downloaded file with the caption.  In both
    cases the temporary file is removed. *)
Theorem handle_photo_largest message photos w :
  Message.photo message = Some photos ->
  photos <> [] ->
  let size p := default 0%Z (PhotoSize.file_size p) in
  exists i largest temp_path w1,
    photos !! i = Some largest /\
    (forall p, p ∈ photos -> (size p <= size largest)%Z) /\
    (forall j p, photos !! j = Some p -> j < i -> (size p < size largest)%Z) /\
    trace w1 = trace w ++ [EvGetFile (Some (PhotoSize.file_id largest))] /\
    same_collections w w1 /\
    match telegram_file env (S (clock w)) (Some (PhotoSize.file_id largest)) with
    | Some bytes =>
        fs w1 !! temp_path = Some bytes /\
        exists reply w2,
          GeminiService.analyze_image env (TelegramBot.telegram_id_of message)
            (Some (PhotoSize.file_id largest)) temp_path (Message.caption message) w1
          = (Ok reply, w2) /\
          TelegramBot.handle_photo env message w
          = (Ok reply, set_fs (delete temp_path) w2)
    | None =>
        TelegramBot.handle_photo env message w
        = (Ok "Sorry, I couldn't download your image. Please try again.",
           set_fs (delete temp_path) w1)
    end.
Proof.
  intros Hphoto Hne size.
  destruct photos as [|p0 photos]; [done|].
  destruct (max_by_nonempty size p0 photos) as (largest & Hmax).
  destruct (max_by_spec size _ _ Hmax) as (i & Hi & Hle & Hfirst).
  set (temp_path := mktemp env (clock w) ".jpg").
  set (file_id := Some (PhotoSize.file_id largest)).
  pose proof (download_file_inv env file_id temp_path
                (set_fs <[temp_path := ""]> (set_clock S w))) as Hdl.
  simpl clock in Hdl.
  assert (Hunfold :
            TelegramBot.handle_photo env message w
            = try_except
                (temp_path <- named_temporary_file env ".jpg" ;;
                 try_finally
                   (ok <- TelegramBot.download_file env file_id temp_path ;;
                    if ok : bool then
                      GeminiService.analyze_image env
                        (TelegramBot.telegram_id_of message) file_id temp_path
                        (Message.caption message)
                    else ret "Sorry, I couldn't download your image. Please try again.")
                   (unlink temp_path))
                (fun _ => ret "Sorry, I encountered an error processing your image. Please try again.")
                w).
  { unfold TelegramBot.handle_photo. rewrite Hphoto.
    change (default [] (Some (p0 :: photos))) with (p0 :: photos).
    cbv zeta. fold size. rewrite Hmax. reflexivity. }
  rewrite Hunfold.
  destruct (telegram_file env (S (clock w)) file_id) as [bytes|] eqn:Hfile.
  - destruct (analyze_image_total env (TelegramBot.telegram_id_of message)
                file_id temp_path (Message.caption message)
                (downloaded file_id temp_path bytes w)) as (reply & w2 & Han).
    exists i, largest, temp_path, (downloaded file_id temp_path bytes w).
    fold file_id. rewrite Hfile.
    split_and!; try done.
    + apply lookup_insert_eq.
    + exists reply, w2. split; [exact Han|].
      apply try_except_ok.
      rewrite (bind_ok _ _ _ _ _ (named_temporary_file_inv env ".jpg" w eq_refl)).
      fold temp_path. unfold try_finally.
      rewrite (bind_ok _ _ _ _ _ Hdl).
      unfold downloaded in Han. rewrite Han. reflexivity.
  - exists i, largest, temp_path,
      (set_trace (fun t => t ++ [EvGetFile file_id])
         (set_clock S (set_fs <[temp_path := ""]> (set_clock S w)))).
    fold file_id. rewrite Hfile.
    split_and!; try done.
    apply try_except_ok.
    rewrite (bind_ok _ _ _ _ _ (named_temporary_file_inv env ".jpg" w eq_refl)).
    fold temp_path. unfold try_finally.
    rewrite (bind_ok _ _ _ _ _ Hdl). reflexivity.
Qed.

End Photos.

Section TempFiles.
Variable env : Env.

Lemma same_fs_files_outside p w w' : same_fs w w' -> files_outside p w w'.
Proof. unfold same_fs. intros H q _. by rewrite H. Qed.

Lemma write_files_outside p bytes :
  evolves (files_outside p) (modify (set_fs <[p := bytes]>)).
Proof.
  apply evolves_modify. intros w q Hq. simpl. by apply lookup_insert_ne.
Qed.

Lemma try_finally_unlink_fs {A} (body : M A) p w r w' :
  evolves (files_outside p) body ->
  try_finally body (unlink p) w = (r, w') ->
  fs w' = delete p (fs w).
Proof.
  intros Hbody H. unfold try_finally in H.
  destruct (body w) as [rb w1] eqn:Hb. specialize (Hbody _ _ _ Hb).
  unfold unlink, modify in H. injection H as _ <-. simpl.
  apply map_eq. intros q. destruct (decide (q = p)) as [->|Hq].
  - by rewrite !lookup_delete_eq.
  - rewrite !lookup_delete_ne by done. by apply Hbody.
Qed.

Lemma download_then_analyze_image_outside tid file_id p caption :
  evolves (files_outside p)
    (ok <- TelegramBot.download_file env file_id p ;;
     if ok : bool then GeminiService.analyze_image env tid file_id p caption
     else ret "Sorry, I couldn't download your image. Please try again.").
Proof.
  evo_pipeline (same_fs_files_outside p) ltac:(apply write_files_outside).
Qed.

Lemma download_then_analyze_document_outside tid file_id p name mime :
  evolves (files_outside p)
    (ok <- TelegramBot.download_file env file_id p ;;
     if ok : bool then GeminiService.analyze_document env tid file_id p name mime
     else ret "Sorry, I couldn't download your file. Please try again.").
Proof.
  evo_pipeline (same_fs_files_outside p) ltac:(apply write_files_outside).
Qed.

(** X18. The temporary file of a media handler is removed on every exit path,
    and no other file is touched: after [handle_photo] or
    [handle_document] the files are those from before, without the path
    the handler chose for its download (the handler leaves the files as
    they were when it returns before creating one). *)
Theorem media_handlers_remove_temporary_file message w r w' :
  (TelegramBot.handle_photo env message w = (r, w') \/
   TelegramBot.handle_document env message w = (r, w')) ->
  fs w' = fs w \/ exists suffix, fs w' = delete (mktemp env (clock w) suffix) (fs w).
Proof.
  intros [H | H].
  - unfold TelegramBot.handle_photo, try_except in H. cbv zeta in H.
    destruct (default [] (Message.photo message)) as [|p0 photos].
    { left. unfold ret in H. by injection H as _ <-. }
    destruct (Py.max_by _ _) as [largest|].
    2: { left. unfold raise, ret in H. by injection H as _ <-. }
    rewrite (bind_ok _ _ _ _ _ (named_temporary_file_inv env ".jpg" w eq_refl)) in H.
    destruct (try_finally _ _ _) as [rf wf] eqn:Hfin.
    apply try_finally_unlink_fs in Hfin;
      [|apply download_then_analyze_image_outside].
    simpl in Hfin. rewrite delete_insert_eq in Hfin.
    right. exists ".jpg".
    destruct rf; unfold ret in H; injection H as _ <-; exact Hfin.
  - unfold TelegramBot.handle_document, try_except in H. cbv zeta in H.
    destruct (TelegramBot.document_fields message) as [[[file_id name] mime] size].
    destruct (bool_decide _).
    { left. unfold ret in H. by injection H as _ <-. }
    set (suffix := if Py.contains "." name then splitext_ext env name else "") in H.
    destruct (temporary_file_error suffix) as [e|] eqn:Hcreate.
    { rewrite (bind_raise _ _ _ _ _ (named_temporary_file_fails env suffix e w Hcreate))
        in H.
      left. unfold ret in H. by injection H as _ <-. }
    rewrite (bind_ok _ _ _ _ _ (named_temporary_file_inv env suffix w Hcreate)) in H.
    destruct (try_finally _ _ _) as [rf wf] eqn:Hfin.
    apply try_finally_unlink_fs in Hfin;
      [|apply download_then_analyze_document_outside].
    simpl in Hfin. rewrite delete_insert_eq in Hfin.
    right. eexists.
    destruct rf; unfold ret in H; injection H as _ <-; exact Hfin.
Qed.

End TempFiles.

(** * Further behaviour of the handlers *)

Lemma lstrip_all_space s : all_space s = true -> Py.lstrip s = "".
Proof.
  induction s as [|c s IH]; simpl; [done|].
  intros [Hc Hs]%andb_true_iff. rewrite Hc. auto.
Qed.

Lemma strip_all_space s : all_space s = true -> Py.strip s = "".
Proof. intros H. unfold Py.strip. by rewrite (lstrip_all_space s H). Qed.

Lemma all_space_not_command s : all_space s = true -> Py.startswith s "/" = false.
Proof.
  destruct s as [|c s]; [done|].
  change (all_space (String c s)) with (Py.is_space c && all_space s).
  intros [Hc _]%andb_true_iff. unfold Py.startswith.
  change (String.prefix "/" (String c s))
    with (if Ascii.ascii_dec "/" c then String.prefix "" s else false).
  destruct (Ascii.ascii_dec "/" c) as [<-|]; [|reflexivity].
  vm_compute in Hc. discriminate.
Qed.

Section Misc.
Variable env : Env.

(** X19. A message without photo and document whose text is missing, empty or
    made of whitespace only gets the fixed invitation, and nothing is
    written, sent to the completion service or downloaded. *)
Theorem blank_text_is_not_processed message w :
  Message.photo message = None ->
  Message.document message = None ->
  all_space (default "" (Message.text message)) = true ->
  TelegramBot.process_message env message w = (Ok TelegramBot.please_send, w).
Proof.
  intros Hphoto Hdoc Hblank. unfold TelegramBot.process_message.
  apply try_except_ok. rewrite Hphoto, Hdoc. simpl.
  rewrite (all_space_not_command _ Hblank), (strip_all_space _ Hblank).
  reflexivity.
Qed.

(** X4. A media message rewrites the profile: [analyze_image] looks the user
    up without display fields, so for a stored user with a [username] or
    a [first_name] the three display fields are set to [None] and
    [updated_at] is touched, whatever happens afterwards. *)
Theorem analyze_image_erases_profile tid pk user file_id path caption w :
  list_find (fun v => User.telegram_id v = tid) (users w) = Some (pk, user) ->
  User.username user <> None \/ User.first_name user <> None ->
  store_down env (clock w) = false ->
  store_down env (S (S (clock w))) = false ->
  is_Some (User.telegram_id user) ->
  exists reply w',
    GeminiService.analyze_image env tid file_id path caption w = (Ok reply, w') /\
    users w' =
      <[pk := User.mk (User.telegram_id user) None None None (User.created_at user)
                      (utcnow env (S (clock w))) (User.is_active user)]> (users w).
Proof.
  intros Hfind Hdiff Hup1 Hup2 Hid.
  destruct (display_fields_overwritten env tid pk user None None None w
              Hfind Hdiff Hup1 Hup2) as (w1 & Hu & Husers).
  { unfold Validate.user. simpl. by rewrite bool_decide_eq_true_2. }
  destruct (analyze_image_total env tid file_id path caption w) as (reply & w' & Han).
  exists reply, w'. split; [exact Han|]. rewrite <- Husers.
  unfold GeminiService.analyze_image, try_except in Han.
  destruct (GeminiService.analyze_image_body env tid file_id path caption w)
    as [rb wb] eqn:Hbody.
  assert (Hwb : users wb = users w1).
  { unfold GeminiService.analyze_image_body in Hbody.
    rewrite (bind_ok _ _ _ _ _ Hu) in Hbody.
    match type of Hbody with
    | ?m w1 = _ => assert (Hev : evolves same_users m)
    end.
    { evo_pipeline same_users_refl_sub ltac:(fail). }
    exact (Hev _ _ _ Hbody). }
  destruct rb; unfold ret in Han; injection Han as _ <-; exact Hwb.
Qed.

(** X13. When the completion service fails or gives no text, "/start" is
    answered with the templated welcome, which names the user; nothing is
    written to the collections. *)
Theorem get_welcome_message_fallback username w :
  (forall prompt,
      gemini env (clock w) GeminiService.model_name prompt None = GeminiFails \/
      gemini env (clock w) GeminiService.model_name prompt None = GeminiText None \/
      gemini env (clock w) GeminiService.model_name prompt None = GeminiText (Some "")) ->
  exists w',
    GeminiService.get_welcome_message env username w
    = (Ok (GeminiService.welcome_fallback username), w') /\
    same_collections w w'.
Proof.
  intros Hg. unfold GeminiService.get_welcome_message. cbv zeta.
  set (prompt := _ +:+ _).
  unfold try_except, generate_content, tick, emit, modify, raise, ret.
  unfold bind. simpl.
  destruct (Hg prompt) as [-> | [-> | ->]]; simpl; eexists; split;
    try reflexivity; by repeat split.
Qed.

Lemma handle_webhook_update_total update w :
  exists b w', TelegramBot.handle_webhook_update env update w = (Ok b, w').
Proof.
  unfold TelegramBot.handle_webhook_update.
  apply (try_except_total _ (fun _ => false)).
Qed.

(** X20. The webhook always answers with a status, one of 200, 400 and 500.
    Without a configured bot it is 500 and nothing happens; with one, an
    empty body gives 400 and an update that is neither a message nor an
    edited message gives 200, both without any effect. *)
Theorem webhook_statuses update w :
  exists status w',
    App.webhook env update w = (Ok status, w') /\
    status ∈ [200; 400; 500]%Z /\
    (bot_configured env = false -> status = 500%Z /\ w' = w) /\
    (bot_configured env = true -> update = UpdEmpty -> status = 400%Z /\ w' = w) /\
    (bot_configured env = true -> update = UpdOther -> status = 200%Z /\ w' = w).
Proof.
  unfold App.webhook, App.get_bot, try_except.
  destruct (bot_configured env) eqn:Hbot.
  - unfold bind at 1. unfold ret at 1.
    destruct update as [m|m| |].
    1: destruct (handle_webhook_update_total (UpdMessage m) w) as (b & wb & Hb).
    2: destruct (handle_webhook_update_total (UpdEdited m) w) as (b & wb & Hb).
    1,2: rewrite (bind_ok _ _ _ _ _ Hb);
         destruct b; eexists _, _; (split; [reflexivity|]);
         split_and!; try done; set_solver.
    + eexists _, _. split; [reflexivity|]. split_and!; try done; set_solver.
    + eexists _, _. split; [reflexivity|]. split_and!; try done; set_solver.
  - eexists _, _. split; [reflexivity|]. split_and!; try done; set_solver.
Qed.

(** X21. An edited message is processed exactly as a new one; only the text
    sent back differs, by the "Updated response" heading. *)
Theorem edited_message_is_reprocessed message w :
  let chat := Message.chat_id message in
  let w0 := set_trace (fun t => t ++ [EvTyping chat]) w in
  exists reply w1,
    TelegramBot.process_message env message w0 = (Ok reply, w1) /\
    TelegramBot.handle_webhook_update env (UpdMessage message) w
    = (Ok (telegram_send env (clock w1)),
       set_trace (fun t => t ++ [EvSendMessage chat reply (Some "Markdown")])
         (set_clock S w1)) /\
    TelegramBot.handle_webhook_update env (UpdEdited message) w
    = (Ok (telegram_send env (clock w1)),
       set_trace
         (fun t => t ++ [EvSendMessage chat ("📝 *Updated response:*

" +:+ reply) (Some "Markdown")])
         (set_clock S w1)).
Proof.
  intros chat w0.
  destruct (process_message_total env message w0) as (reply & w1 & Hp).
  exists reply, w1. split_and!; [exact Hp | |];
    unfold TelegramBot.handle_webhook_update; apply try_except_ok;
    unfold TelegramBot.send_typing_action, emit, modify;
    unfold bind at 1; fold chat; fold w0;
    rewrite (bind_ok _ _ _ _ _ Hp); apply send_message_inv.
Qed.

End Misc.

(** ** Configuration *)

Lemma prefix_append p s : String.prefix p (p +:+ s) = true.
Proof.
  induction p as [|c p IH]; simpl; [by destruct s|].
  by destruct (Ascii.ascii_dec c c).
Qed.

Lemma contains_prefix sub s : String.prefix sub s = true -> Py.contains sub s = true.
Proof. intros H. destruct s; cbn [Py.contains]; rewrite H; done. Qed.

Lemma prefix_append_l sub s t :
  String.prefix sub s = true -> String.prefix sub (s +:+ t) = true.
Proof.
  revert s. induction sub as [|c sub IH]; intros s H.
  - by destruct (s +:+ t).
  - destruct s as [|d s]; [done|].
    change (String d s +:+ t) with (String d (s +:+ t)).
    cbn [String.prefix] in *.
    destruct (Ascii.ascii_dec c d); [by apply IH | done].
Qed.

Lemma contains_append_l sub s t :
  Py.contains sub s = true -> Py.contains sub (s +:+ t) = true.
Proof.
  induction s as [|d s IH]; intros H.
  - cbn [Py.contains] in H. rewrite orb_false_r in H.
    apply contains_prefix. by apply (prefix_append_l sub "" t).
  - cbn [Py.contains] in H. apply orb_true_iff in H as [H | H].
    + apply contains_prefix. by apply prefix_append_l.
    + change (String d s +:+ t) with (String d (s +:+ t)).
      cbn [Py.contains]. rewrite (IH H). apply orb_true_r.
Qed.

Lemma contains_append_r sub s t :
  Py.contains sub t = true -> Py.contains sub (s +:+ t) = true.
Proof.
  intros H. induction s as [|d s IH]; [done|].
  change (String d s +:+ t) with (String d (s +:+ t)).
  cbn [Py.contains]. rewrite IH. apply orb_true_r.
Qed.

Lemma contains_self s : Py.contains s s = true.
Proof.
  apply contains_prefix. induction s as [|c s IH]; [done|].
  cbn [String.prefix]. by destruct (Ascii.ascii_dec c c).
Qed.

(** every element of a joined list occurs in the result *)
Lemma contains_join sep x l : x ∈ l -> Py.contains x (Py.join sep l) = true.
Proof.
  unfold Py.join. induction l as [|y l IH]; intros Hin; [by apply elem_of_nil in Hin|].
  apply elem_of_cons in Hin.
  destruct l as [|z l].
  - destruct Hin as [-> | Hin]; [apply contains_self | by apply elem_of_nil in Hin].
  - change (String.concat sep (y :: z :: l))
      with (y +:+ sep +:+ String.concat sep (z :: l)).
    destruct Hin as [-> | Hin].
    + apply contains_append_l, contains_self.
    + apply contains_append_r, contains_append_r. by apply IH.
Qed.

Section Configuration.
Context (urlparse : string -> string + Config.Parsed).

(** X22. [validate] returns [True] exactly when the bot token and the
    Gemini key are set and non-empty and the database settings can be
    computed; it never returns [False].  Otherwise it raises one
    [ValueError] whose message starts with the fixed heading and names every
    problem found, not only the first. *)
Theorem validate_reports_every_problem (c : Config.t) :
  (Config.validate urlparse c = inr true <->
   Py.truthy_opt (Config.TELEGRAM_BOT_TOKEN c) = true /\
   Py.truthy_opt (Config.GEMINI_API_KEY c) = true /\
   exists settings, Config.get_mongodb_settings urlparse c = inr settings) /\
  Config.validate urlparse c <> inr false /\
  forall message,
    Config.validate urlparse c = inl message ->
    Py.startswith message "Configuration errors: " = true /\
    (Py.truthy_opt (Config.TELEGRAM_BOT_TOKEN c) = false ->
     Py.contains Config.token_required message = true) /\
    (Py.truthy_opt (Config.GEMINI_API_KEY c) = false ->
     Py.contains Config.key_required message = true) /\
    (forall e, Config.get_mongodb_settings urlparse c = inl e ->
               Py.contains ("Invalid DATABASE_URL: " +:+ e) message = true).
Proof.
  assert (Hin : forall x,
    x ∈ Config.errors urlparse c <->
    (Py.truthy_opt (Config.TELEGRAM_BOT_TOKEN c) = false /\ x = Config.token_required) \/
    (Py.truthy_opt (Config.GEMINI_API_KEY c) = false /\ x = Config.key_required) \/
    (exists e, Config.get_mongodb_settings urlparse c = inl e /\
               x = "Invalid DATABASE_URL: " +:+ e)).
  { intros x. unfold Config.errors.
    destruct (Py.truthy_opt (Config.TELEGRAM_BOT_TOKEN c)),
      (Py.truthy_opt (Config.GEMINI_API_KEY c)),
      (Config.get_mongodb_settings urlparse c) as [e|s];
      cbn [app]; rewrite ?elem_of_cons, ?elem_of_nil;
      (split;
       [ intros H; repeat (destruct H as [H | H]); try contradiction; subst; eauto 6
       | intros [[? ->] | [[? ->] | (e' & ? & ->)]];
         try discriminate; simplify_eq; auto ]). }
  unfold Config.validate.
  destruct (Config.errors urlparse c) as [|e0 errors] eqn:Herrors.
  - split_and!; [|done|done].
    split; [intros _|done].
    destruct (Py.truthy_opt (Config.TELEGRAM_BOT_TOKEN c)) eqn:Ht.
    2:{ exfalso. apply (elem_of_nil Config.token_required), Hin. by left. }
    destruct (Py.truthy_opt (Config.GEMINI_API_KEY c)) eqn:Hk.
    2:{ exfalso. apply (elem_of_nil Config.key_required), Hin. right. by left. }
    destruct (Config.get_mongodb_settings urlparse c) as [e|s] eqn:Hs; [|by eauto].
    exfalso. apply (elem_of_nil ("Invalid DATABASE_URL: " +:+ e)), Hin.
    right. right. by eauto.
  - split_and!; [|done|].
    { split; [done|]. intros (Ht & Hk & s & Hs). exfalso.
      assert (H0 : e0 ∈ e0 :: errors) by constructor.
      apply Hin in H0 as [[H0 _] | [[H0 _] | (e & H0 & _)]]; congruence. }
    intros message Hm.
    assert (message = "Configuration errors: " +:+ Py.join ", " (e0 :: errors))
      as -> by congruence.
    split_and!.
    + apply prefix_append.
    + intros Ht. apply contains_append_r, contains_join, Hin. by left.
    + intros Hk. apply contains_append_r, contains_join, Hin. right. by left.
    + intros e He. apply contains_append_r, contains_join, Hin. right. right. by eauto.
Qed.

(** X23. a database URL that does not start with [mongodb://] is never
    parsed and never reported: with the token and the key set, validation
    passes whatever the URL is, the empty one included. *)
Theorem other_database_urls_are_not_checked (c : Config.t) :
  Py.startswith (Config.DATABASE_URL c) "mongodb://" = false ->
  Config.get_mongodb_settings urlparse c
  = inr (Config.ConnectionString (Config.DATABASE_URL c)) /\
  (Py.truthy_opt (Config.TELEGRAM_BOT_TOKEN c) = true ->
   Py.truthy_opt (Config.GEMINI_API_KEY c) = true ->
   Config.validate urlparse c = inr true).
Proof.
  intros Hurl.
  assert (Hs : Config.get_mongodb_settings urlparse c
               = inr (Config.ConnectionString (Config.DATABASE_URL c))).
  { unfold Config.get_mongodb_settings. by rewrite Hurl. }
  split; [exact Hs|]. intros Ht Hk.
  unfold Config.validate, Config.errors. by rewrite Ht, Hk, Hs.
Qed.

End Configuration.

(** * Calls to the outside, and dates *)

#[local] Instance adds_service_events_preorder : PreOrder adds_service_events.
Proof.
  split.
  - intros w. exists []. by rewrite app_nil_r.
  - intros a b c (l1 & H1 & F1) (l2 & H2 & F2). exists (l1 ++ l2). split.
    + by rewrite H2, H1, app_assoc.
    + by apply Forall_app.
Qed.
#[local] Instance log_untouched_preorder : PreOrder log_untouched.
Proof.
  split; [by intros w|].
  intros a b c [H1 L1] [H2 L2]. split; [congruence | lia].
Qed.
#[local] Instance users_untouched_preorder : PreOrder users_untouched.
Proof.
  split; [by intros w|].
  intros a b c [H1 L1] [H2 L2]. split; [congruence | lia].
Qed.

Ltac unfold_handlers :=
  unfold App.webhook, App.get_bot,
    TelegramBot.handle_webhook_update, TelegramBot.process_message,
    TelegramBot.handle_command, TelegramBot.handle_document,
    TelegramBot.handle_photo, TelegramBot.download_file,
    TelegramBot.send_message, TelegramBot.send_typing_action,
    GeminiService.analyze_document, GeminiService.analyze_document_body,
    GeminiService.analyze_image, GeminiService.analyze_image_body,
    GeminiService.get_welcome_message, GeminiService.clear_context,
    GeminiService.clear_context_body, GeminiService.generate_response,
    GeminiService.generate_response_body, GeminiService.get_conversation_context.

(** the steps that only let time pass, closed by [leaf] *)
Ltac evo_leaves leaf :=
  repeat first [ progress unfold GeminiService.get_or_create_user,
                   GeminiService.save_message
               | progress unfold_store
               | evo_struct
               | apply evolves_modify; intros ?
               | apply evolves_tick; intros ? ];
  leaf.

Ltac evo_handlers frame_sub leaf special :=
  unfold_handlers;
  repeat first [ evo_struct
               | special
               | solve [ eapply evolves_weaken; [apply frame_sub | evo_leaves leaf] ] ].

Section Calls.
Variable env : Env.

Lemma same_trace_adds w w' : same_trace w w' -> adds_service_events w w'.
Proof. intros H. exists []. by rewrite app_nil_r. Qed.

Lemma emit_service e :
  service_event e = true -> evolves adds_service_events (emit e).
Proof.
  intros He w r w' H. unfold emit, modify in H. injection H as _ <-.
  exists [e]. split; [done|]. by constructor.
Qed.

Lemma generate_content_service model prompt attachment :
  evolves adds_service_events (generate_content env model prompt attachment).
Proof.
  unfold generate_content.
  repeat first [ evo_struct
               | apply emit_service; reflexivity
               | solve [ eapply evolves_weaken; [apply same_trace_adds | evo_frame] ] ].
Qed.

Lemma process_message_service message :
  evolves adds_service_events (TelegramBot.process_message env message).
Proof.
  evo_pipeline same_trace_adds
    ltac:(first [ apply emit_service; reflexivity
                | apply generate_content_service ]).
Qed.

(** what [handle_webhook_update] does with a message, new or edited *)
Lemma handle_webhook_update_message message (edited : bool) w :
  let chat := Message.chat_id message in
  let w0 := set_trace (fun t => t ++ [EvTyping chat]) w in
  exists reply w1,
    TelegramBot.process_message env message w0 = (Ok reply, w1) /\
    TelegramBot.handle_webhook_update env
      (if edited then UpdEdited message else UpdMessage message) w
    = (Ok (telegram_send env (clock w1)),
       set_trace
         (fun t => t ++ [EvSendMessage chat
                           (if edited then "📝 *Updated response:*

" +:+ reply else reply) (Some "Markdown")])
         (set_clock S w1)).
Proof.
  intros chat w0.
  destruct (process_message_total env message w0) as (reply & w1 & Hp).
  exists reply, w1. split; [exact Hp|].
  destruct edited;
    unfold TelegramBot.handle_webhook_update; apply try_except_ok;
    unfold TelegramBot.send_typing_action, emit, modify;
    unfold bind at 1; fold chat; fold w0;
    rewrite (bind_ok _ _ _ _ _ Hp); apply send_message_inv.
Qed.

(** X24. Every message, new or edited, gets exactly one typing action, first,
    and exactly one reply, last, both to the chat it came from; what the
    bot does in between towards the outside are downloads and completion
    calls only.  The value returned is whether the reply was delivered. *)
Theorem message_update_is_answered_once message update w r w' :
  update = UpdMessage message \/ update = UpdEdited message ->
  TelegramBot.handle_webhook_update env update w = (r, w') ->
  let chat := Message.chat_id message in
  exists calls text,
    trace w' =
      trace w ++ [EvTyping chat] ++ calls
              ++ [EvSendMessage chat text (Some "Markdown")] /\
    Forall (fun e => service_event e = true) calls /\
    r = Ok (telegram_send env (pred (clock w'))).
Proof.
  intros Hupdate H chat.
  assert (Hw : exists (edited : bool) reply w1,
    TelegramBot.process_message env message
      (set_trace (fun t => t ++ [EvTyping chat]) w) = (Ok reply, w1) /\
    r = Ok (telegram_send env (clock w1)) /\
    w' = set_trace
           (fun t => t ++ [EvSendMessage chat
                             (if edited then "📝 *Updated response:*

" +:+ reply else reply) (Some "Markdown")])
           (set_clock S w1)).
  { destruct Hupdate as [-> | ->].
    - destruct (handle_webhook_update_message message false w)
        as (reply & w1 & Hp & Hw).
      rewrite H in Hw. injection Hw as -> ->. by exists false, reply, w1.
    - destruct (handle_webhook_update_message message true w)
        as (reply & w1 & Hp & Hw).
      rewrite H in Hw. injection Hw as -> ->. by exists true, reply, w1. }
  destruct Hw as (edited & reply & w1 & Hp & -> & ->).
  destruct (process_message_service message _ _ _ Hp) as (calls & Htrace & Hcalls).
  exists calls. eexists. split_and!; [|exact Hcalls|done].
  simpl. rewrite Htrace. simpl. by rewrite <- !app_assoc.
Qed.

End Calls.

Section Dates.
Variable env : Env.
Hypothesis Hclock : monotone_clock env.

Lemma log_untouched_keeps_chronological w w' :
  log_untouched w w' -> keeps (chronological env) w w'.
Proof.
  intros [Hc Hk] [Hs Hb]. unfold chronological. rewrite Hc. split; [done|].
  eapply Forall_impl; [exact Hb|]. intros c Hle. simpl in Hle.
  etransitivity; [exact Hle|]. by apply Hclock.
Qed.

Lemma users_untouched_keeps_dated w w' :
  users_untouched w w' -> keeps (dated_users env) w w'.
Proof.
  intros [Hu Hk] Hd. unfold dated_users in *. rewrite Hu.
  eapply Forall_impl; [exact Hd|]. intros u [H1 H2]. split; [done|].
  etransitivity; [exact H2|]. by apply Hclock.
Qed.

Lemma conversation_save_clock c : evolves users_untouched (conversation_save env c).
Proof. evo_leaves ltac:(try (unfold users_untouched; simpl; split; [done | lia])). Qed.

Lemma conversation_delete_clock key :
  evolves users_untouched (conversation_delete env key).
Proof. evo_leaves ltac:(try (unfold users_untouched; simpl; split; [done | lia])). Qed.

Lemma user_insert_clock u : evolves log_untouched (user_insert env u).
Proof. evo_leaves ltac:(try (unfold log_untouched; simpl; split; [done | lia])). Qed.

Lemma user_update_clock pk u : evolves log_untouched (user_update env pk u).
Proof. evo_leaves ltac:(try (unfold log_untouched; simpl; split; [done | lia])). Qed.

Lemma save_message_chronological user message_type content message_id :
  evolves (keeps (chronological env))
    (GeminiService.save_message env user message_type content message_id).
Proof.
  intros w r w' H. unfold GeminiService.save_message in H.
  apply bind_inv in H as [(ts & w1 & Hn & H) | (e & Hn & ->)];
    apply now_inv in Hn as [Hts ->]; [|discriminate].
  injection Hts as ->.
  pose proof (conversation_save_clock _ _ _ _ H) as [_ Hclk]. simpl in Hclk.
  apply conversation_save_inv in H as (_ & _ & _ & H).
  intros [Hs Hb]. unfold chronological.
  assert (Hlater : forall c, c ∈ conversations w ->
                             (Conversation.timestamp c <= utcnow env (clock w'))%Z).
  { intros c Hc. rewrite Forall_forall in Hb.
    etransitivity; [by apply Hb|]. apply Hclock. lia. }
  destruct r as [[]|e].
  - rewrite H. split.
    + apply StronglySorted_app. split_and!; [|done|repeat constructor].
      intros c d Hc Hd%list_elem_of_singleton. subst d. unfold older_first. simpl.
      rewrite Forall_forall in Hb. by apply Hb.
    + apply Forall_app. split; [by apply Forall_forall|].
      constructor; [|done]. simpl. apply Hclock. lia.
  - destruct H as [-> _]. split; [done | by apply Forall_forall].
Qed.

Lemma conversation_delete_chronological key :
  evolves (keeps (chronological env)) (conversation_delete env key).
Proof.
  intros w r w' H [Hs Hb]. unfold chronological.
  pose proof (conversation_delete_clock _ _ _ _ H) as [_ Hclk].
  apply conversation_delete_inv in H as (_ & _ & _ & H).
  assert (Hlater : forall c, c ∈ conversations w ->
                             (Conversation.timestamp c <= utcnow env (clock w'))%Z).
  { intros c Hc. rewrite Forall_forall in Hb.
    etransitivity; [by apply Hb|]. apply Hclock. lia. }
  destruct r as [n|e].
  - destruct H as [_ ->]. split.
    + clear Hb Hlater. induction Hs as [|c l Hs IH Hc]; [constructor|].
      rewrite filter_cons. case_decide; [|done].
      constructor; [done|]. rewrite Forall_forall in *.
      intros d [_ Hd]%list_elem_of_filter. by apply Hc.
    + apply Forall_forall. intros c [_ Hc]%list_elem_of_filter. by apply Hlater.
  - rewrite H. split; [done | by apply Forall_forall].
Qed.

(** X25. When the clock never goes backwards, the webhook keeps the log in
    chronological order: entries are stored in the order of their
    timestamps and none is stamped in the future, so the newest-first
    fetch of the context is the log read backwards. *)
Theorem webhook_keeps_log_chronological update w r w' :
  chronological env w ->
  App.webhook env update w = (r, w') ->
  chronological env w'.
Proof.
  intros Hw H. revert Hw.
  assert (Hev : evolves (keeps (chronological env)) (App.webhook env update)).
  { evo_handlers log_untouched_keeps_chronological
      ltac:(try (unfold log_untouched; simpl; split; [done | lia]))
      ltac:(first [ apply save_message_chronological
                  | apply conversation_delete_chronological ]). }
  exact (Hev w r w' H).
Qed.

Lemma get_or_create_user_dated tid un fn ln :
  evolves (keeps (dated_users env))
    (GeminiService.get_or_create_user env tid un fn ln).
Proof.
  intros w r w' H Hd. unfold GeminiService.get_or_create_user in H.
  assert (Hold : forall k, clock w <= k ->
            Forall (fun u => (User.created_at u <= User.updated_at u)%Z /\
                             (User.updated_at u <= utcnow env k)%Z) (users w)).
  { intros k Hk. eapply Forall_impl; [exact Hd|]. intros u [H1 H2].
    split; [done|]. etransitivity; [exact H2 | by apply Hclock]. }
  apply bind_inv in H as [(found & w1 & Hf & H) | (e & Hf & ->)];
    apply user_first_inv in Hf as [-> Hf].
  2:{ apply (Hold (S (clock w))). lia. }
  specialize (Hf found eq_refl). subst found.
  destruct (list_find _ (users w)) as [[pk user]|] eqn:Hfind.
  - destruct (negb _ || negb _).
    + apply bind_inv in H as [(ts & w2 & Hn & H) | (e & Hn & ->)];
        apply now_inv in Hn as [Hts ->]; [|discriminate].
      injection Hts as ->. simpl in H.
      apply bind_inv in H as [([] & w3 & Hu & H) | (e & Hu & ->)];
        pose proof (user_update_clock _ _ _ _ _ Hu) as [_ Hclk];
        simpl in Hclk; apply user_update_inv in Hu.
      * unfold ret in H. injection H as _ <-.
        destruct Hu as [Hu _]. unfold dated_users. rewrite Hu.
        apply Forall_insert; [apply Hold; lia|].
        apply list_find_Some in Hfind as (Hpk & _ & _).
        pose proof (Hold (S (clock w)) ltac:(lia)) as Hall.
        rewrite Forall_forall in Hall.
        destruct (Hall user) as [H1 H2]; [by eapply list_elem_of_lookup_2|].
        simpl. split; [by etransitivity | apply Hclock; lia].
      * unfold dated_users. rewrite Hu. apply Hold. lia.
    + unfold ret in H. injection H as _ <-. apply (Hold (S (clock w))). lia.
  - apply bind_inv in H as [(created & w2 & Hn & H) | (e & Hn & ->)];
      apply now_inv in Hn as [Hc ->]; [|discriminate].
    injection Hc as ->. simpl in H.
    apply bind_inv in H as [(updated & w3 & Hn & H) | (e & Hn & ->)];
      apply now_inv in Hn as [Hu ->]; [|discriminate].
    injection Hu as ->. simpl in H.
    apply bind_inv in H as [([] & w4 & Hi & H) | (e & Hi & ->)];
      pose proof (user_insert_clock _ _ _ _ Hi) as [_ Hclk];
      simpl in Hclk; apply user_insert_inv in Hi.
    + unfold ret in H. injection H as _ <-.
      destruct Hi as [Hi _]. unfold dated_users. rewrite Hi.
      apply Forall_app. split; [apply Hold; lia|].
      constructor; [|done]. simpl. split; apply Hclock; lia.
    + unfold dated_users. rewrite Hi. apply Hold. lia.
Qed.

(** X26. When the clock never goes backwards, no user document the webhook
    leaves was updated before it was created or is dated in the future,
    provided that was so before. *)
Theorem webhook_keeps_users_dated update w r w' :
  dated_users env w ->
  App.webhook env update w = (r, w') ->
  dated_users env w'.
Proof.
  intros Hw H. revert Hw.
  assert (Hev : evolves (keeps (dated_users env)) (App.webhook env update)).
  { evo_handlers users_untouched_keeps_dated
      ltac:(try (unfold users_untouched; simpl; split; [done | lia]))
      ltac:(apply get_or_create_user_dated). }
  exact (Hev w r w' H).
Qed.

End Dates.

(** * The properties above at concrete inputs *)


Lemma webhook_keeps_users_witness :
  exists u',
    users (world (App.webhook healthy_env (UpdMessage (text_message "Hello"))
                    world_with_bob)) !! 0 = Some u' /\
    User.telegram_id u' = Some 7%Z /\
    User.created_at u' = 1%Z /\
    User.is_active u' = true.
Proof.
  apply (webhook_keeps_users healthy_env (UpdMessage (text_message "Hello"))
           world_with_bob
           (value (App.webhook healthy_env (UpdMessage (text_message "Hello"))
                     world_with_bob))
           _ 0 stored_bob); vm_compute; reflexivity.
Defined.

Lemma webhook_media_consistent_witness :
  media_consistent
    (world (App.webhook healthy_env
              (UpdMessage (document_message "notes.txt" "text/plain" 1024))
              after_image_document)).
Proof.
  apply (webhook_media_consistent healthy_env
           (UpdMessage (document_message "notes.txt" "text/plain" 1024))
           after_image_document
           (value (App.webhook healthy_env
                     (UpdMessage (document_message "notes.txt" "text/plain" 1024))
                     after_image_document))).
  - unfold media_consistent. vm_compute.
    repeat constructor; try discriminate; try (intros [? ?]; discriminate); eauto.
  - vm_compute. reflexivity.
Defined.

Lemma webhook_keeps_media_witness :
  exists f',
    file_messages
      (world (App.webhook healthy_env (UpdMessage captioned_photo) after_image_document))
      !! 1 = Some f' /\
    FileMessage.processed f' = true.
Proof.
  destruct (webhook_keeps_media healthy_env (UpdMessage captioned_photo)
              after_image_document
              (value (App.webhook healthy_env (UpdMessage captioned_photo)
                        after_image_document))
              (world (App.webhook healthy_env (UpdMessage captioned_photo)
                        after_image_document))
              1
              (FileMessage.mk "7" (Some "F1") "photo" None None None true
                 (Some "Hi there!") 9))
    as (f' & Hf & Hp); [vm_compute; reflexivity ..|].
  exists f'. split; [exact Hf | apply Hp; reflexivity].
Defined.

Lemma webhook_valid_entries_witness :
  valid_entries
    (world (App.webhook healthy_env (UpdMessage (text_message "/clearly")) after_two_users)).
Proof.
  apply (webhook_valid_entries healthy_env (UpdMessage (text_message "/clearly"))
           after_two_users
           (value (App.webhook healthy_env (UpdMessage (text_message "/clearly"))
                     after_two_users))).
  - unfold valid_entries. vm_compute. repeat constructor; set_solver.
  - vm_compute. reflexivity.
Defined.

Lemma process_message_appends_witness :
  conversations after_hello `prefix_of` conversations after_two_users.
Proof.
  apply (process_message_appends healthy_env (alice_message "Hi") after_hello
           (value (TelegramBot.process_message healthy_env (alice_message "Hi")
                     after_hello)));
    vm_compute; reflexivity.
Defined.

Lemma get_or_create_user_idempotent_witness :
  let first := GeminiService.get_or_create_user healthy_env (Some 7%Z) (Some "bob")
                 (Some "Bob") None empty_world in
  exists user,
    value first = Ok user /\
    GeminiService.get_or_create_user healthy_env (Some 7%Z) (Some "bob") (Some "Bob")
      None (world first)
    = (Ok user, set_clock S (world first)).
Proof.
  intros first.
  exists (User.mk (Some 7%Z) (Some "bob") (Some "Bob") None 1 2 true).
  split; [vm_compute; reflexivity|].
  apply (get_or_create_user_idempotent healthy_env (Some 7%Z) (Some "bob")
           (Some "Bob") None empty_world);
    vm_compute; reflexivity.
Defined.

Lemma analyze_image_erases_profile_witness :
  exists reply w',
    GeminiService.analyze_image healthy_env (Some 7%Z) (Some "F1") "/tmp/tmp0.jpg" None
      world_with_bob = (Ok reply, w') /\
    users w' = [User.mk (Some 7%Z) None None None 1 1 true].
Proof.
  apply (analyze_image_erases_profile healthy_env (Some 7%Z) 0 stored_bob
           (Some "F1") "/tmp/tmp0.jpg" None world_with_bob);
    try reflexivity.
  - left. discriminate.
  - by eexists.
Defined.

Lemma get_conversation_context_most_recent_witness : (4 <= 8)%Z.
Proof.
  apply (get_conversation_context_most_recent healthy_env stored_bob 1 after_hello
           [Conversation.mk "7" "assistant" "Hi there!" 8 None]
           (set_clock S after_hello)
           (Conversation.mk "7" "assistant" "Hi there!" 8 None)
           (Conversation.mk "7" "user" "Hello" 4 (Some 1%Z))).
  - vm_compute. reflexivity.
  - lia.
  - set_solver.
  - vm_compute. set_solver.
  - intros Hin. apply list_elem_of_singleton in Hin. discriminate.
Defined.

Lemma generate_response_prompt_ends_with_message_witness :
  exists earlier,
    length earlier <= 9 /\
    trace
      (world (GeminiService.generate_response_body healthy_env (Some 7%Z) "And you?"
                (Some "bob") (Some "Bob") None (Some 2%Z) after_hello))
    = trace after_hello ++
        [EvGenerate GeminiService.model_name
           (GeminiService.system_prompt (Some "bob") (Some "Bob") +:+ "

Conversation history:
" +:+ Py.join "
" ((GeminiService.context_line <$> earlier) ++ ["User: And you?"]) +:+ "

Please respond to the latest user message.") None].
Proof.
  destruct (generate_response_prompt_ends_with_message healthy_env (Some 7%Z)
              "And you?" (Some "bob") (Some "Bob") None (Some 2%Z) after_hello
              "Hi there!"
              (world (GeminiService.generate_response_body healthy_env (Some 7%Z)
                        "And you?" (Some "bob") (Some "Bob") None (Some 2%Z)
                        after_hello))
              (Conversation.mk "7" "user" "And you?" 11 (Some 2%Z))
              (Conversation.mk "7" "assistant" "Hi there!" 15 None))
    as (earlier & Hlen & _ & Htrace).
  - vm_compute. reflexivity.
  - vm_compute. reflexivity.
  - vm_compute. repeat constructor.
  - exists earlier. split; [exact Hlen | exact Htrace].
Defined.


Lemma handle_command_persistence_witness :
  let r := TelegramBot.handle_command healthy_env (text_message "/start") after_hello in
  users (world r) = users after_hello /\
  file_messages (world r) = file_messages after_hello /\
  conversations (world r) = conversations after_hello.
Proof.
  intros r.
  destruct (handle_command_persistence healthy_env (text_message "/start") after_hello
              (value r) (world r)) as (_ & Hu & Hf & Hc).
  - vm_compute. reflexivity.
  - split_and!; [exact Hu | exact Hf | apply Hc; reflexivity].
Defined.

Lemma get_welcome_message_fallback_witness :
  exists w',
    GeminiService.get_welcome_message gemini_down_env (Some "Bob") empty_world
    = (Ok "Welcome Bob! I'm an AI assistant powered by Google Gemini. I can help with text, images, and files. How can I help you today?", w') /\
    same_collections empty_world w'.
Proof.
  apply (get_welcome_message_fallback gemini_down_env (Some "Bob") empty_world).
  intros prompt. left. reflexivity.
Defined.

Lemma analyze_image_completed_witness :
  exists ts tsu tsa bytes text,
    fs world_with_download !! "/tmp/tmp0.png" = Some bytes /\
    file_messages (world image_run) =
      file_messages world_with_download ++
        [FileMessage.mk "7" (Some "F1") "photo" None None None true
           (Some "Hi there!") ts] /\
    conversations (world image_run) =
      conversations world_with_download ++
        [Conversation.mk "7" "user" (image_note (Some "nice view")) tsu None;
         Conversation.mk "7" "assistant" "Hi there!" tsa None] /\
    trace (world image_run) =
      trace world_with_download ++
        [EvGenerate GeminiService.vision_model (image_prompt (Some "nice view"))
           (Some bytes)] /\
    (exists k,
        gemini healthy_env k GeminiService.vision_model
          (image_prompt (Some "nice view")) (Some bytes)
        = GeminiText text) /\
    "Hi there!" = Py.or_else text "I could not analyze this image.".
Proof.
  apply (analyze_image_completed healthy_env (Some 7%Z) (Some "F1") "/tmp/tmp0.png"
           (Some "nice view") world_with_download "Hi there!" (world image_run)).
  vm_compute. reflexivity.
Defined.

Lemma analyze_image_completion_failure_witness :
  GeminiService.analyze_image gemini_down_env (Some 7%Z) (Some "F1") "/tmp/tmp0.png"
    None world_with_download
  = (Ok GeminiService.image_fallback, world failed_image_run) /\
  conversations (world failed_image_run) = conversations world_with_download /\
  exists ts,
    file_messages (world failed_image_run) =
      file_messages world_with_download ++
        [FileMessage.mk "7" (Some "F1") "photo" None None None false None ts].
Proof.
  apply (analyze_image_completion_failure gemini_down_env (Some 7%Z) (Some "F1")
           "/tmp/tmp0.png" None world_with_download (world failed_image_run)).
  vm_compute. reflexivity.
Defined.


Lemma handle_photo_largest_witness :
  exists i largest temp_path w1,
    three_sizes !! i = Some largest /\
    (forall p, p ∈ three_sizes ->
               (default 0 (PhotoSize.file_size p)
                <= default 0 (PhotoSize.file_size largest))%Z) /\
    (forall j p, three_sizes !! j = Some p -> j < i ->
                 (default 0 (PhotoSize.file_size p)
                  < default 0 (PhotoSize.file_size largest))%Z) /\
    trace w1 = trace empty_world ++ [EvGetFile (Some (PhotoSize.file_id largest))] /\
    same_collections empty_world w1 /\
    match telegram_file healthy_env (S (clock empty_world))
            (Some (PhotoSize.file_id largest)) with
    | Some bytes =>
        fs w1 !! temp_path = Some bytes /\
        exists reply w2,
          GeminiService.analyze_image healthy_env
            (TelegramBot.telegram_id_of captioned_photo)
            (Some (PhotoSize.file_id largest)) temp_path
            (Message.caption captioned_photo) w1
          = (Ok reply, w2) /\
          TelegramBot.handle_photo healthy_env captioned_photo empty_world
          = (Ok reply, set_fs (delete temp_path) w2)
    | None =>
        TelegramBot.handle_photo healthy_env captioned_photo empty_world
        = (Ok "Sorry, I couldn't download your image. Please try again.",
           set_fs (delete temp_path) w1)
    end.
Proof.
  apply (handle_photo_largest healthy_env captioned_photo three_sizes empty_world).
  - reflexivity.
  - discriminate.
Defined.

Lemma media_handlers_remove_temporary_file_witness :
  fs (world (TelegramBot.handle_photo healthy_env captioned_photo world_with_download))
  = delete "/tmp/tmp0.jpg" (fs world_with_download).
Proof.
  destruct (media_handlers_remove_temporary_file healthy_env captioned_photo
              world_with_download
              (value (TelegramBot.handle_photo healthy_env captioned_photo
                        world_with_download))
              (world (TelegramBot.handle_photo healthy_env captioned_photo
                        world_with_download)))
    as [H | [suffix H]].
  - left. vm_compute. reflexivity.
  - vm_compute. reflexivity.
  - vm_compute. reflexivity.
Defined.

Lemma blank_text_is_not_processed_witness :
  TelegramBot.process_message healthy_env (text_message "  
 ") after_hello = (Ok TelegramBot.please_send, after_hello).
Proof.
  apply (blank_text_is_not_processed healthy_env (text_message "  
 ") after_hello); reflexivity.
Defined.

Lemma webhook_statuses_witness :
  App.webhook healthy_env UpdOther after_hello = (Ok 200%Z, after_hello) /\
  App.webhook healthy_env UpdEmpty after_hello = (Ok 400%Z, after_hello).
Proof.
  split.
  - destruct (webhook_statuses healthy_env UpdOther after_hello)
      as (status & w' & H & _ & _ & _ & Hother).
    destruct (Hother eq_refl eq_refl) as [-> ->]. exact H.
  - destruct (webhook_statuses healthy_env UpdEmpty after_hello)
      as (status & w' & H & _ & _ & Hempty & _).
    destruct (Hempty eq_refl eq_refl) as [-> ->]. exact H.
Defined.

Lemma validate_reports_every_problem_witness :
  Py.contains Config.token_required
    "Configuration errors: TELEGRAM_BOT_TOKEN environment variable is required, GEMINI_API_KEY environment variable is required, Invalid DATABASE_URL: Port out of range 0-65535"
  = true.
Proof.
  destruct (validate_reports_every_problem strict_urlparse
              (Config.mk None (Some "") "mongodb://db:99999/bot"))
    as (_ & _ & H).
  destruct (H _ eq_refl) as (_ & Ht & _).
  apply Ht. reflexivity.
Defined.

Lemma other_database_urls_are_not_checked_witness :
  Config.validate strict_urlparse (Config.mk (Some "123:abc") (Some "key") "")
  = inr true.
Proof.
  destruct (other_database_urls_are_not_checked strict_urlparse
              (Config.mk (Some "123:abc") (Some "key") "")) as [_ H].
  - reflexivity.
  - apply H; reflexivity.
Defined.

Lemma message_update_is_answered_once_witness :
  let run := TelegramBot.handle_webhook_update healthy_env
               (UpdEdited captioned_photo) empty_world in
  exists calls text,
    trace (world run) =
      trace empty_world ++ [EvTyping (Message.chat_id captioned_photo)] ++ calls
        ++ [EvSendMessage (Message.chat_id captioned_photo) text (Some "Markdown")] /\
    Forall (fun e => service_event e = true) calls /\
    value run = Ok (telegram_send healthy_env (pred (clock (world run)))).
Proof.
  intros run.
  apply (message_update_is_answered_once healthy_env captioned_photo
           (UpdEdited captioned_photo) empty_world (value run) (world run)).
  - right. reflexivity.
  - vm_compute. reflexivity.
Defined.

Lemma webhook_keeps_log_chronological_witness :
  chronological healthy_env
    (world (App.webhook healthy_env (UpdMessage (alice_message "Hi")) after_hello)).
Proof.
  apply (webhook_keeps_log_chronological healthy_env
           (fun j k Hjk => proj1 (Nat2Z.inj_le j k) Hjk)
           (UpdMessage (alice_message "Hi")) after_hello
           (value (App.webhook healthy_env (UpdMessage (alice_message "Hi"))
                     after_hello))).
  - unfold chronological. vm_compute.
    split; repeat constructor; discriminate.
  - vm_compute. reflexivity.
Defined.

Lemma webhook_keeps_users_dated_witness :
  dated_users healthy_env
    (world (App.webhook healthy_env (UpdMessage (text_message "And you?")) after_hello)).
Proof.
  apply (webhook_keeps_users_dated healthy_env
           (fun j k Hjk => proj1 (Nat2Z.inj_le j k) Hjk)
           (UpdMessage (text_message "And you?")) after_hello
           (value (App.webhook healthy_env (UpdMessage (text_message "And you?"))
                     after_hello))).
  - unfold dated_users. vm_compute.
    repeat constructor; discriminate.
  - vm_compute. reflexivity.
Defined.
